(** * Bike-share assistant: natural-language question to SQL plan

    A shallow embedding of the translation pipeline of the repository:
    - [SemanticMapper.calculateColumnScore] and [mapUserQueryToSchema]
      (src/semanticMapper.ts),
    - [QueryGenerator.parseDateExpressions], [parseAggregations],
      [parseFilters], [buildSQLQuery] and [generateQuery]
      (src/queryGenerator.ts),
    - the validation of the question and the T-1 shortcut of the [/query]
      request handler (src/index.ts),
    - [extractFirstJsonObject], the mapper's guard on the answer of the
      language model (src/semanticMapper.ts), in module [JsonGuard].

    Conventions of the model.
    - Text is a [string] of bytes and is read as ASCII: [toLowerCase] folds
      [A-Z], the regular-expression classes [\w], [\d], [\s] are their ASCII
      versions.
    - JavaScript numbers that the code computes are integers; they are [Z].
    - The regular expressions of the source are compiled by hand into
      matchers that try every start position from the left and, at a
      position, the alternatives in the order a backtracking matcher does.
    - The catalogue rows, the advisory slot record returned by the language
      model, the time zone of the process and the current date are inputs of
      the functions that depend on them.
    - Two object literals serve as maps.  [monthMap] is looked up with words
      of the question, so the members it inherits from [Object.prototype]
      are part of the model ([inheritedKeys]); [aliasMap] is looked up with
      table names of the catalogue, which are taken not to name such
      members. *)

From Stdlib Require Import ZArith Lia List Bool Ascii String DecimalString
  Permutation Sorted.
From stdpp Require Import gmap strings.
Import ListNotations.
Open Scope string_scope.
Open Scope Z_scope.

(** ** Strings as JavaScript uses them *)

Module Str.

Definition code (c : ascii) : N := N_of_ascii c.

Definition between (lo hi : N) (c : ascii) : bool :=
  ((lo <=? code c) && (code c <=? hi))%N.

Definition isUpper : ascii -> bool := between 65 90.
Definition isLower : ascii -> bool := between 97 122.
Definition isDigit : ascii -> bool := between 48 57.

(** [\w] *)
Definition isWord (c : ascii) : bool :=
  isUpper c || isLower c || isDigit c || Ascii.eqb c "_".

(** [\s]: tab, line feed, vertical tab, form feed, carriage return, space *)
Definition isSpace (c : ascii) : bool :=
  between 9 13 c || Ascii.eqb c " ".

Definition lowerChar (c : ascii) : ascii :=
  if isUpper c then ascii_of_N (code c + 32) else c.

Fixpoint toLowerCase (s : string) : string :=
  match s with
  | EmptyString => EmptyString
  | String c s' => String (lowerChar c) (toLowerCase s')
  end.

Fixpoint startsWith (s p : string) : bool :=
  match p, s with
  | EmptyString, _ => true
  | String a p', String b s' => Ascii.eqb a b && startsWith s' p'
  | String _ _, EmptyString => false
  end.

(** [s.includes(p)] *)
Fixpoint includes (s p : string) : bool :=
  startsWith s p ||
  match s with
  | EmptyString => false
  | String _ s' => includes s' p
  end.

Definition isEmpty (s : string) : bool :=
  match s with EmptyString => true | _ => false end.

(** [l.includes(w)] on an array of strings *)
Definition elem (w : string) (l : list string) : bool :=
  existsb (String.eqb w) l.

(** [s.split(re)] for a separator that is a run [[sep]+]: leading and
    trailing separators leave empty pieces, as in JavaScript. *)
Fixpoint splitRuns (sep : ascii -> bool) (inSep : bool) (cur s : string)
  : list string :=
  match s with
  | EmptyString => [cur]
  | String c s' =>
      if sep c
      then if inSep then splitRuns sep true "" s'
           else cur :: splitRuns sep true "" s'
      else splitRuns sep false (cur ++ String c "") s'
  end.

Definition split (sep : ascii -> bool) (s : string) : list string :=
  splitRuns sep false "" s.

(** [s.split(/\s+/).filter(word => word.length > 0)] *)
Definition words (s : string) : list string :=
  List.filter (fun w => negb (isEmpty w)) (split isSpace s).

(** longest prefix of characters satisfying [p], and the rest *)
Fixpoint span (p : ascii -> bool) (s : string) : string * string :=
  match s with
  | EmptyString => ("", "")
  | String c s' =>
      if p c then let (a, b) := span p s' in (String c a, b)
      else ("", s)
  end.

(** the rest of [s] after its prefix [p], when [s] starts with [p] *)
Fixpoint stripPrefix (p s : string) : option string :=
  match p, s with
  | EmptyString, _ => Some s
  | String a p', String b s' => if Ascii.eqb a b then stripPrefix p' s' else None
  | String _ _, EmptyString => None
  end.

(** exactly [n] characters satisfying [p] *)
Fixpoint takeN (p : ascii -> bool) (n : nat) (s : string) : option (string * string) :=
  match n with
  | O => Some ("", s)
  | S n' =>
      match s with
      | String c s' =>
          if p c then
            match takeN p n' s' with
            | Some (a, b) => Some (String c a, b)
            | None => None
            end
          else None
      | EmptyString => None
      end
  end.

Definition digitVal (c : ascii) : Z := Z.of_N (code c) - 48.

(** [parseInt] of a string of decimal digits *)
Definition parseInt (s : string) : Z :=
  fold_left (fun acc c => 10 * acc + digitVal c) (list_ascii_of_string s) 0.

Definition showNat (n : nat) : string := NilZero.string_of_uint (Nat.to_uint n).

Definition showN (n : N) : string := NilZero.string_of_uint (N.to_uint n).

(** decimal rendering of an integer, as a template literal prints it *)
Definition showZ (z : Z) : string :=
  if z <? 0 then "-" ++ showN (Z.to_N (- z)) else showN (Z.to_N z).

(** [String(n).padStart(w, '0')] for a natural number *)
Definition pad (w : nat) (z : Z) : string :=
  let s := showN (Z.to_N z) in
  string_of_list_ascii (repeat "0"%char (w - String.length s)) ++ s.

Fixpoint join (sep : string) (l : list string) : string :=
  match l with
  | [] => ""
  | [x] => x
  | x :: rest => x ++ sep ++ join sep rest
  end.

Definition trimStart (s : string) : string := snd (span isSpace s).

Fixpoint trimEnd (s : string) : string :=
  match s with
  | EmptyString => EmptyString
  | String c s' =>
      let r := trimEnd s' in
      if isSpace c && isEmpty r then EmptyString else String c r
  end.

(** [s.trim()] *)
Definition trim (s : string) : string := trimEnd (trimStart s).

End Str.

(** ** The regular expressions of the source, compiled by hand *)

Module Re.
Import Str.

(** leftmost match: [m prev s] is tried at every suffix [s] of the text,
    [prev] being the character before it *)
Fixpoint searchFrom {A} (m : option ascii -> string -> option A)
         (prev : option ascii) (s : string) : option A :=
  match m prev s with
  | Some r => Some r
  | None =>
      match s with
      | EmptyString => None
      | String c s' => searchFrom m (Some c) s'
      end
  end.

Definition search {A} (m : string -> option A) (s : string) : option A :=
  searchFrom (fun _ => m) None s.

(** first success among alternatives tried in order *)
Fixpoint firstOf {A B} (k : A -> option B) (alts : list A) : option B :=
  match alts with
  | [] => None
  | a :: rest => match k a with Some r => Some r | None => firstOf k rest end
  end.

(** [\w+] followed by something that is not a word character: the run is
    maximal *)
Definition word1 (s : string) : option (string * string) :=
  let (w, r) := span isWord s in if isEmpty w then None else Some (w, r).

(** [\s+], maximal *)
Definition space1 (s : string) : option string :=
  let (w, r) := span isSpace s in if isEmpty w then None else Some r.

(** [\s*] *)
Definition space0 (s : string) : string := snd (span isSpace s).

(** [\d+], maximal *)
Definition digits1 (s : string) : option (string * string) :=
  let (d, r) := span isDigit s in if isEmpty d then None else Some (d, r).

(** [(\w+) (\d{4})] at a position *)
Definition wordYearAt (s : string) : option (string * string) :=
  match word1 s with
  | Some (w, r) =>
      match stripPrefix " " r with
      | Some r1 =>
          match takeN isDigit 4 r1 with
          | Some (y, _) => Some (w, y)
          | None => None
          end
      | None => None
      end
  | None => None
  end.

(** [/(\w+) (\d{4})/] *)
Definition monthYear : string -> option (string * string) := search wordYearAt.

(** [/first week of (\w+) (\d{4})/] *)
Definition firstWeek : string -> option (string * string) :=
  search (fun s => match stripPrefix "first week of " s with
                   | Some r => wordYearAt r
                   | None => None
                   end).

(** [/(\w+)\s+(\d{4})/] *)
Definition monthYearSpaces : string -> option (string * string) :=
  search (fun s =>
    match word1 s with
    | Some (w, r) =>
        match space1 r with
        | Some r1 =>
            match takeN isDigit 4 r1 with
            | Some (y, _) => Some (w, y)
            | None => None
            end
        | None => None
        end
    | None => None
    end).

(** [\d{1,2}], greedy: two digits are tried before one *)
Definition dayAlts (s : string) : list (string * string) :=
  match takeN isDigit 2 s, takeN isDigit 1 s with
  | Some a, Some b => [a; b]
  | None, Some b => [b]
  | _, _ => []
  end.

(** [(\w+\s+\d{1,2})] followed by the continuation [k]; the month word
    and the day are the groups of the inner [/(\w+)\s+(\d{1,2})/] that
    the source applies to the captured text *)
Definition monthDayThen {B} (k : string -> string -> string -> option B)
           (s : string) : option B :=
  match word1 s with
  | Some (w, r) =>
      match space1 r with
      | Some r1 => firstOf (fun '(d, r2) => k w d r2) (dayAlts r1)
      | None => None
      end
  | None => None
  end.

(** [\s*,?\s*(\d{4})] *)
Definition commaYear (s : string) : option string :=
  let r := space0 s in
  let year t := match takeN isDigit 4 t with Some (y, _) => Some y | None => None end in
  match stripPrefix "," r with
  | Some r1 =>
      match year (space0 r1) with
      | Some y => Some y
      | None => year r
      end
  | None => year r
  end.

(** [/between\s+(\w+\s+\d{1,2})\s+and\s+(\w+\s+\d{1,2})\s*,?\s*(\d{4})/i]
    on lower-cased text; the result is (start month, start day, end month,
    end day, year) *)
Definition betweenDates : string -> option (string * string * string * string * string) :=
  search (fun s =>
    match stripPrefix "between" s with
    | Some r =>
        match space1 r with
        | Some r1 =>
            monthDayThen (fun m1 d1 r2 =>
              match space1 r2 with
              | Some r3 =>
                  match stripPrefix "and" r3 with
                  | Some r4 =>
                      match space1 r4 with
                      | Some r5 =>
                          monthDayThen (fun m2 d2 r6 =>
                            match commaYear r6 with
                            | Some y => Some (m1, d1, m2, d2, y)
                            | None => None
                            end) r5
                      | None => None
                      end
                  | None => None
                  end
              | None => None
              end) r1
        | None => None
        end
    | None => None
    end).

(** [/(under|over)\s+(\d+)/i] on lower-cased text *)
Definition underOver : string -> option (string * string) :=
  search (fun s =>
    firstOf (fun kw =>
      match stripPrefix kw s with
      | Some r =>
          match space1 r with
          | Some r1 =>
              match digits1 r1 with
              | Some (d, _) => Some (kw, d)
              | None => None
              end
          | None => None
          end
      | None => None
      end) ["under"; "over"]).

(** [/(?:precipitation_mm|rain)\s*(>=|<=|=|>|<)\s*(\d+)/i] *)
Definition weatherCompare : string -> option (string * string) :=
  search (fun s =>
    firstOf (fun kw =>
      match stripPrefix kw s with
      | Some r =>
          firstOf (fun op =>
            match stripPrefix op (space0 r) with
            | Some r1 =>
                match digits1 (space0 r1) with
                | Some (d, _) => Some (op, d)
                | None => None
                end
            | None => None
            end) [">="; "<="; "="; ">"; "<"]
      | None => None
      end) ["precipitation_mm"; "rain"]).

(** [/>(\d+)°?c?/i] and [/<(\d+)°?c?/i]: the sign, then the digits *)
Definition signDigits (sign : string) : string -> option string :=
  search (fun s =>
    match stripPrefix sign s with
    | Some r => match digits1 r with Some (d, _) => Some d | None => None end
    | None => None
    end).

(** [/top\s+(\d+)/] *)
Definition topN : string -> option string :=
  search (fun s =>
    match stripPrefix "top" s with
    | Some r =>
        match space1 r with
        | Some r1 => match digits1 r1 with Some (d, _) => Some d | None => None end
        | None => None
        end
    | None => None
    end).

Definition dimensions : list string :=
  ["station"; "end station"; "start station"; "starts"; "day"; "date";
   "gender"; "bike"; "model"; "distance"; "trip distance"].

Definition notWordBefore (prev : option ascii) : bool :=
  match prev with Some c => negb (isWord c) | None => true end.

(** [/\bby\b\s+(?<dim>station|end station|...|trip distance)/i] *)
Definition byDimension : string -> option string :=
  searchFrom (fun prev s =>
    if notWordBefore prev then
      match stripPrefix "by" s with
      | Some r =>
          match space1 r with
          | Some r1 =>
              firstOf (fun d => if startsWith r1 d then Some d else None) dimensions
          | None => None
          end
      | None => None
      end
    else None) None.

(** *** Patterns that are only tested

    [pattern.test(s)] asks whether the pattern matches somewhere.  A matcher
    here takes the continuation of the pattern, and tries at a position what
    a backtracking matcher tries, the longer repetition first. *)

(** the pattern matches at some position of [s] *)
Fixpoint anywhere (m : string -> bool) (s : string) : bool :=
  m s || match s with
         | EmptyString => false
         | String _ s' => anywhere m s'
         end.

(** the end of the pattern *)
Definition matched (_ : string) : bool := true.

(** a literal *)
Definition lit (p : string) (k : string -> bool) (s : string) : bool :=
  match stripPrefix p s with
  | Some r => k r
  | None => false
  end.

Fixpoint stripPrefixI (p s : string) : option string :=
  match p, s with
  | EmptyString, _ => Some s
  | String a p', String b s' =>
      if Ascii.eqb (lowerChar a) (lowerChar b) then stripPrefixI p' s' else None
  | String _ _, EmptyString => None
  end.

(** a literal under the flag [i] *)
Definition litI (p : string) (k : string -> bool) (s : string) : bool :=
  match stripPrefixI p s with
  | Some r => k r
  | None => false
  end.

(** [\s+] *)
Fixpoint spaces1 (k : string -> bool) (s : string) : bool :=
  match s with
  | EmptyString => false
  | String c s' => isSpace c && (spaces1 k s' || k s')
  end.

(** [\s*] *)
Definition spaces0 (k : string -> bool) (s : string) : bool := spaces1 k s || k s.

(** line feed and carriage return, which [.] does not match *)
Definition isLineTerminator (c : ascii) : bool :=
  Ascii.eqb c "010" || Ascii.eqb c "013".

(** [.*] *)
Fixpoint dotStar (k : string -> bool) (s : string) : bool :=
  match s with
  | EmptyString => k s
  | String c s' => (negb (isLineTerminator c) && dotStar k s') || k s
  end.

(** [$] without the flag [m] *)
Definition atEnd (s : string) : bool := isEmpty s.

(** [/word1\s+word2/i] *)
Definition twoWordsI (word1 word2 : string) : string -> bool :=
  anywhere (litI word1 (spaces1 (litI word2 matched))).

End Re.

(** ** JavaScript dates

    [new Date(year, monthIndex, day)] reads its arguments in the local time
    zone of the process; [toISOString] prints the instant in UTC.  The zone
    is modelled by a constant offset [tz], in minutes east of UTC. *)

Module JsDate.
Import Str.

Definition msPerDay : Z := 86400000.
Definition msPerMinute : Z := 60000.

Definition inLeapYear (y : Z) : bool :=
  ((y mod 4 =? 0) && negb (y mod 100 =? 0)) || (y mod 400 =? 0).

(** ECMAScript [DayFromYear]: day number of 1 January of year [y] *)
Definition dayFromYear (y : Z) : Z :=
  365 * (y - 1970) + (y - 1969) / 4 - (y - 1901) / 100 + (y - 1601) / 400.

Definition daysInMonth (y m : Z) : Z :=
  if m =? 1 then (if inLeapYear y then 29 else 28)
  else if (m =? 3) || (m =? 5) || (m =? 8) || (m =? 10) then 30
  else 31.

(** days before month [m] (0 = January) within year [y] *)
Definition monthStart (y m : Z) : Z :=
  fold_left (fun acc k => acc + daysInMonth y (Z.of_nat k)) (seq 0 (Z.to_nat m)) 0.

(** ECMAScript [MakeDay]: months and days outside their range carry over *)
Definition makeDay (year month date : Z) : Z :=
  let ym := year + month / 12 in
  let mn := month mod 12 in
  dayFromYear ym + monthStart ym mn + date - 1.

(** ECMAScript [MakeFullYear]: years 0 to 99 mean 1900 to 1999 *)
Definition makeFullYear (y : Z) : Z :=
  if (0 <=? y) && (y <=? 99) then 1900 + y else y.

(** [new Date(year, monthIndex, day)]: the time value of local midnight *)
Definition ofLocal (tz year month date : Z) : Z :=
  makeDay (makeFullYear year) month date * msPerDay - tz * msPerMinute.

(** civil date (year, month 1..12, day) of a day number *)
Definition civilFromDays (n : Z) : Z * Z * Z :=
  let z := n + 719468 in
  let era := z / 146097 in
  let doe := z - era * 146097 in
  let yoe := (doe - doe / 1460 + doe / 36524 - doe / 146096) / 365 in
  let doy := doe - (365 * yoe + yoe / 4 - yoe / 100) in
  let mp := (5 * doy + 2) / 153 in
  let d := doy - (153 * mp + 2) / 5 + 1 in
  let m := if mp <? 10 then mp + 3 else mp - 9 in
  let y := yoe + era * 400 in
  (if m <=? 2 then y + 1 else y, m, d).

Definition isoYear (y : Z) : string :=
  if (0 <=? y) && (y <=? 9999) then pad 4 y
  else if y <? 0 then "-" ++ pad 6 (- y) else "+" ++ pad 6 y.

Definition isoOfCivil (ymd : Z * Z * Z) : string :=
  let '(y, m, d) := ymd in isoYear y ++ "-" ++ pad 2 m ++ "-" ++ pad 2 d.

(** [date.toISOString().split('T')[0]] *)
Definition isoDate (tv : Z) : string := isoOfCivil (civilFromDays (tv / msPerDay)).

End JsDate.

(** ** The semantic column mapper (src/semanticMapper.ts) *)

(** a row of the schema cache *)
Record SchemaColumn := {
  table_name : string;
  column_name : string;
  data_type : string;
  sampled_values : option (list string)
}.

Record ColumnMapping := {
  tableName : string;
  columnName : string;
  dataType : string;
  score : Z
}.

Record TableMapping := {
  tm_tableName : string;
  tm_score : Z
}.

(** The fields of the advisory slot record that the pipeline reads. *)
Record LLMQueryAnalysis := {
  suggestedTables : list string;
  suggestedColumns : list string;
  weatherFilter : string;
  groupingDimensions : list string
}.

Record MappingResult := {
  tables : list TableMapping;
  suggestedCols : list ColumnMapping;
  llmAnalysis : LLMQueryAnalysis
}.

Module SemanticMapper.
Import Str.

Definition bonus (b : bool) (n : Z) : Z := if b then n else 0.

(** [userWords.some(word => l.includes(word))] *)
Definition someIn (userWords l : list string) : bool :=
  existsb (fun w => elem w l) userWords.

Definition sumZ (l : list Z) : Z := fold_right Z.add 0 l.

Definition distanceWords : list string :=
  ["distance"; "km"; "kilometre"; "kilometres"; "kilometer"; "kilometers";
   "how many kilometres"; "how many kilometers"].
Definition dateWords : list string :=
  ["date"; "time"; "when"; "june"; "2025"; "month"; "week"; "day"; "started";
   "ended"; "ride"; "journey"; "first"; "last"].
Definition numericWords : list string :=
  ["number"; "amount"; "count"; "total"; "sum"; "average"; "avg"; "distance";
   "km"; "kilometre"; "how many"; "most"; "departures"].
Definition textWords : list string :=
  ["name"; "text"; "description"; "label"; "avenue"; "congress"; "station";
   "location"; "place"; "point"; "docking"].
Definition genderWords : list string :=
  ["women"; "men"; "gender"; "female"; "male"; "rider"].
Definition weatherWords : list string :=
  ["weather"; "rain"; "rainy"; "precipitation"; "temperature"; "temp"; "condition"].

(** the three additions made for one user word longer than two characters *)
Definition partialMatch (colName userWord : string) : Z :=
  if (2 <? String.length userWord)%nat then
    bonus (includes colName userWord) 50
    + bonus (includes userWord colName) 30
    + bonus (existsb (fun token => includes token userWord || includes userWord token)
                     (split (fun c => Ascii.eqb c "_" || isSpace c) colName)) 25
  else 0.

Definition valueOverlap (sampled : option (list string)) (userWords : list string) : Z :=
  match sampled with
  | Some vals =>
      let lowered := map toLowerCase vals in
      sumZ (map (fun w => bonus (existsb (fun v => includes v w || includes w v) lowered) 30)
                userWords)
  | None => 0
  end.

Definition typeBonus (dt : string) (userWords : list string) : Z :=
  bonus ((includes dt "timestamp" || includes dt "date") && someIn userWords dateWords) 40
  + bonus ((includes dt "numeric" || includes dt "integer") && someIn userWords numericWords) 40
  + (if includes dt "character" || includes dt "text"
     then bonus (someIn userWords textWords) 40
          + bonus (someIn userWords genderWords) 35
          + bonus (someIn userWords weatherWords) 35
     else 0).

Definition tableBonus (tn : string) (userWords : list string) : Z :=
  (if String.eqb tn "trips"
   then bonus (someIn userWords ["trip"; "ride"; "journey"; "started"; "ended"; "departure"; "arrival"]) 30
        + bonus (someIn userWords ["time"; "duration"; "how long"; "average"]) 25
        + bonus (someIn userWords distanceWords) 35
        + bonus (someIn userWords ["women"; "woman"; "female"; "females"; "gender"]) 25
   else 0)
  + (if String.eqb tn "stations"
     then bonus (someIn userWords ["station"; "congress"; "avenue"; "location"; "place"; "start"; "end"; "point"; "docking"]) 30
          + bonus (someIn userWords ["name"; "title"; "most"; "departures"]) 25
     else 0)
  + (if String.eqb tn "daily_weather"
     then bonus (someIn userWords ["weather"; "rain"; "rainy"; "precipitation"; "condition"]) 30
          + bonus (someIn userWords ["temperature"; "temp"; "hot"; "cold"]) 25
     else 0)
  + (if String.eqb tn "bikes"
     then bonus (someIn userWords ["bike"; "bicycle"; "vehicle"]) 30
     else 0).

Definition cardinalityBonus (sampled : option (list string)) : Z :=
  match sampled with
  | Some vals => bonus (10 <? List.length vals)%nat 10
  | None => 0
  end.

Definition calculateColumnScore (userText : string) (c : SchemaColumn) : Z :=
  if isEmpty userText || isEmpty (column_name c) then 0
  else
    let userWords := words (toLowerCase userText) in
    let colName := toLowerCase (column_name c) in
    let dt := toLowerCase (data_type c) in
    let tn := toLowerCase (table_name c) in
    bonus (existsb (String.eqb colName) userWords) 100
    + sumZ (map (partialMatch colName) userWords)
    + bonus ((includes colName "distance" || includes colName "km")
             && someIn userWords distanceWords) 50
    + typeBonus dt userWords
    + valueOverlap (sampled_values c) userWords
    + tableBonus tn userWords
    + cardinalityBonus (sampled_values c).

(** rows that [groupColumnsByTable] keeps *)
Definition validColumn (c : SchemaColumn) : bool :=
  negb (isEmpty (table_name c)) && negb (isEmpty (column_name c)).

(** [Map.set] on an insertion-ordered map *)
Fixpoint upsert {V} (k : string) (f : option V -> V) (m : list (string * V))
  : list (string * V) :=
  match m with
  | [] => [(k, f None)]
  | (k', v) :: rest =>
      if String.eqb k' k then (k', f (Some v)) :: rest
      else (k', v) :: upsert k f rest
  end.

(** one iteration of the loop of [groupColumnsByTable] *)
Definition groupStep (grouped : list (string * list SchemaColumn)) (c : SchemaColumn)
  : list (string * list SchemaColumn) :=
  if validColumn c
  then upsert (table_name c)
         (fun o => match o with Some l => (l ++ [c])%list | None => [c] end) grouped
  else grouped.

Definition groupColumnsByTable (cache : list SchemaColumn)
  : list (string * list SchemaColumn) :=
  fold_left groupStep cache [].

(** [Array.prototype.sort] with comparator [(a, b) => key b - key a]:
    descending and stable *)
Fixpoint insertDesc {A} (key : A -> Z) (x : A) (l : list A) : list A :=
  match l with
  | [] => [x]
  | y :: rest =>
      if key x <? key y then y :: insertDesc key x rest else x :: l
  end.

Definition sortDesc {A} (key : A -> Z) (l : list A) : list A :=
  fold_right (insertDesc key) [] l.

(** the mapping pushed for a column of table [tn] *)
Definition scored (tn userText : string) (c : SchemaColumn) : ColumnMapping :=
  {| tableName := tn; columnName := column_name c;
     dataType := data_type c; score := calculateColumnScore userText c |}.

(** every column is scored; one is kept when its score is at least -10 *)
Definition scoreColumns (userText : string) (cache : list SchemaColumn)
  : list ColumnMapping :=
  flat_map (fun '(tn, cols) =>
    flat_map (fun c =>
      if -10 <=? calculateColumnScore userText c then [scored tn userText c] else []) cols)
    (groupColumnsByTable cache).

(** one iteration of the loop over the scored columns: the table score is
    the best score of its columns ([get(..) || 0], then [max]) *)
Definition scoreStep (m : list (string * Z)) (c : ColumnMapping) : list (string * Z) :=
  upsert (tableName c)
         (fun o => Z.max (match o with Some v => v | None => 0 end) (score c)) m.

Definition tableScores (cols : list ColumnMapping) : list (string * Z) :=
  fold_left scoreStep cols [].

Definition boostTable (llm : LLMQueryAnalysis) (t : TableMapping) : TableMapping :=
  if negb (Nat.eqb (List.length (suggestedTables llm)) 0)
     && elem (tm_tableName t) (suggestedTables llm)
  then {| tm_tableName := tm_tableName t; tm_score := tm_score t + 20 |}
  else t.

Definition boostColumn (llm : LLMQueryAnalysis) (c : ColumnMapping) : ColumnMapping :=
  if negb (Nat.eqb (List.length (suggestedColumns llm)) 0)
     && elem (columnName c) (suggestedColumns llm)
  then {| tableName := tableName c; columnName := columnName c;
          dataType := dataType c; score := score c + 15 |}
  else c.

(** all table mappings, boosted and sorted, before the slice to three *)
Definition rankedTables (cache : list SchemaColumn) (llm : LLMQueryAnalysis)
           (userText : string) : list TableMapping :=
  let scored := sortDesc score (scoreColumns userText cache) in
  let ts := sortDesc tm_score
              (map (fun '(tn, s) => {| tm_tableName := tn; tm_score := s |})
                   (tableScores scored)) in
  sortDesc tm_score (map (boostTable llm) ts).

(** all column mappings, boosted and sorted, before the slice to fifteen *)
Definition rankedColumns (cache : list SchemaColumn) (llm : LLMQueryAnalysis)
           (userText : string) : list ColumnMapping :=
  let scored := sortDesc score (scoreColumns userText cache) in
  sortDesc score (map (boostColumn llm) scored).

(** [cache] is the schema cache after [refreshSchemaCache], [llm] the
    result of [analyzeQueryIntent]. *)
Definition mapUserQueryToSchema (cache : list SchemaColumn) (llm : LLMQueryAnalysis)
           (userText : string) : MappingResult :=
  {| tables := firstn 3 (rankedTables cache llm userText);
     suggestedCols := firstn 15 (rankedColumns cache llm userText);
     llmAnalysis := llm |}.

End SemanticMapper.

(** ** The query generator (src/queryGenerator.ts) *)

Inductive Scalar :=
| SStr (s : string)
| SNum (z : Z)
| SNull.

(** a filter value or a bound parameter: a scalar, or an array for [IN] *)
Inductive Value :=
| One (v : Scalar)
| Many (l : list Scalar).

Record Filter := {
  column : string;
  operator : string;
  value : Value
}.

Record Aggregation := {
  function : string;
  agg_column : string;
  alias : string
}.

Record ParsedQuery := {
  sql : string;
  params : list Value;
  pq_tables : list string;
  pq_columns : list string;
  aggregations : list Aggregation;
  filters : list Filter
}.

Inductive Error :=
| NoRelevantTables   (* Error('No relevant tables found for the query') *)
| TypeError          (* a method called on a value that does not have it *)
| RangeError.        (* [toISOString] of an invalid date *)

(** [req.body.question]: a string, or any other value, [undefined]
    included *)
Inductive Question :=
| NotAString
| Text (question : string).

(** the three answers of the [/query] handler with status 400 *)
Inductive Rejection :=
| InvalidFormat    (* 'Invalid question format. ...' *)
| EmptyQuestion    (* 'Question cannot be empty or contain only whitespace' *)
| UnsafePattern.   (* 'Query contains potentially unsafe patterns. ...' *)

(** what the [/query] handler does with a request: it answers with status
    400, or an exception takes it to the answer with status 500, or it
    sends a query text and its parameters to the database *)
Inductive HandlerResult :=
| Status400 (rejection : Rejection)
| Status500 (e : Error)
| Executes (sql : string) (params : list Value).

(** the local calendar position of [new Date()]: [getFullYear()], [getMonth()] *)
Record Now := { nowYear : Z; nowMonth : Z }.

Module QueryGenerator.
Import Str.

(** [lowerText.includes(kw)] *)
Definition has (lowerText kw : string) : bool := includes lowerText kw.

Definition months : list string :=
  ["january"; "february"; "march"; "april"; "may"; "june";
   "july"; "august"; "september"; "october"; "november"; "december"].

Fixpoint indexOf (w : string) (l : list string) (i : Z) : option Z :=
  match l with
  | [] => None
  | x :: rest => if String.eqb x w then Some i else indexOf w rest (i + 1)
  end.

(** [getMonthIndex]: [None] is the source's [-1] *)
Definition getMonthIndex (month : string) : option Z :=
  indexOf (toLowerCase month) months 0.

Definition monthMap : list (string * Z) :=
  [("january", 0); ("jan", 0); ("february", 1); ("feb", 1); ("march", 2); ("mar", 2);
   ("april", 3); ("apr", 3); ("may", 4); ("june", 5); ("jun", 5); ("july", 6); ("jul", 6);
   ("august", 7); ("aug", 7); ("september", 8); ("sep", 8); ("sept", 8);
   ("october", 9); ("oct", 9); ("november", 10); ("nov", 10); ("december", 11); ("dec", 11)].

(** [monthMap] is an object literal: a lower-case key that names a member
    of [Object.prototype] finds that member *)
Definition inheritedKeys : list string := ["constructor"; "__proto__"].

(** [getMonthNumber]: [monthMap[name] || 0]; [None] is an inherited member,
    which is truthy and, as a month, not a number *)
Definition getMonthNumber (monthName : string) : option Z :=
  let key := toLowerCase monthName in
  match List.find (fun kv => String.eqb (fst kv) key) monthMap with
  | Some kv => Some (snd kv)
  | None => if elem key inheritedKeys then None else Some 0
  end.

Section Environment.
(** minutes east of UTC of the process, and the current local date *)
Variable tz : Z.
Variable now : Now.

Definition firstWeekBranch (lowerText : string) : option (string * string) :=
  match Re.firstWeek lowerText with
  | Some (month, year) =>
      match getMonthIndex month with
      | Some monthIndex =>
          let startDate := JsDate.ofLocal tz (parseInt year) monthIndex 1 in
          let endDate := startDate + 7 * 24 * 60 * 60 * 1000 in
          Some (JsDate.isoDate startDate, JsDate.isoDate endDate)
      | None => None
      end
  | None => None
  end.

Definition betweenBranch (lowerText : string) : option (string * string) :=
  match Re.betweenDates lowerText with
  | Some (startMonth, startDay, endMonth, endDay, year) =>
      match getMonthIndex startMonth, getMonthIndex endMonth with
      | Some startMonthIndex, Some endMonthIndex =>
          let startDate := JsDate.ofLocal tz (parseInt year) startMonthIndex (parseInt startDay) in
          let endDate := JsDate.ofLocal tz (parseInt year) endMonthIndex (parseInt endDay + 1) in
          Some (JsDate.isoDate startDate, JsDate.isoDate endDate)
      | _, _ => None
      end
  | None => None
  end.

Definition monthYearBranch (lowerText : string) : option (string * string) :=
  match Re.monthYear lowerText with
  | Some (month, year) =>
      match getMonthIndex month with
      | Some monthIndex =>
          let startDate := JsDate.ofLocal tz (parseInt year) monthIndex 1 in
          let endDate := JsDate.ofLocal tz (parseInt year) (monthIndex + 1) 1 in
          Some (JsDate.isoDate startDate, JsDate.isoDate endDate)
      | None => None
      end
  | None => None
  end.

Definition lastMonthBranch (lowerText : string) : option (string * string) :=
  if has lowerText "last month" then
    let lastMonth := JsDate.ofLocal tz (nowYear now) (nowMonth now - 1) 1 in
    let endOfLastMonth := JsDate.ofLocal tz (nowYear now) (nowMonth now) 0 in
    Some (JsDate.isoDate lastMonth, JsDate.isoDate endOfLastMonth)
  else None.

(** the date phrase resolver: (startDate, endDate), first match wins *)
Definition parseDateExpressions (text : string) : option (string * string) :=
  if isEmpty text then None
  else
    let lowerText := toLowerCase text in
    Re.firstOf (fun branch => branch lowerText)
               [firstWeekBranch; betweenBranch; monthYearBranch; lastMonthBranch].

(** *** Aggregations *)

Definition mkAgg (f c a : string) : Aggregation :=
  {| function := f; agg_column := c; alias := a |}.

Definition countStar (a : string) : list Aggregation := [mkAgg "COUNT" "*" a].

(** the branch taken before the cascade: average ride time *)
Definition rideTimeAggregation (lowerText : string) : list Aggregation :=
  if has lowerText "average" && (has lowerText "ride time" || has lowerText "ride time" || has lowerText "journey")
  then [mkAgg "AVG" "duration_calculated" "average_ride_time_minutes"]
  else [].

Definition distanceBranch (safeColumns : list ColumnMapping) : list Aggregation :=
  let distanceColumns :=
    List.filter (fun col =>
      let n := toLowerCase (columnName col) in
      includes n "distance" || includes n "km" || includes n "meters") safeColumns in
  match distanceColumns with
  | distanceColumn :: _ =>
      let n := toLowerCase (columnName distanceColumn) in
      if includes n "km" then [mkAgg "SUM" (columnName distanceColumn) "total_kilometres"]
      else if includes n "meters" then [mkAgg "SUM" (columnName distanceColumn) "total_kilometres"]
      else [mkAgg "SUM" (columnName distanceColumn) "total_distance"]
  | [] => []
  end.

Definition topByAverageBranch (lowerText : string) : list Aggregation :=
  if has lowerText "distance" || has lowerText "trip distance"
  then [mkAgg "AVG" "trip_distance_km" "average_distance"]
  else if has lowerText "duration" || has lowerText "ride time"
  then [mkAgg "AVG" "duration_calculated" "average_duration"]
  else [mkAgg "AVG" "trip_distance_km" "average_value"].

Definition genericAverageBranch (safeColumns : list ColumnMapping) : list Aggregation :=
  let numericColumns :=
    List.filter (fun col =>
      includes (dataType col) "numeric" || includes (dataType col) "integer"
      || includes (dataType col) "double") safeColumns in
  match numericColumns with
  | _ :: _ =>
      let meaningfulColumns :=
        List.filter (fun col =>
          negb (includes (columnName col) "id") && negb (includes (columnName col) "_id")
          && negb (String.eqb (columnName col) "trip_id")
          && negb (String.eqb (columnName col) "bike_id")
          && negb (String.eqb (columnName col) "station_id")) numericColumns in
      match meaningfulColumns with
      | c :: _ => [mkAgg "AVG" (columnName c) "average_value"]
      | [] => countStar "total_count"
      end
  | [] => []
  end.

(** the conditions of the [if / else if] cascade, in source order, up to
    the speed branch *)
Definition isDistanceText (t : string) : bool :=
  has t "kilometres" || has t "kilometers" || has t "distance"
  || (has t "how many" && (has t "kilometres" || has t "kilometers")).
Definition isRankingText (t : string) : bool :=
  has t "most" || has t "highest" || has t "busiest"
  || (has t "which" && has t "departures") || (has t "which" && has t "station")
  || (has t "which" && has t "dock") || (has t "which" && has t "docking").
Definition isCountText (t : string) : bool := has t "how many" || has t "count".
Definition isTotalRidesText (t : string) : bool :=
  has t "total rides" || has t "number of departures" || (has t "rides" && has t "total").
Definition isDailyTotalsText (t : string) : bool :=
  has t "daily totals" || has t "daily totals of".
Definition isTopByAverageText (t : string) : bool :=
  has t "top" && has t "by" && (has t "average" || has t "avg").
Definition isAgeText (t : string) : bool := has t "under" || has t "over" || has t "age".
Definition isWeekendDeparturesText (t : string) : bool :=
  has t "departures on weekends" || has t "weekend departures".
Definition isTop3Text (t : string) : bool := has t "top 3" && has t "average trip distance".
Definition isMostArrivalsText (t : string) : bool :=
  has t "most arrivals" || has t "destination station had the most".
Definition isDistanceByEndText (t : string) : bool :=
  has t "sum distance by end station" || has t "distance by end station".
Definition isStationByStartsText (t : string) : bool :=
  has t "busiest station by starts" || has t "station by starts".
Definition isRidesLastMonthText (t : string) : bool :=
  has t "total rides last month" || has t "rides last month".
Definition isRainyWeekdaysText (t : string) : bool :=
  has t "rainy weekdays" || has t "rainy weekday".
Definition isSpeedText (t : string) : bool :=
  has t "speed" || has t "pace" || has t "km/h" || has t "kph" || has t "mph"
  || has t "average speed".
Definition isPurchaseText (t : string) : bool :=
  has t "purchase" || has t "purchased" || has t "bought" || has t "acquisition"
  || has t "show bikes".

(** every branch of the cascade that stands before the speed branch *)
Definition beforeSpeed (t : string) : bool :=
  isDistanceText t || isRankingText t || isCountText t || isTotalRidesText t
  || isDailyTotalsText t || isTopByAverageText t || isAgeText t
  || isWeekendDeparturesText t || isTop3Text t || isMostArrivalsText t
  || isDistanceByEndText t || isStationByStartsText t || isRidesLastMonthText t
  || isRainyWeekdaysText t.

Definition speedAggregation : Aggregation :=
  mkAgg "SPEED" "speed_calculated" "average_speed_kmh".

(** the cascade: what the first branch whose condition holds pushes *)
Definition cascade (t : string) (safeColumns : list ColumnMapping) : list Aggregation :=
  if isDistanceText t then distanceBranch safeColumns
  else if isRankingText t then countStar "departure_count"
  else if isCountText t then countStar "total_count"
  else if isTotalRidesText t then countStar "total_rides"
  else if isDailyTotalsText t then countStar "ride_count"
  else if isTopByAverageText t then topByAverageBranch t
  else if isAgeText t then []
  else if isWeekendDeparturesText t then countStar "weekend_departures"
  else if isTop3Text t then [mkAgg "AVG" "trip_distance_km" "average_distance"]
  else if isMostArrivalsText t then countStar "arrival_count"
  else if isDistanceByEndText t then [mkAgg "SUM" "trip_distance_km" "total_kilometres"]
  else if isStationByStartsText t then countStar "departure_count"
  else if isRidesLastMonthText t then countStar "total_rides"
  else if isRainyWeekdaysText t then [mkAgg "SUM" "trip_distance_km" "total_kilometres"]
  else if isSpeedText t then [speedAggregation]   (* and returns at once *)
  else if isPurchaseText t then []
  else if has t "average" || has t "avg" then genericAverageBranch safeColumns
  else [].

Definition parseAggregations (text : string) (columns : list ColumnMapping)
  : list Aggregation :=
  let safeColumns :=
    List.filter (fun col => negb (isEmpty (columnName col)) && negb (isEmpty (dataType col)))
                columns in
  let lowerText := toLowerCase text in
  (rideTimeAggregation lowerText ++ cascade lowerText safeColumns)%list.

(** *** Filters *)

Definition mkFilter (c o : string) (v : Value) : Filter :=
  {| column := c; operator := o; value := v |}.
Definition str (s : string) : Value := One (SStr s).
Definition num (z : Z) : Value := One (SNum z).

Definition isTripText (t : string) : bool :=
  has t "departures" || has t "journeys" || has t "trips" || has t "ride"
  || has t "docking" || has t "women" || has t "female" || has t "which" || has t "most".

Definition isDateType (col : ColumnMapping) : bool :=
  includes (dataType col) "timestamp" || includes (dataType col) "date".

Definition forcedStartedAt : ColumnMapping :=
  {| tableName := "trips"; columnName := "started_at";
     dataType := "timestamp without time zone"; score := 0 |}.

Definition pickDateColumn (t : string) (safeColumns : list ColumnMapping)
           (primaryTable : string) : option ColumnMapping :=
  let chosen :=
    if isTripText t then
      match List.find (fun col => includes (columnName col) "started"
                                  && String.eqb (tableName col) "trips") safeColumns with
      | Some c => Some c
      | None => Some forcedStartedAt
      end
    else if has t "weather" && negb (has t "women") && negb (has t "female")
            && negb (has t "ride") then
      List.find (fun col => includes (columnName col) "weather"
                            && String.eqb (tableName col) "daily_weather") safeColumns
    else None in
  match chosen with
  | Some c => Some c
  | None =>
      match List.find (fun col => isDateType col && String.eqb (tableName col) primaryTable)
                      safeColumns with
      | Some c => Some c
      | None => List.find isDateType safeColumns
      end
  end.

Definition dateFilters (text t : string) (safeColumns : list ColumnMapping)
           (primaryTable : string) : list Filter :=
  match parseDateExpressions text with
  | Some (startDate, endDate) =>
      match pickDateColumn t safeColumns primaryTable with
      | Some dateColumn =>
          [mkFilter (columnName dateColumn) ">=" (str startDate);
           mkFilter (columnName dateColumn) "<" (str endDate)]
      | None => []
      end
  | None => []
  end.

Definition isWomenText (t : string) : bool :=
  has t "women" || has t "female" || has t "woman".
Definition isMenText (t : string) : bool := has t "men" || has t "male".

Definition womenGenderColumns (safeColumns : list ColumnMapping) : list ColumnMapping :=
  List.filter (fun col => includes (toLowerCase (columnName col)) "gender"
                          && includes (dataType col) "character"
                          && String.eqb (tableName col) "trips") safeColumns.

Definition menGenderColumns (safeColumns : list ColumnMapping) : list ColumnMapping :=
  List.filter (fun col => (includes (toLowerCase (columnName col)) "gender"
                           || includes (toLowerCase (columnName col)) "rider")
                          && String.eqb (tableName col) "trips") safeColumns.

Definition genderFilters (t : string) (safeColumns : list ColumnMapping) : list Filter :=
  if isWomenText t then
    match womenGenderColumns safeColumns with
    | genderColumn :: _ => [mkFilter (columnName genderColumn) "=" (str "female")]
    | [] => []
    end
  else if isMenText t then
    match menGenderColumns safeColumns with
    | genderColumn :: _ => [mkFilter (columnName genderColumn) "ILIKE" (str "%male%")]
    | [] => []
    end
  else [].

Definition locationFilters (t : string) (safeColumns : list ColumnMapping) : list Filter :=
  if has t "congress avenue" || has t "congress ave" || has t "congress" then
    match List.filter (fun col => includes (toLowerCase (columnName col)) "station"
                                  && includes (dataType col) "character"
                                  && String.eqb (tableName col) "stations") safeColumns with
    | stationColumn :: _ => [mkFilter (columnName stationColumn) "=" (str "Congress Avenue")]
    | [] => []
    end
  else [].

Definition isRainText (t : string) : bool := has t "rainy" || has t "rain" || has t "wet".

Definition rainFilters (t : string) : list Filter :=
  if isRainText t then [mkFilter "precipitation_mm" ">" (num 0)] else [].

Definition weatherCompareFilters (t : string) : list Filter :=
  if has t "precipitation_mm" || (has t "rain" && (has t ">=" || has t "<=" || has t "="))
  then match Re.weatherCompare t with
       | Some (op, v) => [mkFilter "precipitation_mm" op (num (parseInt v))]
       | None => []
       end
  else [].

Definition dryFilters (t : string) : list Filter :=
  if (has t "non-rainy" || has t "dry" || has t "not rainy")
     && negb (has t "rainy") && negb (has t "rain") && negb (has t "wet")
  then [mkFilter "precipitation_mm" "=" (num 0)] else [].

Definition temperatureFilters (t : string) : list Filter :=
  if has t "hot" || has t ">30" || has t "30°c" then
    let threshold := match Re.signDigits ">" t with Some d => parseInt d | None => 30 end in
    [mkFilter "high_temp_c" ">" (num threshold)]
  else if has t "cold" || has t "<0" || has t "0°c" then
    let threshold := match Re.signDigits "<" t with Some d => parseInt d | None => 0 end in
    [mkFilter "low_temp_c" "<" (num threshold)]
  else [].

Definition ageFilters (t : string) : list Filter :=
  if isAgeText t then
    match Re.underOver t with
    | Some (comparison, ageThreshold) =>
        let currentYear := 2025 in
        if String.eqb comparison "under"
        then [mkFilter "rider_birth_year" ">" (num (currentYear - parseInt ageThreshold))]
        else if String.eqb comparison "over"
        then [mkFilter "rider_birth_year" "<" (num (currentYear - parseInt ageThreshold))]
        else []
    | None => []
    end
  else [].

Definition weekendFilters (t : string) : list Filter :=
  if has t "weekend" || has t "weekends"
  then [mkFilter "started_at" "WEEKEND" (One SNull)] else [].

Definition weekdayFilters (t : string) : list Filter :=
  if has t "weekday" || has t "weekdays"
  then [mkFilter "started_at" "WEEKDAY" (One SNull)] else [].

(** the test of the last-day override for a filter it keeps *)
Definition isNonDateFilter (f : Filter) : bool :=
  negb (includes (column f) "started_at") && negb (includes (column f) "ended_at").

(** the date built from a month that is not a number is invalid, and
    [toISOString] raises on it *)
Definition lastDayOverride (t : string) (accumulated : list Filter) : Error + list Filter :=
  if has t "last day" || has t "last day of" then
    match Re.monthYearSpaces t with
    | Some (month, year) =>
        match getMonthNumber month with
        | Some monthNumber =>
            let lastDay := JsDate.ofLocal tz (parseInt year) monthNumber 0 in
            let nextMonth := JsDate.ofLocal tz (parseInt year) monthNumber 1 in
            inr (List.filter isNonDateFilter accumulated
                 ++ [mkFilter "started_at" ">=" (str (JsDate.isoDate lastDay));
                     mkFilter "started_at" "<" (str (JsDate.isoDate nextMonth))])%list
        | None => inl RangeError
        end
    | None => inr accumulated
    end
  else inr accumulated.

Definition dimensionFilters (t : string) : list Filter :=
  match Re.byDimension t with
  | Some dimension =>
      if elem dimension ["station"; "end station"; "start station"; "starts"]
      then [mkFilter "group_by_station" "DIMENSION" (str dimension)]
      else if elem dimension ["distance"; "trip distance"]
      then [mkFilter "group_by_station" "DIMENSION" (str dimension)]
      else if elem dimension ["day"; "date"]
      then [mkFilter "group_by_date" "DIMENSION" (str dimension)]
      else if String.eqb dimension "gender"
      then [mkFilter "group_by_gender" "DIMENSION" (str dimension)]
      else if elem dimension ["bike"; "model"]
      then [mkFilter "group_by_bike" "DIMENSION" (str dimension)]
      else []
  | None => []
  end.

(** the rules in source order; each pushes onto the same list *)
Definition accumulatedFilters (text t : string) (safeColumns : list ColumnMapping)
           (primaryTable : string) : list Filter :=
  (dateFilters text t safeColumns primaryTable
   ++ genderFilters t safeColumns
   ++ locationFilters t safeColumns
   ++ rainFilters t
   ++ weatherCompareFilters t
   ++ dryFilters t
   ++ temperatureFilters t
   ++ ageFilters t
   ++ weekendFilters t
   ++ weekdayFilters t)%list.

Definition parseFilters (text : string) (columns : list ColumnMapping)
           (primaryTable : string) : Error + list Filter :=
  if isEmpty text then inr []
  else
    let t := toLowerCase text in
    match lastDayOverride t (accumulatedFilters text t columns primaryTable) with
    | inl e => inl e
    | inr fs => inr (fs ++ dimensionFilters t)%list
    end.

(** *** Plan assembly *)

(** a rendered condition is a template: literal text and the numbered
    placeholders [$n] interpolated into it *)
Inductive Piece :=
| Lit (s : string)
| Placeholder (n : nat).

Definition showPiece (p : Piece) : string :=
  match p with
  | Lit s => s
  | Placeholder n => "$" ++ showNat n
  end.

Definition showCond (c : list Piece) : string := String.concat "" (map showPiece c).

Record SqlParts := {
  selectClause : string;
  fromClause : string;
  whereConds : list (list Piece);
  groupByClause : string;
  orderByClause : string;
  limitClause : string
}.

Definition whereClause (conds : list (list Piece)) : string :=
  match conds with
  | [] => ""
  | _ => " WHERE " ++ join " AND " (map showCond conds)
  end.

(** [selectClause + fromClause + whereClause + groupByClause + orderByClause + limitClause] *)
Definition assemble (p : SqlParts) : string :=
  selectClause p ++ fromClause p ++ whereClause (whereConds p)
  ++ groupByClause p ++ orderByClause p ++ limitClause p.

Definition getTableAlias (tn : string) : string :=
  if String.eqb tn "trips" then "t"
  else if String.eqb tn "stations" then "s"
  else if String.eqb tn "daily_weather" then "w"
  else if String.eqb tn "bikes" then "b"
  else "t".

Definition isSpeedQuery (userText : string) : bool := isSpeedText (toLowerCase userText).

Definition isBikeRelatedQuery (userText : string) : bool :=
  let t := toLowerCase userText in
  (has t "bikes" && (has t "purchased" || has t "bought" || has t "acquisition" || has t "show bikes"))
  || (has t "bike" && (has t "where" || has t "currently" || has t "docked")).

(** the test of the SELECT, GROUP BY and LIMIT stages *)
Definition isRankingQuery (t : string) : bool :=
  has t "most" || has t "highest" || has t "busiest"
  || (has t "which" && has t "departures") || (has t "which" && has t "station").

(** the test of the ORDER BY stage, which also counts "top" *)
Definition isRankingOrder (t : string) : bool := isRankingQuery t || has t "top".

Definition durationExpr : string :=
  "ROUND(AVG(EXTRACT(EPOCH FROM (t.ended_at - t.started_at)) / 60)::numeric, 0) AS ".

Definition aggregationClause (primaryAlias : string) (agg : Aggregation) : string :=
  if String.eqb (agg_column agg) "duration_calculated" then durationExpr ++ alias agg
  else if String.eqb (function agg) "COUNT" && String.eqb (agg_column agg) "*"
  then "COUNT(*) AS " ++ alias agg
  else if String.eqb (function agg) "SUM" && String.eqb (alias agg) "total_kilometres" then
    if includes (agg_column agg) "meters"
    then "ROUND(SUM(" ++ primaryAlias ++ "." ++ agg_column agg ++ ") * 0.001, 1) AS " ++ alias agg
    else "ROUND(SUM(" ++ primaryAlias ++ "." ++ agg_column agg ++ "), 1) AS " ++ alias agg
  else function agg ++ "(" ++ primaryAlias ++ "." ++ agg_column agg ++ ") AS " ++ alias agg.

Definition scalarClause (primaryAlias : string) (columns : list ColumnMapping)
           (agg : Aggregation) : string :=
  if negb (existsb (fun col => String.eqb (columnName col) (agg_column agg)) columns)
  then "COUNT(*) AS " ++ alias agg
  else if String.eqb (agg_column agg) "duration_calculated" then durationExpr ++ alias agg
  else if String.eqb (function agg) "SUM" && String.eqb (alias agg) "total_kilometres" then
    if includes (agg_column agg) "meters"
    then "ROUND(SUM(" ++ primaryAlias ++ "." ++ agg_column agg ++ ") * 0.001, 1) AS " ++ alias agg
    else "ROUND(SUM(" ++ primaryAlias ++ "." ++ agg_column agg ++ "), 1) AS " ++ alias agg
  else if String.eqb (function agg) "SPEED"
  then "ROUND((SUM(t.trip_distance_km) / NULLIF(SUM(EXTRACT(EPOCH FROM (t.ended_at - t.started_at))) / 3600.0, 0)), 1) AS " ++ alias agg
  else function agg ++ "(" ++ primaryAlias ++ "." ++ agg_column agg ++ ") AS " ++ alias agg.

Definition buildSelect (primaryTable primaryAlias t : string) (columns : list ColumnMapping)
           (aggs : list Aggregation) : string :=
  if (has t "average" || has t "mean")
     && (has t "ride time" || has t "journey" || has t "trip duration" || has t "duration")
  then "SELECT " ++ durationExpr ++ "average_ride_time_minutes"
  else if has t "mean" && has t "trip duration"
  then "SELECT " ++ durationExpr ++ "mean_trip_duration_minutes"
  else if isSpeedText t
  then "SELECT ROUND(SUM(t.trip_distance_km) / NULLIF(SUM(EXTRACT(EPOCH FROM (t.ended_at - t.started_at)) / 3600.0), 0), 2) AS average_speed_kmh"
  else
    match aggs with
    | primaryAggregation :: _ =>
        let isScalarAggregation :=
          negb (has t "most") && negb (has t "docking")
          && negb (has t "which" && has t "departures") in
        if isScalarAggregation
        then "SELECT " ++ scalarClause primaryAlias columns primaryAggregation
        else "SELECT " ++ join ", " (map (aggregationClause primaryAlias) aggs)
    | [] =>
        match firstn 5 (List.filter (fun col => String.eqb (tableName col) primaryTable) columns) with
        | [] => "SELECT " ++ primaryAlias ++ ".*"
        | shown => "SELECT " ++ join ", " (map (fun col => primaryAlias ++ "." ++ columnName col) shown)
        end
    end.

(** the joins made so far, the aliases in use and the alias of each
    joined table *)
Record JoinState := {
  joins : list string;
  usedAliases : gset string;
  tableAliasMap : gmap string string
}.

Definition addJoin (a clause key : string) (st : JoinState) : JoinState :=
  if bool_decide (a ∈ usedAliases st) then st
  else {| joins := (joins st ++ [clause])%list;
          usedAliases := {[a]} ∪ usedAliases st;
          tableAliasMap := <[key := a]> (tableAliasMap st) |}.

Definition hasAlias (key : string) (m : gmap string string) : bool :=
  match m !! key with Some _ => true | None => false end.

(** [tableAliasMap.get(key)] when it is truthy *)
Definition aliasOf (key : string) (m : gmap string string) : option string :=
  match m !! key with
  | Some a => if isEmpty a then None else Some a
  | None => None
  end.

(** the text a template prints for [tableAliasMap.get(key)] *)
Definition aliasText (key : string) (m : gmap string string) : string :=
  match m !! key with Some a => a | None => "undefined" end.

Definition needsStationInfo (t : string) (fs : list Filter) : bool :=
  existsb (fun f => includes (column f) "station" || includes (column f) "name") fs
  || has t "congress" || has t "avenue" || has t "most" || has t "departures"
  || has t "docking"
  || existsb (fun f => startsWith (column f) "group_by_station") fs.

Definition needsEndStationInfo (t : string) : bool :=
  has t "to" && (has t "congress" || has t "state street" || has t "destination"
                 || has t "end station").

Definition needsWeatherInfo (t : string) (fs : list Filter) (llm : LLMQueryAnalysis) : bool :=
  existsb (fun f =>
    String.eqb (column f) "precipitation_mm" || includes (column f) "precipitation"
    || includes (column f) "condition" || includes (column f) "high_temp_c"
    || includes (column f) "low_temp_c"
    || (includes (column f) "weather" && negb (includes (column f) "weather_date"))) fs
  || (has t "wet" || has t "rainy" || has t "rain" || has t "precipitation")
  || (has t "hot" || has t "cold" || has t ">30" || has t "<0" || has t "30°c" || has t "0°c")
  || negb (isEmpty (weatherFilter llm)).

Definition endStationJoin (primaryAlias : string) : string :=
  " JOIN stations s2 ON " ++ primaryAlias ++ ".end_station_id = s2.station_id".

Definition tripJoins (primaryTable primaryAlias t : string) (fs : list Filter)
           (llm : LLMQueryAnalysis) (st : JoinState) : JoinState :=
  if String.eqb primaryTable "trips" then
    let st1 := if needsStationInfo t fs
               then addJoin "s" (" JOIN stations s ON " ++ primaryAlias ++ ".start_station_id = s.station_id") "stations" st
               else st in
    let st2 := if needsEndStationInfo t
               then addJoin "s2" (endStationJoin primaryAlias) "end_stations" st1
               else st1 in
    if needsWeatherInfo t fs llm
    then addJoin "w" (" JOIN daily_weather w ON DATE(" ++ primaryAlias ++ ".started_at) = w.weather_date") "daily_weather" st2
    else st2
  else st.

Definition bikeJoins (primaryTable primaryAlias t : string) (st : JoinState) : JoinState :=
  if String.eqb primaryTable "bikes" && (has t "where" || has t "currently" || has t "docked")
  then addJoin "s" (" JOIN stations s ON " ++ primaryAlias ++ ".current_station_id = s.station_id") "stations" st
  else st.

Definition isStationDim (dim : string) : bool :=
  includes dim "start station" || includes dim "station" || includes dim "dock"
  || includes dim "docking point".

(** the first loop over the slot record's grouping dimensions: it may
    add the end-station join *)
Definition dimensionJoins (primaryAlias : string) (dims : list string) (st : JoinState)
  : JoinState :=
  fold_left (fun st dim =>
               if includes dim "end station" && hasAlias "stations" (tableAliasMap st)
               then addJoin "s2" (endStationJoin primaryAlias) "end_stations" st
               else st) dims st.

(** the second loop: the GROUP BY columns the dimensions name *)
Definition dimensionGroupColumns (primaryAlias : string) (m : gmap string string)
           (dims : list string) : list string :=
  flat_map (fun dim =>
    if includes dim "end station" && hasAlias "end_stations" m
    then [aliasText "end_stations" m ++ ".station_name"]
    else if isStationDim dim
    then if hasAlias "stations" m then [aliasText "stations" m ++ ".station_name"] else []
    else if includes dim "gender" || includes dim "rider"
    then [primaryAlias ++ ".rider_gender"]
    else if includes dim "date" || includes dim "day"
    then ["DATE(" ++ primaryAlias ++ ".started_at)"]
    else if includes dim "weekday" || includes dim "weekend"
    then ["DATE(" ++ primaryAlias ++ ".started_at)"]
    else []) dims.

Definition isGroupingFilter (f : Filter) : bool := startsWith (column f) "group_by_".

(** the qualified column of a filter, or [None] when the join it needs
    was not made *)
Definition qualify (primaryAlias : string) (m : gmap string string) (f : Filter)
  : option string :=
  if includes (column f) "station" || includes (column f) "name" then
    match aliasOf "stations" m with
    | Some stationAlias => Some (stationAlias ++ "." ++ column f)
    | None => None
    end
  else if includes (column f) "weather" || includes (column f) "precipitation" then
    match aliasOf "daily_weather" m with
    | Some weatherAlias => Some (weatherAlias ++ "." ++ column f)
    | None => None
    end
  else Some (primaryAlias ++ "." ++ column f).

(** [paramIndex] and [params] *)
Definition RenderState : Type := nat * list Value.

Fixpoint placeholders (from count : nat) : list Piece :=
  match count with
  | O => []
  | S O => [Placeholder from]
  | S k => Placeholder from :: Lit ", " :: placeholders (S from) k
  end.

(** the callback of [whereFilters.map]: the condition, and the state
    after it *)
Definition renderFilter (primaryAlias : string) (m : gmap string string)
           (f : Filter) (st : RenderState) : Error + (list Piece * RenderState) :=
  let '(paramIndex, ps) := st in
  match qualify primaryAlias m f with
  | None => inr ([Lit "1=0"], st)
  | Some q =>
      if String.eqb (operator f) "ILIKE"
      then inr ([Lit (q ++ " ILIKE "); Placeholder paramIndex],
                (S paramIndex, (ps ++ [value f])%list))
      else if String.eqb (operator f) "IN" then
        match value f with
        | Many l =>
            inr ((Lit (q ++ " IN (") :: placeholders paramIndex (List.length l) ++ [Lit ")"])%list,
                 ((paramIndex + List.length l)%nat, (ps ++ map One l)%list))
        | One _ => inl TypeError
        end
      else if String.eqb (operator f) "WEEKEND"
      then inr ([Lit ("EXTRACT(DOW FROM " ++ q ++ ") IN (0,6)")], st)
      else if String.eqb (operator f) "WEEKDAY"
      then inr ([Lit ("EXTRACT(DOW FROM " ++ q ++ ") BETWEEN 1 AND 5")], st)
      else inr ([Lit (q ++ " " ++ operator f ++ " "); Placeholder paramIndex],
                (S paramIndex, (ps ++ [value f])%list))
  end.

Fixpoint renderFilters (primaryAlias : string) (m : gmap string string)
         (fs : list Filter) (st : RenderState)
  : Error + (list (list Piece) * RenderState) :=
  match fs with
  | [] => inr ([], st)
  | f :: rest =>
      match renderFilter primaryAlias m f st with
      | inl e => inl e
      | inr (c, st1) =>
          match renderFilters primaryAlias m rest st1 with
          | inl e => inl e
          | inr (cs, st2) => inr (c :: cs, st2)
          end
      end
  end.

Definition groupColumnOf (primaryTable primaryAlias : string) (m : gmap string string)
           (f : Filter) : list string :=
  if String.eqb (column f) "group_by_station" && hasAlias "stations" m
  then [aliasText "stations" m ++ ".station_name"]
  else if String.eqb (column f) "group_by_date" && String.eqb primaryTable "trips"
  then ["DATE(" ++ primaryAlias ++ ".started_at)"]
  else if String.eqb (column f) "group_by_gender" && String.eqb primaryTable "trips"
  then [primaryAlias ++ ".rider_gender"]
  else if String.eqb (column f) "group_by_bike" && String.eqb primaryTable "trips"
  then [primaryAlias ++ ".bike_id"]
  else [].

Definition groupByOf (cols : list string) : string :=
  match cols with
  | [] => ""
  | _ => " GROUP BY " ++ join ", " cols
  end.

Definition buildGroupBy (primaryTable primaryAlias t : string) (m : gmap string string)
           (columns : list ColumnMapping) (aggs : list Aggregation) (fs : list Filter)
           (llm : LLMQueryAnalysis) : string :=
  let groupingFilters := List.filter isGroupingFilter fs in
  let fromFilters :=
    match groupingFilters with
    | _ :: _ =>
        groupByOf (flat_map (groupColumnOf primaryTable primaryAlias m) groupingFilters)
    | [] =>
        match aggs with
        | _ :: _ =>
            if isRankingQuery t
               && existsb (fun agg => String.eqb (function agg) "COUNT"
                                      && String.eqb (agg_column agg) "*") aggs
            then
              if has t "departures" && hasAlias "stations" m
              then " GROUP BY " ++ aliasText "stations" m ++ ".station_name"
              else if has t "station" || has t "dock"
              then if hasAlias "stations" m
                   then " GROUP BY " ++ aliasText "stations" m ++ ".station_name"
                   else ""
              else groupByOf (map (fun col => primaryAlias ++ "." ++ columnName col)
                                  (firstn 1 columns))
            else ""
        | [] => ""
        end
    end in
  let groupingDims := groupingDimensions llm in
  match groupingDims with
  | _ :: _ =>
      match dimensionGroupColumns primaryAlias m groupingDims with
      | [] => fromFilters
      | groupColumns => groupByOf groupColumns
      end
  | [] => fromFilters
  end.

Definition buildOrderBy (t : string) (aggs : list Aggregation) : string :=
  match aggs with
  | firstAgg :: _ =>
      if isRankingOrder t then
        if has t "departures" then " ORDER BY departure_count DESC"
        else if isEmpty (alias firstAgg) then ""
        else " ORDER BY " ++ alias firstAgg ++ " DESC"
      else ""
  | [] => ""
  end.

Definition buildLimit (t : string) : string :=
  match Re.topN t with
  | Some n => " LIMIT " ++ showZ (parseInt n)
  | None => if isRankingQuery t then " LIMIT 1" else ""
  end.

(** the joins after the three places that add them: the trip joins, the
    bike-location join, the end-station join of the slot record's
    dimensions.  Each place leaves [fromClause] equal to the FROM entry
    followed by all joins made so far. *)
Definition joinStateOf (primaryTable t : string) (fs : list Filter)
           (llm : LLMQueryAnalysis) : JoinState :=
  let primaryAlias := getTableAlias primaryTable in
  let st0 := {| joins := []; usedAliases := {[primaryAlias]}; tableAliasMap := ∅ |} in
  let st1 := tripJoins primaryTable primaryAlias t fs llm st0 in
  let st2 := bikeJoins primaryTable primaryAlias t st1 in
  dimensionJoins primaryAlias (groupingDimensions llm) st2.

(** the condition under which the source logs "group_topk query (T-2)
    must have date filter on started_at"; it logs and goes on *)
Definition missingDateFilter (t : string) (fs : list Filter) : bool :=
  (has t "most" && (has t "departures" || has t "docking"))
  && negb (existsb (fun f => includes (column f) "started_at") fs).

Definition buildSQLParts (primaryTable : string) (tables : list TableMapping)
           (columns : list ColumnMapping) (aggs : list Aggregation) (fs : list Filter)
           (userText : string) (mapping : MappingResult)
  : Error + (SqlParts * list Value) :=
  let t := toLowerCase userText in
  let llm := llmAnalysis mapping in
  let primaryAlias := getTableAlias primaryTable in
  let needsStationName := isRankingQuery t || has t "which" || has t "docking point" in
  let select0 := buildSelect primaryTable primaryAlias t columns aggs in
  let st := joinStateOf primaryTable t fs llm in
  let m := tableAliasMap st in
  let from := " FROM " ++ primaryTable ++ " " ++ primaryAlias ++ String.concat "" (joins st) in
  let select :=
    if (needsStationName && needsStationInfo t fs && hasAlias "stations" m)
       || existsb (fun f => startsWith (column f) "group_by_station") fs
    then "SELECT s.station_name, " ++ substring 7 (String.length select0 - 7) select0
    else select0 in
  let whereFilters := List.filter (fun f => negb (isGroupingFilter f)) fs in
  match renderFilters primaryAlias m whereFilters (1%nat, []) with
  | inl e => inl e
  | inr (conds, (_, ps)) =>
      inr ({| selectClause := select;
              fromClause := from;
              whereConds := conds;
              groupByClause := buildGroupBy primaryTable primaryAlias t m columns aggs fs llm;
              orderByClause := buildOrderBy t aggs;
              limitClause := buildLimit t |}, ps)
  end.

Definition buildSQLQuery (primaryTable : string) (tables : list TableMapping)
           (columns : list ColumnMapping) (aggs : list Aggregation) (fs : list Filter)
           (userText : string) (mapping : MappingResult)
  : Error + (string * list Value) :=
  match buildSQLParts primaryTable tables columns aggs fs userText mapping with
  | inl e => inl e
  | inr (parts, ps) => inr (assemble parts, ps)
  end.

(** *** generateQuery *)

Definition isT1Query (userText : string) : bool :=
  let t := toLowerCase userText in
  has t "average" && (has t "ride time" || has t "journey") && has t "congress avenue".

Definition t1Sql : string :=
  "SELECT ROUND(AVG(EXTRACT(EPOCH FROM (t.ended_at - t.started_at)) / 60)::numeric, 0) AS average_ride_time_minutes FROM trips t JOIN stations s ON t.start_station_id = s.station_id WHERE t.started_at >= $1 AND t.started_at < $2 AND s.station_name = $3".

Definition t1Params : list Value := [str "2025-06-01"; str "2025-07-01"; str "Congress Avenue"].

Definition t1Plan : ParsedQuery :=
  {| sql := t1Sql;
     params := t1Params;
     pq_tables := ["trips"; "stations"];
     pq_columns := ["started_at"; "ended_at"; "station_name"];
     aggregations := [mkAgg "AVG" "duration_calculated" "average_ride_time_minutes"];
     filters := [mkFilter "started_at" ">=" (str "2025-06-01");
                 mkFilter "started_at" "<" (str "2025-07-01");
                 mkFilter "station_name" "=" (str "Congress Avenue")] |}.

Definition relevantTablesOf (mapping : MappingResult) : list TableMapping :=
  firstn 3 (List.filter (fun t => -5 <? tm_score t) (tables mapping)).

Definition relevantColumnsOf (mapping : MappingResult) : list ColumnMapping :=
  firstn 15 (List.filter (fun c => -5 <? score c) (suggestedCols mapping)).

Definition choosePrimaryTable (userText : string) (relevantTables : list TableMapping)
           (relevantColumns : list ColumnMapping) : string :=
  let t := toLowerCase userText in
  let p0 := match SemanticMapper.sortDesc score (List.filter isDateType relevantColumns) with
            | c :: _ => tableName c
            | [] => "trips"
            end in
  let p1 := if existsb (fun tm => String.eqb (tm_tableName tm) "trips") relevantTables
               && negb (String.eqb p0 "trips")
            then "trips" else p0 in
  let p2 := if has t "departures" || has t "journeys" || has t "trips" || has t "ride"
               || has t "docking"
            then "trips" else p1 in
  if isBikeRelatedQuery userText then "bikes" else p2.

(** [generateQuery] on the result [mapping] of the semantic mapper *)
Definition generateFromMapping (mapping : MappingResult) (userText : string)
  : Error + ParsedQuery :=
  let relevantTables := relevantTablesOf mapping in
  let relevantColumns := relevantColumnsOf mapping in
  match relevantTables with
  | [] => inl NoRelevantTables
  | _ :: _ =>
      let primaryTable := choosePrimaryTable userText relevantTables relevantColumns in
      let aggs := parseAggregations userText relevantColumns in
      match parseFilters userText relevantColumns primaryTable with
      | inl e => inl e
      | inr fs =>
          if isT1Query userText then inr t1Plan
          else
            match buildSQLQuery primaryTable relevantTables relevantColumns aggs fs userText
                                mapping with
            | inl e => inl e
            | inr (q, ps) =>
                inr {| sql := q;
                       params := ps;
                       pq_tables := map tm_tableName relevantTables;
                       pq_columns := map columnName relevantColumns;
                       aggregations := aggs;
                       filters := fs |}
            end
      end
  end.

Definition generateQuery (cache : list SchemaColumn) (llm : LLMQueryAnalysis)
           (userText : string) : Error + ParsedQuery :=
  generateFromMapping (SemanticMapper.mapUserQueryToSchema cache llm userText) userText.

(** *** The request handler (src/index.ts) *)

Definition maliciousPatterns : list (string -> bool) :=
  [Re.twoWordsI "drop" "table";
   Re.twoWordsI "delete" "from";
   Re.anywhere (Re.litI "update" (Re.spaces1 (Re.dotStar (Re.spaces1 (Re.litI "set" Re.matched)))));
   Re.twoWordsI "insert" "into";
   Re.twoWordsI "create" "table";
   Re.twoWordsI "alter" "table";
   Re.anywhere (Re.lit "--" Re.matched);
   Re.anywhere (Re.lit "/*" Re.matched);
   Re.anywhere (Re.lit ";" (Re.spaces0 Re.atEnd));
   Re.twoWordsI "union" "select";
   Re.anywhere (Re.litI "or" (Re.spaces1 (Re.lit "1" (Re.spaces0
                  (Re.lit "=" (Re.spaces0 (Re.lit "1" Re.matched)))))));
   Re.twoWordsI "or" "true"].

(** [maliciousPatterns.some(pattern => pattern.test(trimmedQuestion))] *)
Definition isMalicious (trimmedQuestion : string) : bool :=
  existsb (fun pattern => pattern trimmedQuestion) maliciousPatterns.

(** the [/query] handler up to the call of the database: the validation of
    the question, the T-1 test on the trimmed question, and the generator
    for the other questions *)
Definition handlerPlan (cache : list SchemaColumn) (llm : LLMQueryAnalysis)
           (question : Question) : HandlerResult :=
  match question with
  | NotAString => Status400 InvalidFormat
  | Text question =>
      if isEmpty question || isEmpty (trim question) then Status400 InvalidFormat
      else
        let trimmedQuestion := trim question in
        if isEmpty trimmedQuestion then Status400 EmptyQuestion
        else if isMalicious trimmedQuestion then Status400 UnsafePattern
        else if isT1Query trimmedQuestion then Executes t1Sql t1Params
        else match generateQuery cache llm trimmedQuestion with
             | inl e => Status500 e
             | inr parsedQuery => Executes (sql parsedQuery) (params parsedQuery)
             end
  end.

End Environment.
End QueryGenerator.

Definition nov2026 : Now := {| nowYear := 2026; nowMonth := 10 |}.


(** ** Catalogues and questions used in the checks below *)

Definition noSlots : LLMQueryAnalysis :=
  {| suggestedTables := []; suggestedColumns := []; weatherFilter := "";
     groupingDimensions := [] |}.

Definition schemaRow (t c d : string) : SchemaColumn :=
  {| table_name := t; column_name := c; data_type := d; sampled_values := None |}.

(** the catalogue of tests/semanticMapper.test.ts *)
Definition testCatalogue : list SchemaColumn :=
  [schemaRow "trips" "started_at" "timestamp";
   schemaRow "trips" "ended_at" "timestamp";
   schemaRow "stations" "station_name" "character varying"].

Definition mapped (t c d : string) (s : Z) : ColumnMapping :=
  {| tableName := t; columnName := c; dataType := d; score := s |}.

(** mapped columns with no gender or rider column *)
Definition timeAndStationColumns : list ColumnMapping :=
  [mapped "trips" "started_at" "timestamp" 0;
   mapped "stations" "station_name" "character varying" 0].

Definition t1OtherMonth : string :=
  "What was the average ride time for journeys that started at Congress Avenue in July 2024?".

(** the mapped columns of the third integration test *)
Definition womenColumns : list ColumnMapping :=
  [mapped "trips" "trip_distance_km" "numeric" 9;
   mapped "trips" "rider_gender" "character varying" 8;
   mapped "daily_weather" "precipitation_mm" "numeric" 7].

Definition womenMapping : MappingResult :=
  {| tables := [ {| tm_tableName := "trips"; tm_score := 9 |};
                 {| tm_tableName := "daily_weather"; tm_score := 7 |} ];
     suggestedCols := womenColumns;
     llmAnalysis := noSlots |}.

Definition weekendQuestion : string :=
  "How many kilometres were ridden by women on rainy weekends in June 2025?".

(** the filters of [weekendQuestion] over [womenColumns]
    (see [parse_filters_weekend]) *)
Definition weekendPredicates : list Filter :=
  [ QueryGenerator.mkFilter "started_at" ">=" (One (SStr "2025-06-01"));
    QueryGenerator.mkFilter "started_at" "<" (One (SStr "2025-07-01"));
    QueryGenerator.mkFilter "rider_gender" "=" (One (SStr "female"));
    QueryGenerator.mkFilter "precipitation_mm" ">" (One (SNum 0));
    QueryGenerator.mkFilter "started_at" "WEEKEND" (One SNull) ].

(** ** Specification-side definitions *)

Module Spec.
Import Str QueryGenerator.

(** row [c] is filed under its table in the grouped catalogue [g] *)
Definition covered (c : SchemaColumn) (g : list (string * list SchemaColumn)) : Prop :=
  exists cols, In (table_name c, cols) g /\ In c cols.

(** the numbers of the placeholders of rendered conditions, in text order *)
Definition numberOf (p : Piece) : list nat :=
  match p with Placeholder n => [n] | Lit _ => [] end.

Definition placeholderNumbers (conds : list (list Piece)) : list nat :=
  flat_map numberOf (List.concat conds).

(** the values a filter binds when it is rendered: none when it degrades
    to [1=0] or is a day-of-week flag, the elements of an [IN] list, its
    value otherwise *)
Definition boundValues (primaryAlias : string) (m : gmap string string) (f : Filter)
  : list Value :=
  match qualify primaryAlias m f with
  | None => []
  | Some _ =>
      if String.eqb (operator f) "ILIKE" then [value f]
      else if String.eqb (operator f) "IN"
      then match value f with Many l => map One l | One _ => [] end
      else if String.eqb (operator f) "WEEKEND" || String.eqb (operator f) "WEEKDAY" then []
      else [value f]
  end.

Definition isFlag (f : Filter) : bool :=
  String.eqb (operator f) "WEEKEND" || String.eqb (operator f) "WEEKDAY".

(** the questions on which the last-day override meets a month that is not
    a number: "last day", and an inherited key before the first four-digit
    group that follows a word *)
(** a gender predicate: equality with the literal female, or the pattern
    ILIKE '%male%' *)
Definition isGenderPredicate (f : Filter) : bool :=
  match value f with
  | One (SStr v) =>
      (String.eqb (operator f) "=" && String.eqb v "female")
      || (String.eqb (operator f) "ILIKE" && String.eqb v "%male%")
  | _ => false
  end.

Definition invalidLastDay (text : string) : bool :=
  let t := toLowerCase text in
  (has t "last day" || has t "last day of")
  && match Re.monthYearSpaces t with
     | Some (month, _) =>
         match getMonthNumber month with Some _ => false | None => true end
     | None => false
     end.

(** first day of the month after month [m] (0 = January) of year [y] *)
Definition nextMonth (y m : Z) : Z * Z := if m =? 11 then (y + 1, 0) else (y, m + 1).

Definition monthName (m : Z) : string := nth (Z.to_nat m) months "".

(** a year as the phrase writes it: four decimal digits *)
Definition isYear4 (d : string) : bool :=
  (String.length d =? 4)%nat && forallb isDigit (list_ascii_of_string d).

(** the bare phrase "M Y": the name of month [m] (0 = January), a space and
    the four digits [d] of the year *)
Definition phrase (m : Z) (d : string) : string := monthName m ++ " " ++ d.

Definition leapDay (y : Z) : Z := if JsDate.inLeapYear y then 1 else 0.

(** days before each month in a common year *)
Definition cumulative : list Z :=
  [0; 31; 59; 90; 120; 151; 181; 212; 243; 273; 304; 334; 365].

End Spec.

(** * What the properties below are stated with *)

(** ** The guard on the model's answer *)

Module JsonGuard.
Import Str.

Definition quote : ascii := "034"%char.
Definition backslash : ascii := "092"%char.

(** [s.indexOf("{")]: the text from the first opening brace on; [None] is
    the source's [-1] *)
Fixpoint fromFirstBrace (s : string) : option string :=
  match s with
  | EmptyString => None
  | String c s' => if Ascii.eqb c "{" then Some s else fromFirstBrace s'
  end.

(** the loop of [extractFirstJsonObject] from index [i] on: [s] is the
    text from [i] on, and the result is the text from [i] to the closing
    brace that brings [depth] back to zero *)
Fixpoint scan (depth : Z) (inStr esc : bool) (s : string) : option string :=
  match s with
  | EmptyString => None
  | String ch s' =>
      if inStr then
        let esc := if Ascii.eqb ch backslash then negb esc else false in
        let inStr := if Ascii.eqb ch quote && negb esc then false else inStr in
        option_map (String ch) (scan depth inStr esc s')
      else if Ascii.eqb ch quote then option_map (String ch) (scan depth true esc s')
      else if Ascii.eqb ch "{" then option_map (String ch) (scan (depth + 1) inStr esc s')
      else if Ascii.eqb ch "}" then
        let depth := depth - 1 in
        if depth =? 0 then Some (String ch "")
        else option_map (String ch) (scan depth inStr esc s')
      else option_map (String ch) (scan depth inStr esc s')
  end.

(** [extractFirstJsonObject]: [None] is the source's [null] *)
Definition extractFirstJsonObject (s : string) : option string :=
  match fromFirstBrace s with
  | None => None
  | Some fromStart => scan 0 false false fromStart
  end.

End JsonGuard.

Module PlanShape.
Import Str QueryGenerator.

(** the operators the filter assembler writes *)
Definition filterOperators : list string :=
  [">="; "<"; "="; "ILIKE"; ">"; "<="; "WEEKEND"; "WEEKDAY"; "DIMENSION"].

(** the column names the filter assembler writes as literals *)
Definition literalColumns : list string :=
  ["started_at"; "precipitation_mm"; "high_temp_c"; "low_temp_c"; "rider_birth_year";
   "group_by_station"; "group_by_date"; "group_by_gender"; "group_by_bike"].

Definition aggregateFunctions : list string := ["AVG"; "SUM"; "COUNT"; "SPEED"].

(** what the filter assembler may write: an operator of the fixed list, on
    a mapped column or on a column named by a literal of the source *)
Definition wellFormedFilter (cols : list ColumnMapping) (f : Filter) : Prop :=
  In (operator f) filterOperators
  /\ (In (column f) (map columnName cols) \/ In (column f) literalColumns).

(** what the aggregation assembler may write *)
Definition wellFormedAggregation (a : Aggregation) : Prop :=
  In (function a) aggregateFunctions /\ isEmpty (alias a) = false.

End PlanShape.

Module JoinShape.
Import Str QueryGenerator.

(** the text that opens the JOIN clause of an alias *)
Definition joinPrefix (a : string) : string :=
  if String.eqb a "s" then " JOIN stations s ON "
  else if String.eqb a "s2" then " JOIN stations s2 ON "
  else " JOIN daily_weather w ON ".

Definition joinAliases : list string := ["s"; "s2"; "w"].

(** the JOIN clauses of [st] that declare alias [a] *)
Definition joinsOf (a : string) (st : JoinState) : list string :=
  List.filter (fun clause => startsWith clause (joinPrefix a)) (joins st).

(** the alias a key of the alias map stands for *)
Definition aliasOfKey (key : string) : string :=
  if String.eqb key "stations" then "s"
  else if String.eqb key "end_stations" then "s2"
  else "w".

(** the joins made so far: each alias of the map is declared by a clause,
    a clause declares one of the three aliases, an alias that is not in use
    has no clause and no alias has two *)
Record joinsOk (st : JoinState) : Prop := {
  ok_keys : forall key a, tableAliasMap st !! key = Some a ->
            In key ["stations"; "end_stations"; "daily_weather"]
            /\ a = aliasOfKey key /\ joinsOf a st <> [];
  ok_clauses : List.Forall (fun clause => existsb (fun a => startsWith clause (joinPrefix a))
                                                  joinAliases = true) (joins st);
  ok_unused : forall a, In a joinAliases -> a ∉ usedAliases st -> joinsOf a st = [];
  ok_once : forall a, In a joinAliases -> (List.length (joinsOf a st) <= 1)%nat
}.

(** a clause that opens with the prefix of [a] and with no other prefix *)
Definition declares (a clause : string) : Prop :=
  forall b, In b joinAliases -> startsWith clause (joinPrefix b) = String.eqb b a.

End JoinShape.

Module MappingShape.
Import Str SemanticMapper.

(** [Map.get] on an insertion-ordered map *)
Definition lookupKey {V} (k : string) (m : list (string * V)) : option V :=
  match List.find (fun kv => String.eqb (fst kv) k) m with
  | Some kv => Some (snd kv)
  | None => None
  end.

(** the rows of the schema cache that name their table and column and
    belong to table [tn], in catalogue order *)
Definition rowsOf (tn : string) (cache : list SchemaColumn) : list SchemaColumn :=
  List.filter (fun c => validColumn c && String.eqb (table_name c) tn) cache.

(** the largest of 0 and the numbers of [l] *)
Definition best (l : list Z) : Z := fold_right Z.max 0 l.

Definition byScoreDesc (a b : ColumnMapping) : Prop := score b <= score a.
Definition byTableScoreDesc (a b : TableMapping) : Prop := tm_score b <= tm_score a.

(** the scored columns of table [tn] *)
Definition ofTable (tn : string) (col : ColumnMapping) : bool := String.eqb (tableName col) tn.

(** their scores *)
Definition scoresOf (tn : string) (cols : list ColumnMapping) : list Z :=
  map score (List.filter (ofTable tn) cols).

End MappingShape.

Module DateShape.
Import Str JsDate.

(** the text has a decimal digit *)
Definition hasDigit (s : string) : bool := existsb isDigit (list_ascii_of_string s).

(** the month (year, 0-based index) before month [m] of year [y] *)
Definition previousMonth (y m : Z) : Z * Z := if m =? 0 then (y - 1, 11) else (y, m - 1).

(** the day after day [d] of month [m] (0 = January) of year [y] *)
Definition nextDay (y m d : Z) : Z * Z * Z :=
  if d <? daysInMonth y m then (y, m, d + 1)
  else let '(y', m') := Spec.nextMonth y m in (y', m', 1).

(** a triple with a month index, as a civil date *)
Definition civilOf (ymd : Z * Z * Z) : Z * Z * Z :=
  let '(y, m, d) := ymd in (y, m + 1, d).

End DateShape.

(** * Checks on concrete inputs *)

Example re_monthYear : Re.monthYear "rides in june 2025" = Some ("june", "2025").
Proof. reflexivity. Qed.

Example re_firstWeek :
  Re.firstWeek "during the first week of june 2025?" = Some ("june", "2025").
Proof. reflexivity. Qed.

Example re_between :
  Re.betweenDates "between june 3 and june 52025" = Some ("june", "3", "june", "5", "2025").
Proof. reflexivity. Qed.

Example re_between_comma :
  Re.betweenDates "rides between june 3 and june 15, 2025" = Some ("june", "3", "june", "15", "2025").
Proof. reflexivity. Qed.

Example re_byDimension : Re.byDimension "rides by start station" = Some "start station".
Proof. reflexivity. Qed.

Example re_byDimension_boundary : Re.byDimension "nearby station" = None.
Proof. reflexivity. Qed.

Example str_split_tokens : Str.split (fun c => Ascii.eqb c "_" || Str.isSpace c) "_trip__id_" = [""; "trip"; "id"; ""].
Proof. reflexivity. Qed.

Example str_words : Str.words "  How many   rides? " = ["How"; "many"; "rides?"].
Proof. reflexivity. Qed.

Example iso_june_utc : JsDate.isoDate (JsDate.ofLocal 0 2025 5 1) = "2025-06-01".
Proof. reflexivity. Qed.

Example iso_carry_utc : JsDate.isoDate (JsDate.ofLocal 0 2025 12 1) = "2026-01-01".
Proof. reflexivity. Qed.

Example iso_day_zero : JsDate.isoDate (JsDate.ofLocal 0 2025 5 0) = "2025-05-31".
Proof. reflexivity. Qed.

Example parse_june_2025_utc :
  QueryGenerator.parseDateExpressions 0 nov2026 "rides in June 2025" = Some ("2025-06-01", "2025-07-01").
Proof. reflexivity. Qed.

(** the Date constructor reads a year from 0 to 99 as 1900 to 1999 *)
Example parse_year_below_100 :
  QueryGenerator.parseDateExpressions 0 nov2026 "June 0050"
  = Some ("1950-06-01", "1950-07-01").
Proof. vm_compute. reflexivity. Qed.

Example parse_first_week_utc :
  QueryGenerator.parseDateExpressions 0 nov2026 "the first week of June 2025" = Some ("2025-06-01", "2025-06-08").
Proof. reflexivity. Qed.

Example parse_last_month_utc :
  QueryGenerator.parseDateExpressions 0 nov2026 "total rides last month" = Some ("2026-10-01", "2026-10-31").
Proof. reflexivity. Qed.

Example parse_filters_weekend :
  QueryGenerator.parseFilters 0 nov2026 weekendQuestion womenColumns "trips"
  = inr weekendPredicates.
Proof. vm_compute. reflexivity. Qed.

Example parse_filters_invalid_last_day :
  QueryGenerator.parseFilters 0 nov2026 "rides on the last day of constructor 2025" [] "trips"
  = inl RangeError.
Proof. vm_compute. reflexivity. Qed.

Example parse_filters_last_day :
  QueryGenerator.parseFilters 0 nov2026 "rides on the last day of February 2024" [] "trips"
  = inr [ QueryGenerator.mkFilter "started_at" ">=" (One (SStr "2024-01-31"));
          QueryGenerator.mkFilter "started_at" "<" (One (SStr "2024-02-01")) ].
Proof. vm_compute. reflexivity. Qed.

Example aggregations_average_speed :
  QueryGenerator.parseAggregations "What is the average speed?" [] = [].
Proof. reflexivity. Qed.

Example integration_t2 :
  match QueryGenerator.generateFromMapping 0 nov2026
          {| tables := [ {| tm_tableName := "trips"; tm_score := 9 |};
                         {| tm_tableName := "stations"; tm_score := 8 |} ];
             suggestedCols := [mapped "trips" "started_at" "timestamp" 9;
                               mapped "stations" "station_name" "character varying" 8];
             llmAnalysis := {| suggestedTables := ["trips"; "stations"];
                               suggestedColumns := ["started_at"; "station_name"];
                               weatherFilter := "";
                               groupingDimensions := ["station"] |} |}
          "Which docking point saw the most departures during the first week of June 2025?" with
  | inr q =>
      Str.includes (sql q) "GROUP BY s.station_name"
      && Str.includes (sql q) "ORDER BY departure_count DESC"
      && Str.includes (sql q) "LIMIT 1"
  | inl _ => false
  end = true.
Proof. vm_compute. reflexivity. Qed.

Example integration_t3 :
  match QueryGenerator.generateFromMapping 0 nov2026 womenMapping
          "How many kilometres were ridden by women on rainy days in June 2025?" with
  | inr q =>
      Str.includes (sql q) "SUM(t.trip_distance_km)"
      && Str.includes (sql q) "precipitation_mm >"
  | inl _ => false
  end = true.
Proof. vm_compute. reflexivity. Qed.

(** a "by" phrase makes a grouped plan *)
Example grouped_by_dimension :
  exists q, QueryGenerator.generateQuery 0 nov2026 testCatalogue noSlots
              "How many rides by gender?" = inr q
            /\ filters q = [QueryGenerator.mkFilter "group_by_gender" "DIMENSION" (One (SStr "gender"))]
            /\ sql q = "SELECT COUNT(*) AS total_count FROM trips t GROUP BY t.rider_gender".
Proof. eexists. split; [vm_compute; reflexivity|]. split; vm_compute; reflexivity. Qed.

(** and so do the grouping dimensions of the slot record *)
Example grouped_by_slot_dimensions :
  exists q, QueryGenerator.generateQuery 0 nov2026 testCatalogue
              {| suggestedTables := []; suggestedColumns := []; weatherFilter := "";
                 groupingDimensions := ["end station"; "gender"] |}
              "Which destination station had the most arrivals from Congress Avenue to anywhere?"
            = inr q
            /\ sql q = "SELECT s.station_name, COUNT(*) AS departure_count FROM trips t JOIN stations s ON t.start_station_id = s.station_id JOIN stations s2 ON t.end_station_id = s2.station_id WHERE s.station_name = $1 GROUP BY s2.station_name, t.rider_gender ORDER BY departure_count DESC LIMIT 1".
Proof. eexists. split; vm_compute; reflexivity. Qed.

Example mapper_test_average_ride_time :
  SemanticMapper.mapUserQueryToSchema testCatalogue noSlots "What is the average ride time?"
  = {| tables := [ {| tm_tableName := "trips"; tm_score := 120 |};
                   {| tm_tableName := "stations"; tm_score := 0 |} ];
       suggestedCols := [mapped "trips" "started_at" "timestamp" 120;
                         mapped "trips" "ended_at" "timestamp" 120;
                         mapped "stations" "station_name" "character varying" 0];
       llmAnalysis := noSlots |}.
Proof. vm_compute. reflexivity. Qed.

(** * Properties *)

(** ** Substrings *)

Section StringFacts.
Import Str.

Lemma append_cons (x : ascii) (a b : string) : String x a ++ b = String x (a ++ b).
Proof. reflexivity. Qed.

Lemma append_assoc3 (a b c : string) : (a ++ b) ++ c = a ++ (b ++ c).
Proof.
  induction a as [|x a IH]; [reflexivity|].
  rewrite !append_cons, IH. reflexivity.
Qed.

Lemma startsWith_spec (s p : string) :
  startsWith s p = true <-> exists b, s = p ++ b.
Proof.
  revert s. induction p as [|x p IH]; intros s.
  - split; [intros _; exists s; reflexivity|intros _; destruct s; reflexivity].
  - destruct s as [|y s].
    + split; [discriminate|intros (b & Hb); discriminate].
    + cbn [startsWith]. rewrite andb_true_iff, IH. split.
      * intros (Hxy & b & ->). apply Ascii.eqb_eq in Hxy. subst. exists b. reflexivity.
      * intros (b & Hb). inversion Hb; subst. split; [apply Ascii.eqb_refl|exists b; reflexivity].
Qed.

Lemma includes_spec (s p : string) :
  includes s p = true <-> exists a b, s = a ++ p ++ b.
Proof.
  induction s as [|y s IH].
  - cbn [includes]. rewrite orb_false_r, startsWith_spec. split.
    + intros (b & Hb). exists "", b. exact Hb.
    + intros (a & b & Hab). destruct a; [exists b; exact Hab|discriminate].
  - cbn [includes]. rewrite orb_true_iff, IH, startsWith_spec. split.
    + intros [(b & Hb)|(a & b & ->)].
      * exists "", b. exact Hb.
      * exists (String y a), b. reflexivity.
    + intros (a & b & Hab). destruct a as [|x a].
      * left. exists b. exact Hab.
      * right. inversion Hab; subst. exists a, b. reflexivity.
Qed.

(** a text that contains [p] contains every part of [p] *)
Lemma includes_trans (s p q : string) :
  includes s p = true -> includes p q = true -> includes s q = true.
Proof.
  rewrite !includes_spec. intros (a & b & ->) (a' & b' & ->).
  exists (a ++ a'), (b' ++ b). rewrite !append_assoc3. reflexivity.
Qed.

Lemma includes_false_part (s p q : string) :
  includes p q = true -> includes s q = false -> includes s p = false.
Proof.
  intros Hpq Hsq. destruct (includes s p) eqn:Hsp; [|reflexivity].
  rewrite (includes_trans s p q Hsp Hpq) in Hsq. discriminate.
Qed.

Lemma includes_empty_text (p : string) : p <> "" -> includes "" p = false.
Proof. destruct p; [contradiction|reflexivity]. Qed.

Lemma isEmpty_true (s : string) : isEmpty s = true -> s = "".
Proof. destruct s; [reflexivity|discriminate]. Qed.

End StringFacts.

(** ** The hand-compiled matchers *)

Section RegexFacts.
Import Str.

Lemma startsWith_nil (s : string) : startsWith s "" = true.
Proof. destruct s; reflexivity. Qed.

Lemma stripPrefix_spec (p : string) : forall s r : string, stripPrefix p s = Some r -> s = p ++ r.
Proof.
  induction p as [|a p IH]; intros s r; cbn [stripPrefix].
  - intros H. inversion H. reflexivity.
  - destruct s as [|b s]; [discriminate|].
    destruct (Ascii.eqb_spec a b) as [->|Hne]; [|discriminate].
    intros H. apply IH in H. subst. reflexivity.
Qed.

Lemma stripPrefix_app (p r : string) : stripPrefix p (p ++ r) = Some r.
Proof.
  induction p as [|a p IH]; [reflexivity|].
  rewrite append_cons. cbn [stripPrefix]. rewrite Ascii.eqb_refl. exact IH.
Qed.

Lemma stripPrefix_startsWith (p s r : string) :
  stripPrefix p s = Some r -> startsWith s p = true.
Proof. intros H. apply startsWith_spec. exists r. apply stripPrefix_spec. exact H. Qed.

Lemma searchFrom_found {A} (m : option ascii -> string -> option A) (s : string) :
  forall (prev : option ascii) (r : A),
    Re.searchFrom m prev s = Some r ->
    exists (prev' : option ascii) (a s' : string), s = a ++ s' /\ m prev' s' = Some r.
Proof.
  induction s as [|c s IH]; intros prev r; cbn [Re.searchFrom].
  - destruct (m prev "") eqn:Hm; [|discriminate].
    intros H. inversion H; subst. exists prev, "", "". auto.
  - destruct (m prev (String c s)) eqn:Hm.
    + intros H. inversion H; subst. exists prev, "", (String c s). auto.
    + intros H. apply IH in H as (prev' & a & s' & -> & Hr).
      exists prev', (String c a), s'. auto.
Qed.

Lemma searchFrom_here {A} (m : option ascii -> string -> option A) (prev : option ascii)
      (s : string) (r : A) :
  m prev s = Some r -> Re.searchFrom m prev s = Some r.
Proof. intros H. destruct s; cbn [Re.searchFrom]; rewrite H; reflexivity. Qed.

Lemma includes_suffix (a s' p : string) :
  startsWith s' p = true -> includes (a ++ s') p = true.
Proof.
  intros H. apply startsWith_spec in H as (b & ->).
  apply includes_spec. exists a, b. reflexivity.
Qed.

(** a pattern that begins with the literal [p] matches nowhere in a text
    that does not contain [p] *)
Lemma search_none {A} (m : string -> option A) (p t : string) :
  (forall (s : string) (r : A), m s = Some r -> startsWith s p = true) ->
  includes t p = false -> Re.search m t = None.
Proof.
  intros Hm Hinc. destruct (Re.search m t) as [r|] eqn:H; [|reflexivity].
  unfold Re.search in H. apply searchFrom_found in H as (prev & a & s' & -> & Hr).
  apply Hm in Hr. rewrite (includes_suffix a s' p Hr) in Hinc. discriminate.
Qed.

Lemma span_app (p : ascii -> bool) (w : string) (c : ascii) (r : string) :
  forallb p (list_ascii_of_string w) = true -> p c = false ->
  span p (w ++ String c r) = (w, String c r).
Proof.
  intros Hw Hc. induction w as [|x w IH].
  - change ("" ++ String c r) with (String c r). cbn [span]. rewrite Hc. reflexivity.
  - cbn [list_ascii_of_string forallb] in Hw. apply andb_true_iff in Hw as [Hx Hw].
    rewrite append_cons. cbn [span]. rewrite Hx, (IH Hw). reflexivity.
Qed.

Lemma isYear4_shape (d : string) :
  Spec.isYear4 d = true ->
  exists a b c e : ascii,
    d = String a (String b (String c (String e "")))
    /\ isDigit a = true /\ isDigit b = true /\ isDigit c = true /\ isDigit e = true.
Proof.
  unfold Spec.isYear4. intros H. apply andb_true_iff in H as [Hlen Hd].
  destruct d as [|a [|b [|c [|e [|x d]]]]]; try discriminate Hlen.
  cbn [list_ascii_of_string forallb] in Hd.
  repeat (apply andb_true_iff in Hd as [? Hd]).
  exists a, b, c, e. auto.
Qed.

Lemma takeN_year (d : string) :
  Spec.isYear4 d = true -> takeN isDigit 4 d = Some (d, "").
Proof.
  intros H. apply isYear4_shape in H as (a & b & c & e & -> & Ha & Hb & Hc & He).
  cbn [takeN]. rewrite Ha, Hb, Hc, He. reflexivity.
Qed.

(** the month-year pattern at the start of "word, space, four digits" *)
Lemma wordYearAt_phrase (w d : string) :
  isEmpty w = false -> forallb isWord (list_ascii_of_string w) = true ->
  Spec.isYear4 d = true ->
  Re.wordYearAt (w ++ " " ++ d) = Some (w, d).
Proof.
  intros Hne Hw Hd. unfold Re.wordYearAt, Re.word1.
  change (" " ++ d) with (String " " d).
  rewrite (span_app isWord w " " d Hw eq_refl), Hne.
  change (stripPrefix " " (String " " d)) with (Some d). cbv iota beta.
  rewrite (takeN_year d Hd). reflexivity.
Qed.

Lemma includes_char_app (c : ascii) (a b : string) :
  includes (a ++ b) (String c "") = includes a (String c "") || includes b (String c "").
Proof.
  induction a as [|x a IH].
  - change ("" ++ b) with b. reflexivity.
  - rewrite append_cons. cbn [includes startsWith]. rewrite IH, !startsWith_nil.
    rewrite orb_assoc. reflexivity.
Qed.

Lemma includes_char_digits (c : ascii) (d : string) :
  isDigit c = false -> forallb isDigit (list_ascii_of_string d) = true ->
  includes d (String c "") = false.
Proof.
  intros Hc. induction d as [|x d IH]; [reflexivity|].
  cbn [list_ascii_of_string forallb includes startsWith]. intros H.
  apply andb_true_iff in H as [Hx Hd]. rewrite (IH Hd), startsWith_nil.
  destruct (Ascii.eqb_spec c x) as [->|_]; [congruence|reflexivity].
Qed.

End RegexFacts.


(** ** The semantic mapper: scores and the relevance floor *)

Section MapperFacts.
Import Str SemanticMapper Spec.

Lemma bonus_nonneg (b : bool) (n : Z) : 0 <= n -> 0 <= bonus b n.
Proof. destruct b; simpl; lia. Qed.

Lemma sumZ_nonneg (l : list Z) : Forall (fun z => 0 <= z) l -> 0 <= sumZ l.
Proof. induction 1; simpl; lia. Qed.

Lemma sumZ_map_nonneg {A} (f : A -> Z) (l : list A) :
  (forall a, 0 <= f a) -> 0 <= sumZ (map f l).
Proof.
  intros Hf. apply sumZ_nonneg. apply List.Forall_forall.
  intros z Hz. apply in_map_iff in Hz as (a & <- & _). apply Hf.
Qed.

Lemma partialMatch_nonneg (c w : string) : 0 <= partialMatch c w.
Proof.
  unfold partialMatch. destruct (_ <? _)%nat; [|lia].
  repeat match goal with
         | |- context [bonus ?b ?n] =>
             lazymatch goal with
             | H : 0 <= bonus b n |- _ => fail
             | _ => assert (0 <= bonus b n) by (apply bonus_nonneg; lia)
             end
         end.
  lia.
Qed.

Lemma valueOverlap_nonneg (o : option (list string)) (ws : list string) :
  0 <= valueOverlap o ws.
Proof.
  destruct o; simpl; [|lia].
  apply sumZ_map_nonneg. intros w. apply bonus_nonneg. lia.
Qed.

Ltac bonuses :=
  repeat match goal with
         | |- context [bonus ?b ?n] =>
             let H := fresh "Hb" in
             assert (H : 0 <= bonus b n) by (apply bonus_nonneg; lia);
             generalize dependent (bonus b n); intros
         end.

Lemma typeBonus_nonneg (dt : string) (ws : list string) : 0 <= typeBonus dt ws.
Proof. unfold typeBonus. destruct (includes dt "character" || _); bonuses; lia. Qed.

Lemma tableBonus_nonneg (tn : string) (ws : list string) : 0 <= tableBonus tn ws.
Proof.
  unfold tableBonus.
  destruct (String.eqb tn "trips"), (String.eqb tn "stations"),
    (String.eqb tn "daily_weather"), (String.eqb tn "bikes"); bonuses; lia.
Qed.

Lemma cardinalityBonus_nonneg (o : option (list string)) : 0 <= cardinalityBonus o.
Proof. destruct o; simpl; [apply bonus_nonneg|]; lia. Qed.

Lemma calculateColumnScore_nonneg (text : string) (c : SchemaColumn) :
  0 <= calculateColumnScore text c.
Proof.
  unfold calculateColumnScore. destruct (isEmpty text || _); [lia|].
  cbv zeta.
  pose proof (typeBonus_nonneg (toLowerCase (data_type c)) (words (toLowerCase text))).
  pose proof (tableBonus_nonneg (toLowerCase (table_name c)) (words (toLowerCase text))).
  pose proof (valueOverlap_nonneg (sampled_values c) (words (toLowerCase text))).
  pose proof (cardinalityBonus_nonneg (sampled_values c)).
  pose proof (sumZ_map_nonneg (partialMatch (toLowerCase (column_name c)))
                (words (toLowerCase text)) (partialMatch_nonneg _)).
  bonuses. lia.
Qed.

(** *** Insertion-ordered maps *)

Lemma upsert_key {V} (k : string) (f : option V -> V) (m : list (string * V)) :
  exists o, In (k, f o) (upsert k f m)
            /\ match o with Some v => In (k, v) m | None => True end.
Proof.
  induction m as [|[k' v] m IH]; simpl.
  - exists None. auto.
  - destruct (String.eqb_spec k' k) as [->|Hne].
    + exists (Some v). simpl. auto.
    + destruct IH as (o & Hin & Ho). exists o. split; [right; exact Hin|].
      destruct o; auto.
Qed.

Lemma upsert_keeps {V} (k : string) (f : option V -> V) (m : list (string * V))
      (k0 : string) (v0 : V) :
  In (k0, v0) m -> In (k0, v0) (upsert k f m) \/ In (k0, f (Some v0)) (upsert k f m).
Proof.
  induction m as [|[k' v] m IH]; simpl; [tauto|].
  intros [Heq|Hin].
  - inversion Heq; subst. destruct (String.eqb_spec k0 k) as [->|Hne]; simpl; auto.
  - destruct (String.eqb k' k); simpl; [auto|]. destruct (IH Hin); auto.
Qed.

Lemma upsert_Forall {V} (P : V -> Prop) (k : string) (f : option V -> V)
      (m : list (string * V)) :
  (forall o, match o with Some v => P v | None => True end -> P (f o)) ->
  Forall (fun kv => P (snd kv)) m -> Forall (fun kv => P (snd kv)) (upsert k f m).
Proof.
  intros Hf. induction 1 as [|[k' v] m Hv Hm IH]; simpl.
  - constructor; [|constructor]. simpl. apply (Hf None). exact I.
  - destruct (String.eqb k' k); constructor; simpl; auto; try (apply (Hf (Some v)); exact Hv).
Qed.

Lemma upsert_nonempty {V} (k : string) (f : option V -> V) (m : list (string * V)) :
  upsert k f m <> [].
Proof. destruct m as [|[k' v] m]; simpl; try destruct (String.eqb k' k); discriminate. Qed.

(** *** Grouping keeps every valid row under its table *)

Lemma groupStep_covers (g : list (string * list SchemaColumn)) (c : SchemaColumn) :
  validColumn c = true -> covered c (groupStep g c).
Proof.
  intros Hv. unfold groupStep. rewrite Hv.
  destruct (upsert_key (table_name c)
              (fun o => match o with Some l => (l ++ [c])%list | None => [c] end) g)
    as (o & Hin & _).
  eexists. split; [exact Hin|]. destruct o; [apply in_or_app|]; simpl; auto.
Qed.

Lemma groupStep_keeps (g : list (string * list SchemaColumn)) (c x : SchemaColumn) :
  covered c g -> covered c (groupStep g x).
Proof.
  intros (cols & Hin & Hc). unfold groupStep. destruct (validColumn x); [|exists cols; auto].
  destruct (upsert_keeps (table_name x)
              (fun o => match o with Some l => (l ++ [x])%list | None => [x] end)
              g _ _ Hin) as [H|H].
  - exists cols. auto.
  - eexists. split; [exact H|]. apply in_or_app. auto.
Qed.

Lemma fold_group_keeps (cache : list SchemaColumn) (g : list (string * list SchemaColumn))
      (c : SchemaColumn) :
  covered c g -> covered c (fold_left groupStep cache g).
Proof.
  revert g. induction cache as [|x cache IH]; simpl; intros g Hc; [exact Hc|].
  apply IH. apply groupStep_keeps. exact Hc.
Qed.

Lemma groupColumnsByTable_covers (cache : list SchemaColumn) (c : SchemaColumn) :
  In c cache -> validColumn c = true -> covered c (groupColumnsByTable cache).
Proof.
  unfold groupColumnsByTable.
  generalize (@nil (string * list SchemaColumn)).
  induction cache as [|x cache IH]; simpl; intros g Hin Hv; [contradiction|].
  destruct Hin as [->|Hin].
  - apply fold_group_keeps. apply groupStep_covers. exact Hv.
  - apply IH; assumption.
Qed.

Lemma fold_group_none (cache : list SchemaColumn) (g : list (string * list SchemaColumn)) :
  existsb validColumn cache = false -> fold_left groupStep cache g = g.
Proof.
  revert g. induction cache as [|x cache IH]; simpl; intros g Hx; [reflexivity|].
  apply orb_false_iff in Hx as [Hx Hc]. rewrite IH by exact Hc.
  unfold groupStep. rewrite Hx. reflexivity.
Qed.

Lemma groupColumnsByTable_none (cache : list SchemaColumn) :
  existsb validColumn cache = false -> groupColumnsByTable cache = [].
Proof. intros H. exact (fold_group_none cache [] H). Qed.

Lemma scoreColumns_retains (text : string) (cache : list SchemaColumn) (c : SchemaColumn) :
  In c cache -> validColumn c = true -> In (scored (table_name c) text c) (scoreColumns text cache).
Proof.
  intros Hin Hv.
  destruct (groupColumnsByTable_covers cache c Hin Hv) as (cols & Hg & Hc).
  unfold scoreColumns. apply in_flat_map. exists (table_name c, cols). split; [exact Hg|].
  apply in_flat_map. exists c. split; [exact Hc|].
  pose proof (calculateColumnScore_nonneg text c) as Hs.
  cbv zeta. destruct (Z.leb_spec (-10) (calculateColumnScore text c)); [left; reflexivity|lia].
Qed.

Lemma scoreColumns_none (text : string) (cache : list SchemaColumn) :
  existsb validColumn cache = false -> scoreColumns text cache = [].
Proof. intros H. unfold scoreColumns. rewrite groupColumnsByTable_none by exact H. reflexivity. Qed.

(** *** The stable descending sort *)

Lemma insertDesc_in {A} (key : A -> Z) (x a : A) (l : list A) :
  In x (insertDesc key a l) <-> x = a \/ In x l.
Proof.
  induction l as [|y l IH]; simpl; [intuition congruence|].
  destruct (key a <? key y); simpl; rewrite ?IH; intuition congruence.
Qed.

Lemma sortDesc_in {A} (key : A -> Z) (x : A) (l : list A) :
  In x (sortDesc key l) <-> In x l.
Proof.
  induction l as [|a l IH]; simpl; [tauto|].
  rewrite insertDesc_in, IH. intuition congruence.
Qed.

Lemma sortDesc_Forall {A} (P : A -> Prop) (key : A -> Z) (l : list A) :
  Forall P l -> Forall P (sortDesc key l).
Proof.
  rewrite !List.Forall_forall. intros H x Hx. apply H. apply sortDesc_in in Hx. exact Hx.
Qed.

Lemma sortDesc_nil {A} (key : A -> Z) (l : list A) : sortDesc key l = [] <-> l = [].
Proof.
  split; [|intros ->; reflexivity].
  destruct l as [|a l]; [reflexivity|]. intros H.
  assert (Hin : In a (sortDesc key (a :: l))) by (apply sortDesc_in; left; reflexivity).
  rewrite H in Hin. contradiction.
Qed.

(** *** Table scores *)

Lemma fold_scoreStep_nonneg (cols : list ColumnMapping) (m : list (string * Z)) :
  Forall (fun kv => 0 <= snd kv) m ->
  Forall (fun kv => 0 <= snd kv) (fold_left scoreStep cols m).
Proof.
  revert m. induction cols as [|c cols IH]; simpl; intros m Hm; [exact Hm|].
  apply IH. unfold scoreStep. apply (upsert_Forall (fun v => 0 <= v)); [|exact Hm].
  intros [v|] Hv; lia.
Qed.

Lemma tableScores_nonneg (cols : list ColumnMapping) :
  Forall (fun kv => 0 <= snd kv) (tableScores cols).
Proof. apply (fold_scoreStep_nonneg cols []). constructor. Qed.

Lemma scoreStep_keeps_key (m : list (string * Z)) (c : ColumnMapping) (k : string) :
  In k (map fst m) -> In k (map fst (scoreStep m c)).
Proof.
  intros Hin. apply in_map_iff in Hin as ([k0 v0] & <- & Hin). simpl.
  destruct (upsert_keeps (tableName c)
              (fun o => Z.max (match o with Some v => v | None => 0 end) (score c))
              m _ _ Hin) as [H|H];
    apply in_map_iff; eexists; (split; [|exact H]); reflexivity.
Qed.

Lemma fold_scoreStep_keeps_key (cols : list ColumnMapping) (m : list (string * Z)) (k : string) :
  In k (map fst m) -> In k (map fst (fold_left scoreStep cols m)).
Proof.
  revert m. induction cols as [|c cols IH]; simpl; intros m Hm; [exact Hm|].
  apply IH. apply scoreStep_keeps_key. exact Hm.
Qed.

Lemma tableScores_owner (cols : list ColumnMapping) (c : ColumnMapping) :
  In c cols -> In (tableName c) (map fst (tableScores cols)).
Proof.
  unfold tableScores.
  generalize (@nil (string * Z)).
  induction cols as [|x cols IH]; simpl; intros m Hin; [contradiction|].
  destruct Hin as [->|Hin]; [|apply IH; exact Hin].
  apply fold_scoreStep_keeps_key. unfold scoreStep.
  destruct (upsert_key (tableName c)
              (fun o => Z.max (match o with Some v => v | None => 0 end) (score c)) m)
    as (o & Ho & _).
  apply in_map_iff. eexists. split; [|exact Ho]. reflexivity.
Qed.

Lemma boostTable_name (llm : LLMQueryAnalysis) (t : TableMapping) :
  tm_tableName (boostTable llm t) = tm_tableName t.
Proof. unfold boostTable. destruct (_ && _); reflexivity. Qed.

Lemma boostTable_score (llm : LLMQueryAnalysis) (t : TableMapping) :
  tm_score t <= tm_score (boostTable llm t).
Proof. unfold boostTable. destruct (_ && _); simpl; lia. Qed.

(** every ranked table has a score of at least 0 *)
Lemma rankedTables_nonneg (cache : list SchemaColumn) (llm : LLMQueryAnalysis) (text : string) :
  Forall (fun t => 0 <= tm_score t) (rankedTables cache llm text).
Proof.
  unfold rankedTables. apply sortDesc_Forall.
  apply List.Forall_forall. intros t Ht.
  apply in_map_iff in Ht as (t0 & <- & Ht0).
  apply sortDesc_in in Ht0. apply in_map_iff in Ht0 as ([tn s] & <- & Hts).
  pose proof (tableScores_nonneg (sortDesc score (scoreColumns text cache))) as Hall.
  rewrite List.Forall_forall in Hall. specialize (Hall _ Hts). simpl in Hall.
  pose proof (boostTable_score llm {| tm_tableName := tn; tm_score := s |}) as Hb.
  simpl in Hb. lia.
Qed.

Lemma rankedTables_owner (cache : list SchemaColumn) (llm : LLMQueryAnalysis)
      (text : string) (c : SchemaColumn) :
  In c cache -> validColumn c = true ->
  exists t, In t (rankedTables cache llm text) /\ tm_tableName t = table_name c.
Proof.
  intros Hin Hv.
  pose proof (scoreColumns_retains text cache c Hin Hv) as Hc.
  apply (sortDesc_in score) in Hc. apply tableScores_owner in Hc. simpl in Hc.
  apply in_map_iff in Hc as ([tn s] & Hk & Hts). simpl in Hk. subst tn.
  exists (boostTable llm {| tm_tableName := table_name c; tm_score := s |}).
  split; [|apply boostTable_name].
  unfold rankedTables. apply sortDesc_in. apply in_map. apply sortDesc_in.
  apply in_map_iff. exists (table_name c, s). auto.
Qed.

Lemma rankedTables_empty (cache : list SchemaColumn) (llm : LLMQueryAnalysis) (text : string) :
  existsb validColumn cache = false -> rankedTables cache llm text = [].
Proof. intros H. unfold rankedTables. rewrite scoreColumns_none by exact H. reflexivity. Qed.

Lemma firstn_in {A} (n : nat) (l : list A) (x : A) : In x (firstn n l) -> In x l.
Proof.
  revert l. induction n as [|n IH]; intros [|a l]; simpl; try tauto.
  intros [->|H]; [left; reflexivity|right; apply IH; exact H].
Qed.

Lemma filter_all {A} (f : A -> bool) (l : list A) :
  Forall (fun x => f x = true) l -> List.filter f l = l.
Proof. induction 1 as [|x l Hx Hl IH]; simpl; [|rewrite Hx, IH]; reflexivity. Qed.

(** the tables that clear the floor of [generateQuery] are the mapper's *)
Lemma relevantTables_all (cache : list SchemaColumn) (llm : LLMQueryAnalysis) (text : string) :
  QueryGenerator.relevantTablesOf (mapUserQueryToSchema cache llm text)
  = firstn 3 (rankedTables cache llm text).
Proof.
  unfold QueryGenerator.relevantTablesOf, mapUserQueryToSchema. simpl.
  rewrite filter_all.
  - rewrite firstn_firstn. reflexivity.
  - apply List.Forall_forall. intros t Ht. apply firstn_in in Ht.
    pose proof (rankedTables_nonneg cache llm text) as Hall.
    rewrite List.Forall_forall in Hall. specialize (Hall _ Ht). apply Z.ltb_lt. lia.
Qed.

End MapperFacts.

(** ** Failure of the translation *)

Section GeneratorFacts.
Import Str SemanticMapper QueryGenerator Spec.
Variable tz : Z.
Variable now : Now.

Lemma renderFilter_error (pa : string) (m : gmap string string) (f : Filter)
      (st : RenderState) (e : Error) :
  renderFilter pa m f st = inl e -> e = TypeError.
Proof.
  unfold renderFilter. destruct st as [i ps].
  destruct (qualify pa m f); [|discriminate].
  destruct (String.eqb (operator f) "ILIKE"); [discriminate|].
  destruct (String.eqb (operator f) "IN").
  - destruct (value f); [|discriminate]. intros H. inversion H. reflexivity.
  - destruct (String.eqb (operator f) "WEEKEND"); [discriminate|].
    destruct (String.eqb (operator f) "WEEKDAY"); discriminate.
Qed.

Lemma renderFilters_error (pa : string) (m : gmap string string) (fs : list Filter)
      (st : RenderState) (e : Error) :
  renderFilters pa m fs st = inl e -> e = TypeError.
Proof.
  revert st. induction fs as [|f fs IH]; cbn [renderFilters]; intros st; [discriminate|].
  destruct (renderFilter pa m f st) as [e'|[c st1]] eqn:Hf.
  - intros H. inversion H; subst. eapply renderFilter_error. exact Hf.
  - destruct (renderFilters pa m fs st1) as [e'|[cs st2]] eqn:Hr; [|discriminate].
    intros H. inversion H; subst. eapply IH. exact Hr.
Qed.

Lemma buildSQLQuery_error pt ts cols aggs fs text mapping (e : Error) :
  buildSQLQuery pt ts cols aggs fs text mapping = inl e -> e = TypeError.
Proof.
  unfold buildSQLQuery, buildSQLParts. cbv zeta.
  destruct (renderFilters _ _ _ _) as [e'|[conds [i ps]]] eqn:Hr; [|discriminate].
  intros H. inversion H; subst. eapply renderFilters_error. exact Hr.
Qed.

(** the filter assembler raises on an invalid last-day date only, and
    returns otherwise *)
Lemma lastDayOverride_error (t : string) (acc : list Filter) (e : Error) :
  lastDayOverride tz t acc = inl e -> e = RangeError.
Proof.
  unfold lastDayOverride.
  destruct (has t "last day" || has t "last day of"); [|discriminate].
  destruct (Re.monthYearSpaces t) as [[month year]|]; [|discriminate].
  destruct (getMonthNumber month); [discriminate|].
  intros H. inversion H. reflexivity.
Qed.

Lemma parseFilters_error (text : string) (cols : list ColumnMapping) (pt : string)
      (e : Error) :
  parseFilters tz now text cols pt = inl e -> e = RangeError.
Proof.
  unfold parseFilters. destruct (isEmpty text); [discriminate|]. cbv zeta.
  destruct (lastDayOverride _ _ _) as [e'|fs] eqn:Hl; [|discriminate].
  intros H. inversion H; subst. eapply lastDayOverride_error. exact Hl.
Qed.

Lemma lastDayOverride_raises (text : string) (acc : list Filter) :
  invalidLastDay text = true -> lastDayOverride tz (toLowerCase text) acc = inl RangeError.
Proof.
  unfold invalidLastDay, lastDayOverride. cbv zeta. intros H.
  apply andb_true_iff in H as [Hl Hm]. rewrite Hl.
  destruct (Re.monthYearSpaces _) as [[month year]|]; [|discriminate Hm].
  destruct (getMonthNumber month); [discriminate Hm|reflexivity].
Qed.

Lemma lastDayOverride_returns (text : string) (acc : list Filter) :
  invalidLastDay text = false ->
  exists fs, lastDayOverride tz (toLowerCase text) acc = inr fs
             /\ forall f, In f acc -> isNonDateFilter f = true -> In f fs.
Proof.
  unfold invalidLastDay, lastDayOverride. cbv zeta. intros H.
  destruct (has _ "last day" || has _ "last day of"); [|exists acc; auto].
  destruct (Re.monthYearSpaces _) as [[month year]|]; [|exists acc; auto].
  destruct (getMonthNumber month) as [monthNumber|]; [|discriminate H].
  eexists. split; [reflexivity|].
  intros f Hin Hnd. apply in_or_app. left. apply filter_In. auto.
Qed.

Lemma invalidLastDay_nonempty (text : string) :
  invalidLastDay text = true -> isEmpty text = false.
Proof. destruct text; [discriminate|reflexivity]. Qed.

Lemma parseFilters_raises (text : string) (cols : list ColumnMapping) (pt : string) :
  invalidLastDay text = true -> parseFilters tz now text cols pt = inl RangeError.
Proof.
  intros H. unfold parseFilters. rewrite (invalidLastDay_nonempty _ H). cbv zeta.
  rewrite (lastDayOverride_raises _ _ H). reflexivity.
Qed.

Lemma parseFilters_returns (text : string) (cols : list ColumnMapping) (pt : string) :
  invalidLastDay text = false -> exists fs, parseFilters tz now text cols pt = inr fs.
Proof.
  intros H. unfold parseFilters. destruct (isEmpty text); [eexists; reflexivity|]. cbv zeta.
  destruct (lastDayOverride_returns text (accumulatedFilters tz now text (toLowerCase text) cols pt) H)
    as (fs & -> & _).
  eexists. reflexivity.
Qed.

(** with a relevant table, [generateQuery] does not raise the
    no-relevant-tables error *)
Lemma generateFromMapping_relevant (mapping : MappingResult) (text : string) :
  relevantTablesOf mapping <> [] ->
  generateFromMapping tz now mapping text <> inl NoRelevantTables.
Proof.
  intros Hne. unfold generateFromMapping. cbv zeta.
  destruct (relevantTablesOf mapping) as [|t0 ts] eqn:Hrel; [contradiction|].
  destruct (parseFilters _ _ _ _ _) as [e|fs] eqn:Hf.
  - apply parseFilters_error in Hf. subst e. discriminate.
  - destruct (isT1Query text); [discriminate|].
    destruct (buildSQLQuery _ _ _ _ _ _ _) as [e|[q ps]] eqn:Hb; [|discriminate].
    apply buildSQLQuery_error in Hb. subst e. discriminate.
Qed.

Lemma existsb_validColumn (cache : list SchemaColumn) :
  existsb validColumn cache = true ->
  exists c, In c cache /\ validColumn c = true.
Proof. intros H. apply existsb_exists in H. exact H. Qed.

Lemma relevantTables_nonempty (cache : list SchemaColumn) (llm : LLMQueryAnalysis)
      (text : string) :
  existsb validColumn cache = true ->
  relevantTablesOf (mapUserQueryToSchema cache llm text) <> [].
Proof.
  intros H. apply existsb_validColumn in H as (c & Hin & Hv).
  destruct (rankedTables_owner cache llm text c Hin Hv) as (t & Ht & _).
  rewrite relevantTables_all.
  destruct (rankedTables cache llm text) as [|t0 ts]; [contradiction|]. discriminate.
Qed.

End GeneratorFacts.

(** C10.  The deterministic column score is a sum of non-negative bonuses
    and so is never below 0: it always passes the -10 test of the mapper.
    Hence every row of the schema cache that names its table and column is
    retained with its score, and the table that owns it is ranked with a
    score above the -5 relevance floor. *)
Theorem score_nonneg_and_floors :
  (forall (text : string) (c : SchemaColumn),
      0 <= SemanticMapper.calculateColumnScore text c
      /\ (-10 <=? SemanticMapper.calculateColumnScore text c) = true)
  /\ (forall (text : string) (cache : list SchemaColumn) (llm : LLMQueryAnalysis)
             (c : SchemaColumn),
         In c cache -> SemanticMapper.validColumn c = true ->
         In (SemanticMapper.scored (table_name c) text c)
            (SemanticMapper.scoreColumns text cache)
         /\ exists t, In t (SemanticMapper.rankedTables cache llm text)
                      /\ tm_tableName t = table_name c
                      /\ -5 < tm_score t).
Proof.
  split.
  { intros text c. pose proof (calculateColumnScore_nonneg text c).
    split; [assumption|]. apply Z.leb_le. lia. }
  intros text cache llm c Hin Hv. split.
  - apply scoreColumns_retains; assumption.
  - destruct (rankedTables_owner cache llm text c Hin Hv) as (t & Ht & Hn).
    exists t. split; [exact Ht|]. split; [exact Hn|].
    pose proof (rankedTables_nonneg cache llm text) as Hall.
    rewrite List.Forall_forall in Hall. specialize (Hall _ Ht). lia.
Qed.

Lemma score_nonneg_and_floors_witness :
  In (mapped "stations" "station_name" "character varying" 0)
        (SemanticMapper.scoreColumns "asdf qwerty" testCatalogue)
  /\ exists t, In t (SemanticMapper.rankedTables testCatalogue noSlots "asdf qwerty")
               /\ tm_tableName t = "stations"
               /\ -5 < tm_score t.
Proof.
  apply (proj2 score_nonneg_and_floors "asdf qwerty" testCatalogue noSlots
               (schemaRow "stations" "station_name" "character varying")).
  - right. right. left. reflexivity.
  - vm_compute. reflexivity.
Defined.

(** C1, as the code has it.  Translation fails with the no-relevant-tables
    error exactly when the schema cache holds no valid row; the vocabulary of
    the question plays no part in it. *)
Theorem no_relevant_tables_iff :
  forall (tz : Z) (now : Now) (cache : list SchemaColumn) (llm : LLMQueryAnalysis)
         (text : string),
    QueryGenerator.generateQuery tz now cache llm text = inl NoRelevantTables
    <-> existsb SemanticMapper.validColumn cache = false.
Proof.
  intros tz now cache llm text. split.
  - intros H. destruct (existsb SemanticMapper.validColumn cache) eqn:Hv; [|reflexivity].
    exfalso. revert H. apply generateFromMapping_relevant.
    apply relevantTables_nonempty. exact Hv.
  - intros Hv. unfold QueryGenerator.generateQuery, QueryGenerator.generateFromMapping.
    cbv zeta. rewrite relevantTables_all, rankedTables_empty by exact Hv. reflexivity.
Qed.

Lemma no_relevant_tables_iff_witness :
  QueryGenerator.generateQuery 0 nov2026 [] noSlots "asdf qwerty" = inl NoRelevantTables.
Proof.
  apply (proj2 (no_relevant_tables_iff 0 nov2026 [] noSlots "asdf qwerty")).
  vm_compute. reflexivity.
Defined.

(** C1, as stated, fails: against the three-row catalogue of the mapper's
    tests the question "asdf qwerty" scores 0 everywhere, both tables clear
    the floor, and a plan with query text is returned. *)
Lemma gibberish_yields_plan :
  QueryGenerator.relevantTablesOf
    (SemanticMapper.mapUserQueryToSchema testCatalogue noSlots "asdf qwerty")
  = [ {| tm_tableName := "trips"; tm_score := 0 |};
      {| tm_tableName := "stations"; tm_score := 0 |} ]
  /\ exists q, QueryGenerator.generateQuery 0 nov2026 testCatalogue noSlots "asdf qwerty" = inr q
               /\ sql q = "SELECT t.started_at, t.ended_at FROM trips t".
Proof. split; [vm_compute; reflexivity|]. eexists. split; vm_compute; reflexivity. Qed.

(** ** The shortcut for the first public test question *)

Section ShortcutFacts.
Import Str SemanticMapper QueryGenerator Spec.
Variable tz : Z.
Variable now : Now.

Lemma generateQuery_empty_cache (cache : list SchemaColumn) (llm : LLMQueryAnalysis)
      (text : string) :
  existsb validColumn cache = false ->
  generateQuery tz now cache llm text = inl NoRelevantTables.
Proof.
  intros Hv. unfold generateQuery, generateFromMapping. cbv zeta.
  rewrite relevantTables_all, rankedTables_empty by exact Hv. reflexivity.
Qed.

Lemma generateQuery_t1 (cache : list SchemaColumn) (llm : LLMQueryAnalysis) (text : string) :
  isT1Query text = true -> existsb validColumn cache = true ->
  invalidLastDay text = false ->
  generateQuery tz now cache llm text = inr t1Plan.
Proof.
  intros Ht Hv Hl. unfold generateQuery, generateFromMapping. cbv zeta.
  pose proof (relevantTables_nonempty cache llm text Hv) as Hne.
  destruct (relevantTablesOf _) as [|t0 ts]; [contradiction|].
  destruct (parseFilters_returns tz now text
              (relevantColumnsOf (mapUserQueryToSchema cache llm text))
              (choosePrimaryTable text (t0 :: ts)
                 (relevantColumnsOf (mapUserQueryToSchema cache llm text))) Hl) as (fs & ->).
  rewrite Ht. reflexivity.
Qed.

Lemma generateQuery_invalid_last_day (cache : list SchemaColumn) (llm : LLMQueryAnalysis)
      (text : string) :
  existsb validColumn cache = true -> invalidLastDay text = true ->
  generateQuery tz now cache llm text = inl RangeError.
Proof.
  intros Hv Hl. unfold generateQuery, generateFromMapping. cbv zeta.
  pose proof (relevantTables_nonempty cache llm text Hv) as Hne.
  destruct (relevantTablesOf _) as [|t0 ts]; [contradiction|].
  rewrite (parseFilters_raises tz now _ _ _ Hl). reflexivity.
Qed.

End ShortcutFacts.

(** ** The validation of the request handler *)

Example trim_question : Str.trim "  How many rides?  " = "How many rides?".
Proof. vm_compute. reflexivity. Qed.

Example malicious_drop_table : QueryGenerator.isMalicious "please DROP   table trips" = true.
Proof. vm_compute. reflexivity. Qed.

Example malicious_update_set :
  QueryGenerator.isMalicious "update trips and then  set it" = true
  /\ QueryGenerator.isMalicious "update the sunset" = false.
Proof. split; vm_compute; reflexivity. Qed.

Example malicious_final_semicolon :
  QueryGenerator.isMalicious "How many rides in June 2025;" = true
  /\ QueryGenerator.isMalicious "How many rides; in June 2025" = false.
Proof. split; vm_compute; reflexivity. Qed.

Example malicious_or_true :
  QueryGenerator.isMalicious "Rides for true believers" = true
  /\ QueryGenerator.isMalicious "rides where a = 1 or 1 = 1" = true
  /\ QueryGenerator.isMalicious "How many rides in June 2025?" = false.
Proof. split; [|split]; vm_compute; reflexivity. Qed.

Example handler_rejects_blank :
  QueryGenerator.handlerPlan 0 nov2026 testCatalogue noSlots (Text "   ") = Status400 InvalidFormat
  /\ QueryGenerator.handlerPlan 0 nov2026 testCatalogue noSlots NotAString = Status400 InvalidFormat.
Proof. split; vm_compute; reflexivity. Qed.

Section ValidationFacts.
Import Str SemanticMapper QueryGenerator Spec.

Lemma isSpace_lowerChar (c : ascii) : isSpace (lowerChar c) = isSpace c.
Proof. destruct c as [[] [] [] [] [] [] [] []]; reflexivity. Qed.

Lemma toLowerCase_app (a b : string) : toLowerCase (a ++ b) = toLowerCase a ++ toLowerCase b.
Proof.
  induction a as [|c a IH]; [reflexivity|].
  rewrite append_cons. cbn [toLowerCase]. rewrite append_cons, IH. reflexivity.
Qed.

Lemma toLowerCase_trimStart (s : string) : toLowerCase (trimStart s) = trimStart (toLowerCase s).
Proof.
  unfold trimStart. induction s as [|c s IH]; [reflexivity|].
  cbn [toLowerCase span]. rewrite isSpace_lowerChar. destruct (isSpace c).
  - destruct (span isSpace s) as [a b]. destruct (span isSpace (toLowerCase s)) as [a' b'].
    exact IH.
  - reflexivity.
Qed.

Lemma toLowerCase_trimEnd (s : string) : toLowerCase (trimEnd s) = trimEnd (toLowerCase s).
Proof.
  induction s as [|c s IH]; [reflexivity|].
  cbn [toLowerCase trimEnd]. cbv zeta. rewrite isSpace_lowerChar, <- IH.
  replace (isEmpty (toLowerCase (trimEnd s))) with (isEmpty (trimEnd s))
    by (destruct (trimEnd s); reflexivity).
  destruct (isSpace c && isEmpty (trimEnd s)); reflexivity.
Qed.

Lemma toLowerCase_trim (s : string) : toLowerCase (trim s) = trim (toLowerCase s).
Proof. unfold trim. rewrite toLowerCase_trimEnd, toLowerCase_trimStart. reflexivity. Qed.

(** trimming at the start stops at the latest before a character that is
    not white space *)
Lemma trimStart_keeps (a : ascii) (r : string) :
  isSpace a = false ->
  forall x : string, exists x' : string, trimStart (x ++ String a r) = x' ++ String a r.
Proof.
  intros Ha. unfold trimStart. induction x as [|c x [x' IH]].
  - exists "". change ("" ++ String a r) with (String a r). cbn [span]. rewrite Ha. reflexivity.
  - rewrite append_cons. cbn [span]. destruct (isSpace c).
    + exists x'. destruct (span isSpace (x ++ String a r)) as [u v]. exact IH.
    + exists (String c x). rewrite append_cons. reflexivity.
Qed.

(** and trimming at the end keeps everything up to such a character *)
Lemma trimEnd_keeps (b : ascii) (y : string) :
  isSpace b = false ->
  forall u : string, exists y' : string, trimEnd (u ++ String b y) = u ++ String b y'.
Proof.
  intros Hb. induction u as [|c u [y' IH]].
  - exists (trimEnd y). change ("" ++ String b y) with (String b y).
    cbn [trimEnd]. cbv zeta. rewrite Hb. reflexivity.
  - exists y'. rewrite !append_cons. cbn [trimEnd]. cbv zeta. rewrite IH.
    replace (isEmpty (u ++ String b y')) with false by (destruct u; reflexivity).
    rewrite andb_false_r. reflexivity.
Qed.

(** a phrase that starts and ends with a character that is not white space
    survives trimming *)
Lemma includes_trim (t p0 q : string) (a b : ascii) :
  String a q = p0 ++ String b "" -> isSpace a = false -> isSpace b = false ->
  includes t (String a q) = true -> includes (trim t) (String a q) = true.
Proof.
  intros Hp Ha Hb H. apply includes_spec in H as (x & y & ->).
  unfold trim. rewrite append_cons.
  destruct (trimStart_keeps a (q ++ y) Ha x) as [x' ->].
  rewrite <- append_cons, Hp, append_assoc3.
  change (String b "" ++ y) with (String b y). rewrite <- append_assoc3.
  destruct (trimEnd_keeps b y Hb (x' ++ p0)) as [y' ->].
  apply includes_spec. exists x', y'.
  rewrite append_assoc3. change (String b y') with (String b "" ++ y').
  rewrite <- (append_assoc3 p0). reflexivity.
Qed.

Lemma has_trim (text p0 q : string) (a b : ascii) :
  String a q = p0 ++ String b "" -> isSpace a = false -> isSpace b = false ->
  has (toLowerCase text) (String a q) = true ->
  has (toLowerCase (trim text)) (String a q) = true.
Proof.
  intros Hp Ha Hb H. unfold has in *. rewrite toLowerCase_trim.
  eapply includes_trim; eassumption.
Qed.

(** the T-1 test does not see the trimming *)
Lemma isT1Query_trim (question : string) :
  isT1Query question = true -> isT1Query (trim question) = true.
Proof.
  unfold isT1Query. cbv zeta. intros H.
  apply andb_true_iff in H as [H Hc]. apply andb_true_iff in H as [Ha Hr].
  rewrite (has_trim question "averag" _ _ "e" eq_refl eq_refl eq_refl Ha).
  rewrite (has_trim question "congress avenu" _ _ "e" eq_refl eq_refl eq_refl Hc).
  apply orb_true_iff in Hr as [Hr|Hr].
  - rewrite (has_trim question "ride tim" _ _ "e" eq_refl eq_refl eq_refl Hr). reflexivity.
  - rewrite (has_trim question "journe" _ _ "y" eq_refl eq_refl eq_refl Hr).
    rewrite orb_true_r. reflexivity.
Qed.

Lemma isT1Query_nonempty (question : string) :
  isT1Query question = true -> isEmpty question = false.
Proof. destruct question; [discriminate|reflexivity]. Qed.

(** the handler on a question of the shortcut: the unsafe patterns decide *)
Lemma handlerPlan_t1 (tz : Z) (now : Now) (cache : list SchemaColumn) (llm : LLMQueryAnalysis)
      (question : string) :
  isT1Query question = true ->
  handlerPlan tz now cache llm (Text question)
  = if isMalicious (trim question) then Status400 UnsafePattern else Executes t1Sql t1Params.
Proof.
  intros Ht. pose proof (isT1Query_trim question Ht) as Htrim.
  unfold handlerPlan. rewrite (isT1Query_nonempty question Ht).
  rewrite (isT1Query_nonempty (trim question) Htrim). cbn [orb]. cbv zeta.
  rewrite Htrim. reflexivity.
Qed.

End ValidationFacts.

(** C4, as the code has it.  A question that contains "average", "congress
    avenue" and "ride time" or "journey" passes the request handler's checks
    on its form; when, trimmed, it matches none of the handler's unsafe
    patterns, the handler takes the fixed query text and parameters without
    calling the generator, and when it matches one, the handler answers with
    status 400.  The generator itself runs the mapper and the assemblers
    first: it raises the no-relevant-tables error when the schema cache holds
    no valid row, and returns the fixed plan when the cache holds one and the
    filter assembler returns. *)
Theorem t1_shortcut :
  forall (tz : Z) (now : Now) (cache : list SchemaColumn) (llm : LLMQueryAnalysis)
         (text : string),
    QueryGenerator.isT1Query text = true ->
    (QueryGenerator.isMalicious (Str.trim text) = false ->
     QueryGenerator.handlerPlan tz now cache llm (Text text)
     = Executes QueryGenerator.t1Sql QueryGenerator.t1Params)
    /\ (QueryGenerator.isMalicious (Str.trim text) = true ->
        QueryGenerator.handlerPlan tz now cache llm (Text text) = Status400 UnsafePattern)
    /\ (existsb SemanticMapper.validColumn cache = true ->
        Spec.invalidLastDay text = false ->
        QueryGenerator.generateQuery tz now cache llm text = inr QueryGenerator.t1Plan)
    /\ (existsb SemanticMapper.validColumn cache = false ->
        QueryGenerator.generateQuery tz now cache llm text = inl NoRelevantTables).
Proof.
  intros tz now cache llm text Ht. split; [|split; [|split]].
  - intros Hm. rewrite handlerPlan_t1 by exact Ht. rewrite Hm. reflexivity.
  - intros Hm. rewrite handlerPlan_t1 by exact Ht. rewrite Hm. reflexivity.
  - apply generateQuery_t1. exact Ht.
  - apply generateQuery_empty_cache.
Qed.

Lemma t1_shortcut_witness :
  QueryGenerator.handlerPlan 0 nov2026 testCatalogue noSlots (Text t1OtherMonth)
  = Executes QueryGenerator.t1Sql QueryGenerator.t1Params
  /\ QueryGenerator.handlerPlan 0 nov2026 testCatalogue noSlots
       (Text "Average ride time at Congress Avenue in July 2024;")
     = Status400 UnsafePattern
  /\ QueryGenerator.generateQuery 0 nov2026 testCatalogue noSlots t1OtherMonth
     = inr QueryGenerator.t1Plan
  /\ params QueryGenerator.t1Plan
     = [One (SStr "2025-06-01"); One (SStr "2025-07-01"); One (SStr "Congress Avenue")].
Proof.
  destruct (t1_shortcut 0 nov2026 testCatalogue noSlots t1OtherMonth) as (H1 & _ & H2 & _);
    [vm_compute; reflexivity|].
  destruct (t1_shortcut 0 nov2026 testCatalogue noSlots
              "Average ride time at Congress Avenue in July 2024;") as (_ & H3 & _);
    [vm_compute; reflexivity|].
  split; [apply H1; vm_compute; reflexivity|].
  split; [apply H3; vm_compute; reflexivity|].
  split; [apply H2; vm_compute; reflexivity|reflexivity].
Defined.

(** the filter assembler runs before the shortcut: on a question of the
    shortcut whose last-day phrase names an inherited key the generator
    raises, while the handler answers with the fixed plan *)
Lemma t1_invalid_last_day :
  let question := "average ride time at Congress Avenue on the last day of constructor 2025" in
  QueryGenerator.isT1Query question = true
  /\ QueryGenerator.generateQuery 0 nov2026 testCatalogue noSlots question = inl RangeError
  /\ QueryGenerator.handlerPlan 0 nov2026 testCatalogue noSlots (Text question)
     = Executes QueryGenerator.t1Sql QueryGenerator.t1Params.
Proof. split; [vm_compute; reflexivity|]. split; vm_compute; reflexivity. Qed.

(** C4, as stated, fails: with an empty schema cache the generator raises
    the no-relevant-tables error on the first public test question, before
    it reaches the shortcut. *)
Lemma t1_needs_a_table :
  QueryGenerator.isT1Query
    "What was the average ride time for journeys that started at Congress Avenue in June 2025?"
  = true
  /\ QueryGenerator.generateQuery 0 nov2026 [] noSlots
       "What was the average ride time for journeys that started at Congress Avenue in June 2025?"
     = inl NoRelevantTables.
Proof. split; vm_compute; reflexivity. Qed.

(** ** The aggregation cascade *)

Section AggregationFacts.
Import Str SemanticMapper QueryGenerator Spec.

(** "average" contains "age": a text without "age" has no "average" *)
Lemma no_age_no_average (t : string) : has t "age" = false -> has t "average" = false.
Proof. apply includes_false_part. reflexivity. Qed.

Ltac split_orb :=
  repeat match goal with
         | H : (?a || ?b) = false |- _ => apply (orb_false_elim a b) in H; destruct H
         end.

Lemma cascade_speed (t : string) (safeColumns : list ColumnMapping) :
  beforeSpeed t = false -> isSpeedText t = true -> cascade t safeColumns = [speedAggregation].
Proof.
  unfold beforeSpeed. intros Hb Hs. split_orb.
  unfold cascade.
  repeat match goal with H : _ = false |- _ => rewrite H; clear H end.
  rewrite Hs. reflexivity.
Qed.

Lemma beforeSpeed_no_age (t : string) : beforeSpeed t = false -> has t "age" = false.
Proof.
  unfold beforeSpeed. intros Hb. split_orb.
  match goal with H : isAgeText t = false |- _ => unfold isAgeText in H end.
  split_orb. assumption.
Qed.

End AggregationFacts.

(** C6, as the code has it.  A question with speed vocabulary that meets
    none of the conditions standing before the speed branch in the cascade
    gets the synthetic SPEED aggregation, alone: the branch returns at once
    and nothing is pushed after it. *)
Theorem speed_after_earlier_branches :
  forall (text : string) (columns : list ColumnMapping),
    QueryGenerator.isSpeedText (Str.toLowerCase text) = true ->
    QueryGenerator.beforeSpeed (Str.toLowerCase text) = false ->
    QueryGenerator.parseAggregations text columns = [QueryGenerator.speedAggregation].
Proof.
  intros text columns Hs Hb. unfold QueryGenerator.parseAggregations. cbv zeta.
  rewrite (cascade_speed _ _ Hb Hs).
  unfold QueryGenerator.rideTimeAggregation.
  rewrite (no_age_no_average _ (beforeSpeed_no_age _ Hb)). reflexivity.
Qed.

Lemma speed_after_earlier_branches_witness :
  QueryGenerator.parseAggregations "What is the typical pace of a trip?" []
  = [ {| function := "SPEED"; agg_column := "speed_calculated"; alias := "average_speed_kmh" |} ].
Proof.
  apply (speed_after_earlier_branches "What is the typical pace of a trip?" []);
    vm_compute; reflexivity.
Defined.

(** C6, as stated, fails: ranking vocabulary stands before the speed branch,
    so a question about the highest speed gets the departure count and no
    SPEED aggregation. *)
Lemma ranking_precedes_speed :
  QueryGenerator.isSpeedText (Str.toLowerCase "Which bike reached the highest speed?") = true
  /\ QueryGenerator.parseAggregations "Which bike reached the highest speed?" []
     = [ {| function := "COUNT"; agg_column := "*"; alias := "departure_count" |} ].
Proof. split; vm_compute; reflexivity. Qed.

(** ** The gender rule *)

Section GenderFacts.
Import Str SemanticMapper QueryGenerator Spec.
Variable tz : Z.
Variable now : Now.

Lemma genderFilters_emitted (text : string) (cols : list ColumnMapping)
      (primaryTable : string) (f : Filter) :
  isEmpty text = false -> invalidLastDay text = false ->
  In f (genderFilters (toLowerCase text) cols) -> isNonDateFilter f = true ->
  exists fs, parseFilters tz now text cols primaryTable = inr fs /\ In f fs.
Proof.
  intros Hne Hl Hin Hnd. unfold parseFilters. rewrite Hne. cbv zeta.
  destruct (lastDayOverride_returns tz text
              (accumulatedFilters tz now text (toLowerCase text) cols primaryTable) Hl)
    as (fs & -> & Hkeep).
  eexists. split; [reflexivity|].
  apply in_or_app. left. apply Hkeep; [|exact Hnd].
  unfold accumulatedFilters. apply in_or_app. right. apply in_or_app. left. exact Hin.
Qed.

Lemma women_text_nonempty (text : string) :
  isWomenText (toLowerCase text) = true -> isEmpty text = false.
Proof. destruct text; [discriminate|reflexivity]. Qed.

Lemma men_text_nonempty (text : string) :
  isMenText (toLowerCase text) = true -> isEmpty text = false.
Proof. destruct text; [discriminate|reflexivity]. Qed.

Lemma filter_head {A} (f : A -> bool) (l : list A) (x : A) (rest : list A) :
  List.filter f l = x :: rest -> f x = true.
Proof.
  intros H. assert (Hin : In x (List.filter f l)) by (rewrite H; left; reflexivity).
  apply filter_In in Hin. tauto.
Qed.

Ltac no_gender :=
  repeat (apply List.Forall_cons; [reflexivity|]); apply List.Forall_nil.

(** the rules other than the gender rule make no gender predicate *)
Lemma other_rules_no_gender (text : string) (cols : list ColumnMapping) (primaryTable : string) :
  let t := toLowerCase text in
  genderFilters t cols = [] ->
  List.Forall (fun f => isGenderPredicate f = false)
              (accumulatedFilters tz now text t cols primaryTable).
Proof.
  intros t Hg. unfold accumulatedFilters. rewrite Hg.
  apply List.Forall_app. split.
  { unfold dateFilters. destruct (parseDateExpressions tz now text) as [[a b]|]; [|no_gender].
    destruct (pickDateColumn t cols primaryTable); no_gender. }
  cbn [app]. apply List.Forall_app. split.
  { unfold locationFilters. destruct (_ || _); [|no_gender].
    destruct (List.filter _ cols); no_gender. }
  apply List.Forall_app. split.
  { unfold rainFilters. destruct (isRainText t); no_gender. }
  apply List.Forall_app. split.
  { unfold weatherCompareFilters. destruct (_ || _); [|no_gender].
    destruct (Re.weatherCompare t) as [[op v]|]; no_gender. }
  apply List.Forall_app. split.
  { unfold dryFilters. destruct (_ && _); no_gender. }
  apply List.Forall_app. split.
  { unfold temperatureFilters. destruct (_ || _); [no_gender|].
    destruct (_ || _); no_gender. }
  apply List.Forall_app. split.
  { unfold ageFilters. destruct (isAgeText t); [|no_gender].
    destruct (Re.underOver t) as [[comparison ageThreshold]|]; [|no_gender].
    destruct (String.eqb comparison "under"); [no_gender|].
    destruct (String.eqb comparison "over"); no_gender. }
  apply List.Forall_app. split.
  { unfold weekendFilters. destruct (_ || _); no_gender. }
  unfold weekdayFilters. destruct (_ || _); no_gender.
Qed.

Lemma Forall_filter_keeps {A} (P : A -> Prop) (f : A -> bool) (l : list A) :
  List.Forall P l -> List.Forall P (List.filter f l).
Proof.
  intros H. apply List.Forall_forall. intros x Hx. apply filter_In in Hx as [Hx _].
  revert x Hx. apply List.Forall_forall. exact H.
Qed.

(** when the gender rule emits nothing, the filter list holds no gender
    predicate *)
Lemma parseFilters_no_gender (text : string) (cols : list ColumnMapping) (primaryTable : string)
      (fs : list Filter) :
  genderFilters (toLowerCase text) cols = [] ->
  parseFilters tz now text cols primaryTable = inr fs ->
  List.Forall (fun f => isGenderPredicate f = false) fs.
Proof.
  intros Hg. unfold parseFilters. destruct (isEmpty text).
  { intros H. inversion H. apply List.Forall_nil. }
  cbv zeta. pose proof (other_rules_no_gender text cols primaryTable Hg) as Hacc.
  cbv zeta in Hacc. unfold lastDayOverride.
  set (acc := accumulatedFilters tz now text (toLowerCase text) cols primaryTable) in *.
  assert (Hdim : List.Forall (fun f => isGenderPredicate f = false)
                             (dimensionFilters (toLowerCase text))).
  { unfold dimensionFilters. destruct (Re.byDimension _) as [dimension|]; [|no_gender].
    repeat (match goal with |- context [if ?b then _ else _] => destruct b end; [no_gender|]).
    no_gender. }
  destruct (_ || _).
  - destruct (Re.monthYearSpaces _) as [[month year]|].
    + destruct (getMonthNumber month) as [monthNumber|]; [|discriminate].
      intros H. inversion H. apply List.Forall_app. split; [|exact Hdim].
      apply List.Forall_app. split; [apply Forall_filter_keeps; exact Hacc|no_gender].
    + intros H. inversion H. apply List.Forall_app. split; assumption.
  - intros H. inversion H. apply List.Forall_app. split; assumption.
Qed.

End GenderFacts.

(** C7, as the code has it.  When the mapped columns hold a character-typed
    gender column of the trips table, a question with "women", "female" or
    "woman" gets from the gender rule exactly one predicate: equality with
    the literal female on the first such column.  When they hold a gender or
    rider column of trips, a question with "men" or "male" and none of the
    women tokens gets exactly one predicate: ILIKE '%male%' on the first such
    column, and no equality predicate.  When the filter assembler returns,
    that is, unless the last-day override meets an invalid month, the
    predicate is part of its filter list, unless the column name contains
    started_at or ended_at, which the last-day override strips.  When the
    mapped columns hold no such column, the gender rule emits no predicate,
    for the women tokens and for the men tokens alike, and the filter list
    of the assembler holds no gender predicate. *)
Theorem gender_predicate :
  forall (tz : Z) (now : Now) (text : string) (columns : list ColumnMapping)
         (primaryTable : string) (c : ColumnMapping) (rest : list ColumnMapping),
    let t := Str.toLowerCase text in
    (QueryGenerator.isWomenText t = true ->
     QueryGenerator.womenGenderColumns columns = c :: rest ->
     let f := QueryGenerator.mkFilter (columnName c) "=" (One (SStr "female")) in
     tableName c = "trips"
     /\ Str.includes (Str.toLowerCase (columnName c)) "gender" = true
     /\ QueryGenerator.genderFilters t columns = [f]
     /\ (Spec.invalidLastDay text = false -> QueryGenerator.isNonDateFilter f = true ->
         exists fs, QueryGenerator.parseFilters tz now text columns primaryTable = inr fs
                    /\ In f fs))
    /\ (QueryGenerator.isWomenText t = false -> QueryGenerator.isMenText t = true ->
        QueryGenerator.menGenderColumns columns = c :: rest ->
        let f := QueryGenerator.mkFilter (columnName c) "ILIKE" (One (SStr "%male%")) in
        tableName c = "trips"
        /\ QueryGenerator.genderFilters t columns = [f]
        /\ forallb (fun g => negb (String.eqb (operator g) "="))
                   (QueryGenerator.genderFilters t columns) = true
        /\ (Spec.invalidLastDay text = false -> QueryGenerator.isNonDateFilter f = true ->
            exists fs, QueryGenerator.parseFilters tz now text columns primaryTable = inr fs
                       /\ In f fs))
    /\ (QueryGenerator.isWomenText t = true ->
        QueryGenerator.womenGenderColumns columns = [] ->
        QueryGenerator.genderFilters t columns = []
        /\ forall fs, QueryGenerator.parseFilters tz now text columns primaryTable = inr fs ->
                      List.Forall (fun f => Spec.isGenderPredicate f = false) fs)
    /\ (QueryGenerator.isWomenText t = false -> QueryGenerator.isMenText t = true ->
        QueryGenerator.menGenderColumns columns = [] ->
        QueryGenerator.genderFilters t columns = []
        /\ forall fs, QueryGenerator.parseFilters tz now text columns primaryTable = inr fs ->
                      List.Forall (fun f => Spec.isGenderPredicate f = false) fs).
Proof.
  intros tz now text columns primaryTable c rest t. split; [|split; [|split]].
  - intros Hw Hc f.
    assert (Hg : QueryGenerator.genderFilters t columns = [f]).
    { unfold QueryGenerator.genderFilters. rewrite Hw, Hc. reflexivity. }
    pose proof (filter_head _ _ _ _ Hc) as Hp.
    apply andb_true_iff in Hp as [Hp Htab]. apply andb_true_iff in Hp as [Hname _].
    split; [apply String.eqb_eq; exact Htab|]. split; [exact Hname|]. split; [exact Hg|].
    intros Hl Hnd.
    apply genderFilters_emitted; [apply women_text_nonempty; exact Hw|exact Hl| |exact Hnd].
    fold t. rewrite Hg. left. reflexivity.
  - intros Hw Hm Hc f.
    assert (Hg : QueryGenerator.genderFilters t columns = [f]).
    { unfold QueryGenerator.genderFilters. rewrite Hw, Hm, Hc. reflexivity. }
    pose proof (filter_head _ _ _ _ Hc) as Hp.
    apply andb_true_iff in Hp as [_ Htab].
    split; [apply String.eqb_eq; exact Htab|]. split; [exact Hg|]. split.
    + rewrite Hg. reflexivity.
    + intros Hl Hnd.
      apply genderFilters_emitted; [apply men_text_nonempty; exact Hm|exact Hl| |exact Hnd].
      fold t. rewrite Hg. left. reflexivity.
  - intros Hw Hc.
    assert (Hg : QueryGenerator.genderFilters t columns = []).
    { unfold QueryGenerator.genderFilters. rewrite Hw, Hc. reflexivity. }
    split; [exact Hg|]. intros fs. apply parseFilters_no_gender. exact Hg.
  - intros Hw Hm Hc.
    assert (Hg : QueryGenerator.genderFilters t columns = []).
    { unfold QueryGenerator.genderFilters. rewrite Hw, Hm, Hc. reflexivity. }
    split; [exact Hg|]. intros fs. apply parseFilters_no_gender. exact Hg.
Qed.

Lemma gender_predicate_witness :
  (exists fs,
      QueryGenerator.parseFilters 0 nov2026
        "How many kilometres were ridden by women on rainy days in June 2025?"
        womenColumns "trips" = inr fs
      /\ In (QueryGenerator.mkFilter "rider_gender" "=" (One (SStr "female"))) fs)
  /\ QueryGenerator.genderFilters (Str.toLowerCase "How many rides by men in June 2025?") womenColumns
     = [QueryGenerator.mkFilter "rider_gender" "ILIKE" (One (SStr "%male%"))]
  /\ QueryGenerator.genderFilters (Str.toLowerCase "How many rides were taken by women?")
       timeAndStationColumns = []
  /\ QueryGenerator.genderFilters (Str.toLowerCase "How many rides by men in June 2025?")
       timeAndStationColumns = [].
Proof.
  pose proof (gender_predicate 0 nov2026
                "How many kilometres were ridden by women on rainy days in June 2025?"
                womenColumns "trips" (mapped "trips" "rider_gender" "character varying" 8) [])
    as (HW & _).
  pose proof (gender_predicate 0 nov2026 "How many rides by men in June 2025?"
                womenColumns "trips" (mapped "trips" "rider_gender" "character varying" 8) [])
    as (_ & HM & _).
  pose proof (gender_predicate 0 nov2026 "How many rides were taken by women?"
                timeAndStationColumns "trips" (mapped "trips" "started_at" "timestamp" 0) [])
    as (_ & _ & HW0 & _).
  pose proof (gender_predicate 0 nov2026 "How many rides by men in June 2025?"
                timeAndStationColumns "trips" (mapped "trips" "started_at" "timestamp" 0) [])
    as (_ & _ & _ & HM0).
  destruct HW as (_ & _ & _ & HW); [vm_compute; reflexivity|vm_compute; reflexivity|].
  destruct HM as (_ & HM & _);
    [vm_compute; reflexivity|vm_compute; reflexivity|vm_compute; reflexivity|].
  split; [apply HW; vm_compute; reflexivity|]. split; [exact HM|].
  split; [apply HW0; vm_compute; reflexivity|apply HM0; vm_compute; reflexivity].
Defined.

(** C7, as stated, fails: when no gender column of trips is among the mapped
    columns, a question about women gets no gender predicate at all. *)
Lemma women_without_gender_column :
  QueryGenerator.isWomenText (Str.toLowerCase "How many rides were taken by women?") = true
  /\ QueryGenerator.parseFilters 0 nov2026 "How many rides were taken by women?"
       [mapped "trips" "started_at" "timestamp" 0;
        mapped "stations" "station_name" "character varying" 0] "trips"
     = inr [].
Proof. split; vm_compute; reflexivity. Qed.

(** ** Rendering the WHERE clause *)

Section WhereFacts.
Import Str SemanticMapper QueryGenerator Spec.

Lemma qualify_station_absent (pa : string) (m : gmap string string) (f : Filter) :
  (includes (column f) "station" || includes (column f) "name") = true ->
  m !! "stations" = None -> qualify pa m f = None.
Proof. intros Hc Hm. unfold qualify, aliasOf. rewrite Hc, Hm. reflexivity. Qed.

Lemma qualify_weather_absent (pa : string) (m : gmap string string) (f : Filter) :
  (includes (column f) "station" || includes (column f) "name") = false ->
  (includes (column f) "weather" || includes (column f) "precipitation") = true ->
  m !! "daily_weather" = None -> qualify pa m f = None.
Proof. intros Hs Hc Hm. unfold qualify, aliasOf. rewrite Hs, Hc, Hm. reflexivity. Qed.

Lemma renderFilter_unqualified (pa : string) (m : gmap string string) (f : Filter)
      (st : RenderState) :
  qualify pa m f = None -> renderFilter pa m f st = inr ([Lit "1=0"], st).
Proof. intros Hq. unfold renderFilter. destruct st as [i ps]. rewrite Hq. reflexivity. Qed.

Lemma placeholderNumbers_cons (c : list Piece) (cs : list (list Piece)) :
  placeholderNumbers (c :: cs) = (placeholderNumbers [c] ++ placeholderNumbers cs)%list.
Proof.
  unfold placeholderNumbers. simpl. rewrite app_nil_r. apply flat_map_app.
Qed.

Lemma placeholders_numbers (n : nat) :
  forall i : nat, flat_map numberOf (placeholders i n) = seq i n.
Proof.
  induction n as [|n IH]; intros i; [reflexivity|].
  destruct n as [|n]; [reflexivity|].
  change (placeholders i (S (S n)))
    with (Placeholder i :: Lit ", " :: placeholders (S i) (S n)).
  change (flat_map numberOf (Placeholder i :: Lit ", " :: placeholders (S i) (S n)))
    with (i :: flat_map numberOf (placeholders (S i) (S n))).
  rewrite IH. reflexivity.
Qed.

Lemma placeholderNumbers_placeholders (q : string) (i n : nat) :
  placeholderNumbers [(Lit q :: placeholders i n ++ [Lit ")"])%list] = seq i n.
Proof.
  unfold placeholderNumbers.
  cbn [List.concat]. rewrite app_nil_r. cbn [flat_map numberOf app].
  rewrite flat_map_app, placeholders_numbers. cbn. apply app_nil_r.
Qed.

(** one rendered filter: the parameters it appends are [boundValues], and
    its placeholders are numbered from the running index *)
Lemma renderFilter_bound (pa : string) (m : gmap string string) (f : Filter)
      (i : nat) (ps : list Value) (c : list Piece) (i' : nat) (ps' : list Value) :
  renderFilter pa m f (i, ps) = inr (c, (i', ps')) ->
  ps' = (ps ++ boundValues pa m f)%list
  /\ i' = (i + List.length (boundValues pa m f))%nat
  /\ placeholderNumbers [c] = seq i (List.length (boundValues pa m f)).
Proof.
  unfold renderFilter, boundValues.
  destruct (qualify pa m f) as [q|].
  2:{ intros H. inversion H; subst. rewrite app_nil_r, Nat.add_0_r. auto. }
  destruct (String.eqb (operator f) "ILIKE").
  { intros H. inversion H; subst. simpl. rewrite Nat.add_1_r. auto. }
  destruct (String.eqb (operator f) "IN").
  { destruct (value f) as [v|l]; [discriminate|].
    intros H. inversion H; subst. rewrite length_map.
    split; [reflexivity|]. split; [reflexivity|]. apply placeholderNumbers_placeholders. }
  destruct (String.eqb (operator f) "WEEKEND").
  { intros H. inversion H; subst. simpl. rewrite app_nil_r, Nat.add_0_r. auto. }
  destruct (String.eqb (operator f) "WEEKDAY").
  { intros H. inversion H; subst. simpl. rewrite app_nil_r, Nat.add_0_r. auto. }
  intros H. inversion H; subst. simpl. rewrite Nat.add_1_r. auto.
Qed.

Lemma renderFilters_bound (pa : string) (m : gmap string string) (fs : list Filter) :
  forall (i : nat) (ps : list Value) (conds : list (list Piece)) (i' : nat) (ps' : list Value),
    renderFilters pa m fs (i, ps) = inr (conds, (i', ps')) ->
    ps' = (ps ++ flat_map (boundValues pa m) fs)%list
    /\ i' = (i + List.length (flat_map (boundValues pa m) fs))%nat
    /\ placeholderNumbers conds = seq i (List.length (flat_map (boundValues pa m) fs))
    /\ List.length conds = List.length fs.
Proof.
  induction fs as [|f fs IH]; cbn [renderFilters flat_map]; intros i ps conds i' ps' H.
  - inversion H; subst. cbn. rewrite app_nil_r, Nat.add_0_r. auto.
  - destruct (renderFilter pa m f (i, ps)) as [e|[c [i1 ps1]]] eqn:Hf; [discriminate H|].
    destruct (renderFilters pa m fs (i1, ps1)) as [e|[cs [i2 ps2]]] eqn:Hr; [discriminate H|].
    inversion H; subst.
    apply renderFilter_bound in Hf as (Hps & Hi & Hph).
    apply IH in Hr as (Hps' & Hi' & Hph' & Hlen). subst.
    rewrite length_app, seq_app, placeholderNumbers_cons, Hph, Hph'.
    rewrite <- app_assoc, Nat.add_assoc. simpl. auto.
Qed.

Lemma renderFilter_flag (pa : string) (m : gmap string string) (f : Filter)
      (st : RenderState) (c : list Piece) (st' : RenderState) :
  isFlag f = true -> renderFilter pa m f st = inr (c, st') ->
  st' = st /\ placeholderNumbers [c] = [].
Proof.
  unfold isFlag, renderFilter. intros Hflag. destruct st as [i ps].
  destruct (qualify pa m f) as [q|]; [|intros H; inversion H; auto].
  apply orb_true_iff in Hflag as [Hop|Hop]; apply String.eqb_eq in Hop; rewrite Hop;
    simpl; intros H; inversion H; auto.
Qed.

End WhereFacts.

(** C5, as the code has it.  A filter whose column name contains "station"
    or "name" renders as 1=0 when the alias map has no stations entry; a
    filter whose column name contains "weather" or "precipitation", and
    neither "station" nor "name", renders as 1=0 when the map has no
    daily_weather entry.  In both cases nothing is raised and the parameter
    index and list are left as they were. *)
Theorem unqualified_filter_is_false :
  forall (primaryAlias : string) (m : gmap string string) (f : Filter)
         (st : QueryGenerator.RenderState),
    ((Str.includes (column f) "station" || Str.includes (column f) "name") = true ->
     m !! "stations" = None ->
     QueryGenerator.renderFilter primaryAlias m f st = inr ([QueryGenerator.Lit "1=0"], st))
    /\ ((Str.includes (column f) "station" || Str.includes (column f) "name") = false ->
        (Str.includes (column f) "weather" || Str.includes (column f) "precipitation") = true ->
        m !! "daily_weather" = None ->
        QueryGenerator.renderFilter primaryAlias m f st = inr ([QueryGenerator.Lit "1=0"], st)).
Proof.
  intros pa m f st. split.
  - intros Hc Hm. apply renderFilter_unqualified. apply qualify_station_absent; assumption.
  - intros Hs Hc Hm. apply renderFilter_unqualified. apply qualify_weather_absent; assumption.
Qed.

Lemma unqualified_filter_is_false_witness :
  QueryGenerator.renderFilter "b" ∅
    (QueryGenerator.mkFilter "station_name" "=" (One (SStr "Congress Avenue"))) (1%nat, [])
  = inr ([QueryGenerator.Lit "1=0"], (1%nat, []))
  /\ QueryGenerator.renderFilter "b" ∅
       (QueryGenerator.mkFilter "precipitation_mm" ">" (One (SNum 0))) (1%nat, [])
     = inr ([QueryGenerator.Lit "1=0"], (1%nat, [])).
Proof.
  split.
  - apply (proj1 (unqualified_filter_is_false "b" ∅
                    (QueryGenerator.mkFilter "station_name" "=" (One (SStr "Congress Avenue")))
                    (1%nat, []))); vm_compute; reflexivity.
  - apply (proj2 (unqualified_filter_is_false "b" ∅
                    (QueryGenerator.mkFilter "precipitation_mm" ">" (One (SNum 0)))
                    (1%nat, []))); vm_compute; reflexivity.
Defined.

(** C5, as stated, fails for its weather half: the station test comes
    first, so a column named weather_station is qualified by the stations
    alias, rendered as a comparison and bound to a parameter although the
    daily_weather alias is absent. *)
Lemma station_test_comes_first :
  let m : gmap string string := <["stations" := "s"]> ∅ in
  let f := QueryGenerator.mkFilter "weather_station" "=" (One (SStr "Airport")) in
  (Str.includes (column f) "weather" || Str.includes (column f) "precipitation") = true
  /\ m !! "daily_weather" = None
  /\ QueryGenerator.renderFilter "t" m f (1%nat, [])
     = inr ([QueryGenerator.Lit "s.weather_station = "; QueryGenerator.Placeholder 1],
            (2%nat, [One (SStr "Airport")])).
Proof. split; [vm_compute; reflexivity|]. split; vm_compute; reflexivity. Qed.

(** C9, as the code has it.  In every plan that [buildSQLQuery] assembles,
    the parameter list is, in order, what the rendered WHERE filters bind:
    nothing for a filter degraded to 1=0 and for WEEKEND and WEEKDAY, the
    elements of an IN list, the value of any other filter; the placeholders
    of the WHERE clause are numbered 1, 2, ... up to the number of
    parameters; a WEEKEND or WEEKDAY filter leaves the parameter state
    untouched and renders no placeholder. *)
Theorem parameters_match_placeholders :
  forall (primaryTable : string) (ts : list TableMapping) (columns : list ColumnMapping)
         (aggs : list Aggregation) (fs : list Filter) (text : string)
         (mapping : MappingResult) (parts : QueryGenerator.SqlParts) (ps : list Value),
    QueryGenerator.buildSQLParts primaryTable ts columns aggs fs text mapping = inr (parts, ps) ->
    let pa := QueryGenerator.getTableAlias primaryTable in
    let m := QueryGenerator.tableAliasMap
               (QueryGenerator.joinStateOf primaryTable (Str.toLowerCase text) fs
                                           (llmAnalysis mapping)) in
    let rendered := List.filter (fun f => negb (QueryGenerator.isGroupingFilter f)) fs in
    ps = flat_map (Spec.boundValues pa m) rendered
    /\ Spec.placeholderNumbers (QueryGenerator.whereConds parts) = seq 1 (List.length ps)
    /\ List.length (QueryGenerator.whereConds parts) = List.length rendered
    /\ (forall (f : Filter) (st st' : QueryGenerator.RenderState) (c : list QueryGenerator.Piece),
           Spec.isFlag f = true ->
           QueryGenerator.renderFilter pa m f st = inr (c, st') ->
           st' = st /\ Spec.placeholderNumbers [c] = []).
Proof.
  intros pt ts columns aggs fs text mapping parts ps H pa m rendered.
  unfold QueryGenerator.buildSQLParts in H. cbv zeta in H.
  fold pa in H. fold m in H. fold rendered in H.
  destruct (QueryGenerator.renderFilters pa m rendered (1%nat, []))
    as [e|[conds [i ps0]]] eqn:Hr; [discriminate H|].
  inversion H; subst. simpl.
  apply renderFilters_bound in Hr as (Hps & _ & Hph & Hlen). simpl in Hps.
  rewrite Hps. repeat split; try assumption.
  - apply (renderFilter_flag pa m f st c st'); assumption.
  - apply (renderFilter_flag pa m f st c st'); assumption.
Qed.

Lemma parameters_match_placeholders_witness :
  match QueryGenerator.buildSQLParts "trips" (tables womenMapping) womenColumns
          (QueryGenerator.parseAggregations weekendQuestion womenColumns)
          weekendPredicates
          weekendQuestion womenMapping with
  | inr (parts, ps) =>
      ps = [One (SStr "2025-06-01"); One (SStr "2025-07-01"); One (SStr "female"); One (SNum 0)]
      /\ Spec.placeholderNumbers (QueryGenerator.whereConds parts) = [1; 2; 3; 4]%nat
      /\ List.length (QueryGenerator.whereConds parts) = 5%nat
  | inl _ => False
  end.
Proof.
  destruct (QueryGenerator.buildSQLParts "trips" (tables womenMapping) womenColumns
              (QueryGenerator.parseAggregations weekendQuestion womenColumns)
              weekendPredicates
              weekendQuestion womenMapping) as [e|[parts ps]] eqn:H.
  - vm_compute in H. discriminate H.
  - destruct (parameters_match_placeholders _ _ _ _ _ _ _ parts ps H) as (Hps & Hph & Hlen & _).
    rewrite Hph, Hlen, Hps. vm_compute. auto.
Defined.

(** C9, as stated, fails: for a bike question about rainy days the plan
    carries one comparison filter, precipitation above 0, which no join
    qualifies; it renders as 1=0 and binds nothing, so the plan has one
    non-flag filter and no parameter. *)
Lemma degraded_filter_binds_nothing :
  exists q : ParsedQuery,
    QueryGenerator.generateQuery 0 nov2026 testCatalogue noSlots "Show bikes purchased on rainy days"
    = inr q
    /\ filters q = [QueryGenerator.mkFilter "precipitation_mm" ">" (One (SNum 0))]
    /\ params q = []
    /\ sql q = "SELECT b.* FROM bikes b WHERE 1=0".
Proof.
  eexists. split; [vm_compute; reflexivity|].
  split; [vm_compute; reflexivity|]. split; vm_compute; reflexivity.
Qed.

(** ** GROUP BY, ORDER BY and LIMIT *)

Section ClauseFacts.
Import Str SemanticMapper QueryGenerator Spec.

(** the LIMIT pattern can only match a text that contains "top" *)
Lemma topN_has_top (t n : string) : Re.topN t = Some n -> has t "top" = true.
Proof.
  unfold Re.topN, Re.search. intros H.
  apply searchFrom_found in H as (prev & a & s' & -> & Hm).
  destruct (stripPrefix "top" s') as [r|] eqn:Hp; [|discriminate].
  apply includes_suffix. eapply stripPrefix_startsWith. exact Hp.
Qed.

Lemma filter_none {A} (f : A -> bool) (l : list A) :
  forallb (fun x => negb (f x)) l = true -> List.filter f l = [].
Proof.
  induction l as [|x l IH]; simpl; [reflexivity|].
  intros H. apply andb_true_iff in H as [Hx Hl].
  apply negb_true_iff in Hx. rewrite Hx. apply IH. exact Hl.
Qed.

Lemma buildLimit_scalar (t : string) :
  isRankingOrder t = false -> buildLimit t = "".
Proof.
  unfold isRankingOrder. intros H. apply orb_false_iff in H as [Hr Ht].
  unfold buildLimit. destruct (Re.topN t) as [n|] eqn:Hn.
  - apply topN_has_top in Hn. congruence.
  - rewrite Hr. reflexivity.
Qed.

Lemma buildOrderBy_scalar (t : string) (aggs : list Aggregation) :
  isRankingOrder t = false -> buildOrderBy t aggs = "".
Proof. intros H. unfold buildOrderBy. rewrite H. destruct aggs; reflexivity. Qed.

Lemma buildGroupBy_scalar (pt pa t : string) (m : gmap string string)
      (columns : list ColumnMapping) (aggs : list Aggregation) (fs : list Filter)
      (llm : LLMQueryAnalysis) :
  isRankingOrder t = false ->
  forallb (fun f => negb (isGroupingFilter f)) fs = true ->
  groupingDimensions llm = [] ->
  buildGroupBy pt pa t m columns aggs fs llm = "".
Proof.
  unfold isRankingOrder. intros H Hfs Hllm. apply orb_false_iff in H as [Hr _].
  unfold buildGroupBy. rewrite (filter_none _ _ Hfs), Hllm, Hr.
  destruct aggs; reflexivity.
Qed.

End ClauseFacts.

(** What holds of the three clauses.  The ranking tests of the code look
    for "most", "highest", "busiest" and "top" anywhere in the text, inside
    other words too, and for "which" with "departures" or "station".  A text
    that fails all of them, with no filter that carries a grouping dimension
    and no grouping dimension in the slot record, gets a plan with no GROUP
    BY clause, no ORDER BY clause and no LIMIT clause. *)
Theorem scalar_plan_has_no_ranking_clauses :
  forall (primaryTable : string) (ts : list TableMapping) (columns : list ColumnMapping)
         (aggs : list Aggregation) (fs : list Filter) (text : string)
         (mapping : MappingResult) (parts : QueryGenerator.SqlParts) (ps : list Value),
    QueryGenerator.buildSQLParts primaryTable ts columns aggs fs text mapping = inr (parts, ps) ->
    QueryGenerator.isRankingOrder (Str.toLowerCase text) = false ->
    forallb (fun f => negb (QueryGenerator.isGroupingFilter f)) fs = true ->
    groupingDimensions (llmAnalysis mapping) = [] ->
    QueryGenerator.groupByClause parts = ""
    /\ QueryGenerator.orderByClause parts = ""
    /\ QueryGenerator.limitClause parts = "".
Proof.
  intros pt ts columns aggs fs text mapping parts ps H Hr Hfs Hllm.
  unfold QueryGenerator.buildSQLParts in H. cbv zeta in H.
  destruct (QueryGenerator.renderFilters _ _ _ _) as [e|[conds [i ps0]]]; [discriminate H|].
  inversion H; subst. simpl.
  split; [|split].
  - apply buildGroupBy_scalar; assumption.
  - apply buildOrderBy_scalar; assumption.
  - apply buildLimit_scalar; assumption.
Qed.

Lemma scalar_plan_has_no_ranking_clauses_witness :
  match QueryGenerator.buildSQLParts "trips" (tables womenMapping) womenColumns
          (QueryGenerator.parseAggregations weekendQuestion womenColumns)
          weekendPredicates
          weekendQuestion womenMapping with
  | inr (parts, ps) =>
      QueryGenerator.groupByClause parts = ""
      /\ QueryGenerator.orderByClause parts = ""
      /\ QueryGenerator.limitClause parts = ""
  | inl _ => False
  end.
Proof.
  destruct (QueryGenerator.buildSQLParts "trips" (tables womenMapping) womenColumns
              (QueryGenerator.parseAggregations weekendQuestion womenColumns)
              weekendPredicates
              weekendQuestion womenMapping) as [e|[parts ps]] eqn:H.
  - vm_compute in H. discriminate H.
  - apply (scalar_plan_has_no_ranking_clauses _ _ _ _ _ _ _ parts ps H);
      vm_compute; reflexivity.
Defined.

(** C2.  The code departs from the claim on a scalar question with "top"
    inside another word.  "How many rides stopped in June 2025?" has no
    ranking word and its plan is a scalar aggregation, one COUNT with two
    date predicates and no grouping; the ORDER BY stage finds "top" in
    "stopped" and the plan is ordered, ORDER BY total_count DESC, while the
    LIMIT stage, which wants "top" and a number, adds nothing.  With
    "started" for "stopped" the plan has none of the three clauses. *)
Theorem stopped_question_is_ordered :
  let question := "How many rides stopped in June 2025?" in
  List.Forall (fun w => Str.elem w (Str.words (Str.toLowerCase question)) = false)
              ["most"; "highest"; "busiest"; "top"; "which"]
  /\ (exists q : ParsedQuery,
        QueryGenerator.generateQuery 0 nov2026 testCatalogue noSlots question = inr q
        /\ sql q = "SELECT COUNT(*) AS total_count FROM trips t WHERE t.started_at >= $1 AND t.started_at < $2 ORDER BY total_count DESC"
        /\ aggregations q = [QueryGenerator.mkAgg "COUNT" "*" "total_count"]
        /\ forallb (fun f => negb (QueryGenerator.isGroupingFilter f)) (filters q) = true
        /\ Str.includes (sql q) " ORDER BY " = true)
  /\ (exists q : ParsedQuery,
        QueryGenerator.generateQuery 0 nov2026 testCatalogue noSlots
          "How many rides started in June 2025?" = inr q
        /\ sql q = "SELECT COUNT(*) AS total_count FROM trips t WHERE t.started_at >= $1 AND t.started_at < $2").
Proof.
  split; [repeat constructor|].
  split; eexists; (split; [vm_compute; reflexivity|]).
  - repeat split; vm_compute; reflexivity.
  - reflexivity.
Qed.

(** ** Date predicates of ranking questions *)

Section DateFilterFacts.
Import Str SemanticMapper QueryGenerator Spec.
Variable tz : Z.
Variable now : Now.

(** a question with "most" and a date phrase that resolves gets the two
    predicates of the half-open interval on a start column *)
Lemma dateFilters_most (text : string) (cols : list ColumnMapping) (pt s e : string) :
  has (toLowerCase text) "most" = true ->
  parseDateExpressions tz now text = Some (s, e) ->
  exists col, includes col "started" = true
              /\ dateFilters tz now text (toLowerCase text) cols pt
                 = [mkFilter col ">=" (str s); mkFilter col "<" (str e)].
Proof.
  intros Hm Hd. unfold dateFilters. rewrite Hd.
  unfold pickDateColumn, isTripText. rewrite Hm, !orb_true_r.
  destruct (List.find _ cols) as [c|] eqn:Hf.
  - apply find_some in Hf as [_ Hc]. apply andb_true_iff in Hc as [Hc _].
    exists (columnName c). split; [exact Hc|reflexivity].
  - exists "started_at". split; reflexivity.
Qed.

Lemma parseDateExpressions_nonempty (text : string) (r : string * string) :
  parseDateExpressions tz now text = Some r -> isEmpty text = false.
Proof. destruct text; [vm_compute; discriminate|reflexivity]. Qed.

(** and they reach the filter list: on a start column, with a lower and an
    upper bound *)
Lemma parseFilters_most (text : string) (cols : list ColumnMapping) (pt s e : string) :
  has (toLowerCase text) "most" = true ->
  parseDateExpressions tz now text = Some (s, e) ->
  invalidLastDay text = false ->
  exists fs col lo hi,
    parseFilters tz now text cols pt = inr fs
    /\ includes col "started" = true
    /\ In (mkFilter col ">=" (str lo)) fs
    /\ In (mkFilter col "<" (str hi)) fs.
Proof.
  intros Hm Hd Hl.
  destruct (dateFilters_most text cols pt s e Hm Hd) as (col & Hcol & Hdf).
  unfold parseFilters. rewrite (parseDateExpressions_nonempty _ _ Hd). cbv zeta.
  unfold invalidLastDay in Hl. cbv zeta in Hl. unfold lastDayOverride.
  destruct (has _ "last day" || has _ "last day of").
  - destruct (Re.monthYearSpaces _) as [[month year]|].
    + destruct (getMonthNumber month) as [monthNumber|]; [|discriminate Hl].
      eexists _, "started_at", _, _. split; [reflexivity|]. split; [reflexivity|].
      split; apply in_or_app; left; apply in_or_app; right; [left|right; left]; reflexivity.
    + exists (accumulatedFilters tz now text (toLowerCase text) cols pt
              ++ dimensionFilters (toLowerCase text))%list, col, s, e.
      split; [reflexivity|]. split; [exact Hcol|].
      unfold accumulatedFilters. rewrite Hdf.
      split; apply in_or_app; left; [left|right; left]; reflexivity.
  - exists (accumulatedFilters tz now text (toLowerCase text) cols pt
            ++ dimensionFilters (toLowerCase text))%list, col, s, e.
    split; [reflexivity|]. split; [exact Hcol|].
    unfold accumulatedFilters. rewrite Hdf.
    split; apply in_or_app; left; [left|right; left]; reflexivity.
Qed.

End DateFilterFacts.

(** C3.  The code departs from the claim: for a "most departures" question
    without a date phrase the condition of the date-filter check holds, yet
    the generator returns a grouped, ordered, limited plan that has no date
    predicate. *)
Theorem most_departures_without_date :
  QueryGenerator.parseDateExpressions 0 nov2026 "Which docking point saw the most departures?" = None
  /\ exists q : ParsedQuery,
      QueryGenerator.generateQuery 0 nov2026 testCatalogue noSlots
        "Which docking point saw the most departures?" = inr q
      /\ filters q = []
      /\ QueryGenerator.missingDateFilter
           (Str.toLowerCase "Which docking point saw the most departures?") (filters q) = true
      /\ sql q = "SELECT s.station_name, COUNT(*) AS departure_count FROM trips t JOIN stations s ON t.start_station_id = s.station_id GROUP BY s.station_name ORDER BY departure_count DESC LIMIT 1".
Proof.
  split; [vm_compute; reflexivity|].
  eexists. split; [vm_compute; reflexivity|].
  split; [vm_compute; reflexivity|]. split; vm_compute; reflexivity.
Qed.

(** ** Calendar arithmetic and the date phrase resolver *)

Section DateFacts.
Import Str JsDate QueryGenerator Spec.

Lemma month_cases (m : Z) (P : Z -> Prop) :
  0 <= m <= 11 ->
  P 0 -> P 1 -> P 2 -> P 3 -> P 4 -> P 5 -> P 6 -> P 7 -> P 8 -> P 9 -> P 10 -> P 11 -> P m.
Proof.
  intros Hm. assert (m = 0 \/ m = 1 \/ m = 2 \/ m = 3 \/ m = 4 \/ m = 5 \/ m = 6 \/ m = 7
                     \/ m = 8 \/ m = 9 \/ m = 10 \/ m = 11) as H by lia.
  intuition (subst; assumption).
Qed.

Lemma monthStart_spec (y m : Z) :
  0 <= m <= 11 ->
  monthStart y m = nth (Z.to_nat m) cumulative 0 + (if 2 <=? m then leapDay y else 0).
Proof.
  intros Hm. pattern m. apply month_cases; [exact Hm|..];
    cbv -[inLeapYear]; destruct (inLeapYear y); reflexivity.
Qed.

Lemma monthStart_succ (y m : Z) :
  0 <= m -> monthStart y (m + 1) = monthStart y m + daysInMonth y m.
Proof.
  intros Hm. unfold monthStart.
  replace (Z.to_nat (m + 1)) with (S (Z.to_nat m)) by lia.
  rewrite seq_S, fold_left_app. cbn [fold_left Nat.add].
  rewrite Z2Nat.id by exact Hm. reflexivity.
Qed.

Lemma leap_facts (y : Z) :
  (inLeapYear y = true /\ ((y mod 4 = 0 /\ y mod 100 <> 0) \/ y mod 400 = 0))
  \/ (inLeapYear y = false /\ (y mod 4 <> 0 \/ y mod 100 = 0) /\ y mod 400 <> 0).
Proof.
  unfold inLeapYear.
  destruct (Z.eqb_spec (y mod 4) 0), (Z.eqb_spec (y mod 100) 0), (Z.eqb_spec (y mod 400) 0);
    cbn; tauto.
Qed.

(** a year has 365 days, and one more when it is a leap year *)
Lemma dayFromYear_next (y : Z) : dayFromYear (y + 1) - dayFromYear y = 365 + leapDay y.
Proof.
  unfold leapDay, dayFromYear.
  destruct (leap_facts y) as [[-> H]|[-> H]]; Z.to_euclidean_division_equations; lia.
Qed.

(** 1 January and 1 February *)
Lemma civil_early (y off : Z) :
  off = 0 \/ off = 31 ->
  civilFromDays (dayFromYear y + off) = (y, (if off =? 0 then 1 else 2), 1).
Proof.
  intros Hoff. unfold civilFromDays, dayFromYear. cbv zeta.
  set (z := _ + 719468).
  assert (He : z / 146097 = (y - 1) / 400) by (subst z; Z.to_euclidean_division_equations; lia).
  rewrite He.
  set (doe := z - _).
  assert (Hdoe : doe = 365 * ((y - 1) mod 400) + ((y - 1) mod 400) / 4
                       - ((y - 1) mod 400) / 100 + 306 + off)
    by (subst doe z; Z.to_euclidean_division_equations; lia).
  set (yoe := (_ - _ + _ - _) / 365).
  assert (Hyoe : yoe = (y - 1) mod 400)
    by (subst yoe; rewrite Hdoe; Z.to_euclidean_division_equations; lia).
  rewrite Hyoe.
  set (doy := doe - _).
  assert (Hdoy : doy = 306 + off) by (subst doy; rewrite Hdoe; lia).
  rewrite Hdoy.
  assert (Hy : (y - 1) mod 400 + (y - 1) / 400 * 400 + 1 = y)
    by (Z.to_euclidean_division_equations; lia).
  destruct Hoff as [->| ->]; cbn; rewrite Hy; reflexivity.
Qed.

(** a day from 1 March on, [k] days after 1 March *)
Lemma civil_late (y k : Z) :
  0 <= k < 306 ->
  civilFromDays (dayFromYear y + 59 + leapDay y + k)
  = (y, (5 * k + 2) / 153 + 3, k - (153 * ((5 * k + 2) / 153) + 2) / 5 + 1).
Proof.
  intros Hk. unfold civilFromDays. cbv zeta.
  set (z := _ + 719468).
  assert (Hz : z = (y / 400) * 146097 + 365 * (y mod 400) + (y mod 400) / 4
                   - (y mod 400) / 100 + k).
  { subst z. unfold dayFromYear, leapDay.
    destruct (leap_facts y) as [[-> H]|[-> H]]; Z.to_euclidean_division_equations; lia. }
  assert (He : z / 146097 = y / 400) by (rewrite Hz; Z.to_euclidean_division_equations; lia).
  rewrite He.
  set (doe := z - _).
  assert (Hdoe : doe = 365 * (y mod 400) + (y mod 400) / 4 - (y mod 400) / 100 + k)
    by (subst doe; rewrite Hz; lia).
  set (yoe := (_ - _ + _ - _) / 365).
  assert (Hyoe : yoe = y mod 400)
    by (subst yoe; rewrite Hdoe; Z.to_euclidean_division_equations; lia).
  rewrite Hyoe.
  set (doy := doe - _).
  assert (Hdoy : doy = k) by (subst doy; rewrite Hdoe; lia).
  rewrite Hdoy.
  assert (Hmp : (5 * k + 2) / 153 < 10) by (Z.to_euclidean_division_equations; lia).
  apply Z.ltb_lt in Hmp as Hmpb. rewrite Hmpb.
  assert (Hm : ((5 * k + 2) / 153 + 3 <=? 2) = false)
    by (apply Z.leb_gt; Z.to_euclidean_division_equations; lia).
  rewrite Hm.
  assert (Hy : y mod 400 + y / 400 * 400 = y) by (Z.to_euclidean_division_equations; lia).
  rewrite Hy. reflexivity.
Qed.

Ltac eval_month :=
  match goal with
  | |- context [nth (Z.to_nat ?m) cumulative 0] =>
      let v := eval vm_compute in (nth (Z.to_nat m) cumulative 0) in
      change (nth (Z.to_nat m) cumulative 0) with v
  end;
  match goal with
  | |- context [2 <=? ?m] =>
      let b := eval vm_compute in (2 <=? m) in change (2 <=? m) with b
  end;
  cbv iota.

Ltac late y k :=
  match goal with
  | |- civilFromDays ?d = _ =>
      replace d with (dayFromYear y + 59 + leapDay y + k) by lia
  end;
  rewrite civil_late by lia; reflexivity.

Ltac early y off :=
  match goal with
  | |- civilFromDays ?d = _ => replace d with (dayFromYear y + off) by lia
  end;
  rewrite civil_early by auto; reflexivity.

(** the day number of the first of a month converts back to that date *)
Lemma civil_first_of_month (y m : Z) :
  0 <= m <= 11 -> civilFromDays (makeDay y m 1) = (y, m + 1, 1).
Proof.
  intros Hm. unfold makeDay.
  replace (m / 12) with 0 by (Z.to_euclidean_division_equations; lia).
  replace (m mod 12) with m by (Z.to_euclidean_division_equations; lia).
  rewrite Z.add_0_r, monthStart_spec by exact Hm.
  pattern m. apply month_cases; [exact Hm|..]; eval_month.
  - early y 0.
  - early y 31.
  - late y 0.
  - late y 31.
  - late y 61.
  - late y 92.
  - late y 122.
  - late y 153.
  - late y 184.
  - late y 214.
  - late y 245.
  - late y 275.
Qed.

(** month 12 carries into January of the next year *)
Lemma civil_first_of_next_year (y : Z) : civilFromDays (makeDay y 12 1) = (y + 1, 1, 1).
Proof.
  unfold makeDay. change (12 / 12) with 1. change (12 mod 12) with 0.
  change (monthStart (y + 1) 0) with 0.
  replace (dayFromYear (y + 1) + 0 + 1 - 1) with (dayFromYear (y + 1) + 0) by lia.
  rewrite civil_early by auto. reflexivity.
Qed.

Lemma civil_first_of_following_month (y m : Z) :
  0 <= m <= 11 ->
  civilFromDays (makeDay y (m + 1) 1)
  = (let '(y', m') := nextMonth y m in (y', m' + 1, 1)).
Proof.
  intros Hm. unfold nextMonth. destruct (Z.eqb_spec m 11) as [->|Hne].
  - apply civil_first_of_next_year.
  - apply civil_first_of_month. lia.
Qed.

(** from the first of a month to the first of the next: the days of the month *)
Lemma month_length (y m : Z) :
  0 <= m <= 11 -> makeDay y (m + 1) 1 - makeDay y m 1 = daysInMonth y m.
Proof.
  intros Hm. unfold makeDay at 2.
  replace (m / 12) with 0 by (Z.to_euclidean_division_equations; lia).
  replace (m mod 12) with m by (Z.to_euclidean_division_equations; lia).
  rewrite Z.add_0_r.
  destruct (Z.eq_dec m 11) as [->|Hne].
  - unfold makeDay. change ((11 + 1) / 12) with 1. change ((11 + 1) mod 12) with 0.
    change (monthStart (y + 1) 0) with 0. rewrite monthStart_spec by lia. eval_month.
    pose proof (dayFromYear_next y). change (daysInMonth y 11) with 31. lia.
  - unfold makeDay.
    replace ((m + 1) / 12) with 0 by (Z.to_euclidean_division_equations; lia).
    replace ((m + 1) mod 12) with (m + 1) by (Z.to_euclidean_division_equations; lia).
    rewrite Z.add_0_r, monthStart_succ by lia. lia.
Qed.

(** at or west of UTC local midnight falls on the same UTC day *)
Lemma isoDate_west (tz y m d : Z) :
  -1440 < tz <= 0 -> 100 <= y ->
  isoDate (ofLocal tz y m d) = isoOfCivil (civilFromDays (makeDay y m d)).
Proof.
  intros Htz Hy. unfold isoDate, ofLocal, makeFullYear, msPerDay, msPerMinute.
  replace ((0 <=? y) && (y <=? 99)) with false
    by (symmetry; apply andb_false_iff; right; apply Z.leb_gt; lia).
  f_equal. f_equal. Z.to_euclidean_division_equations. lia.
Qed.

(** east of UTC local midnight falls on the previous UTC day *)
Lemma isoDate_east (tz y m d : Z) :
  0 < tz <= 1440 -> 100 <= y ->
  isoDate (ofLocal tz y m d) = isoOfCivil (civilFromDays (makeDay y m d - 1)).
Proof.
  intros Htz Hy. unfold isoDate, ofLocal, makeFullYear, msPerDay, msPerMinute.
  replace ((0 <=? y) && (y <=? 99)) with false
    by (symmetry; apply andb_false_iff; right; apply Z.leb_gt; lia).
  f_equal. f_equal. Z.to_euclidean_division_equations. lia.
Qed.

Lemma month_name_facts (m : Z) :
  0 <= m <= 11 ->
  isEmpty (monthName m) = false
  /\ forallb isWord (list_ascii_of_string (monthName m)) = true
  /\ includes (monthName m) "w" = false
  /\ getMonthIndex (monthName m) = Some m.
Proof.
  intros Hm. pattern m. apply month_cases; [exact Hm|..]; vm_compute; auto.
Qed.

(** no month name, space or digit is a "w": the phrase has none *)
Lemma phrase_no_w (m : Z) (d : string) :
  0 <= m <= 11 -> isYear4 d = true -> includes (phrase m d) "w" = false.
Proof.
  intros Hm Hd. destruct (month_name_facts m Hm) as (_ & _ & Hw & _).
  unfold isYear4 in Hd. apply andb_true_iff in Hd as [_ Hd].
  unfold phrase. rewrite !includes_char_app, Hw.
  rewrite (includes_char_digits "w" d eq_refl Hd). reflexivity.
Qed.

Lemma phrase_firstWeek (m : Z) (d : string) :
  0 <= m <= 11 -> isYear4 d = true -> Re.firstWeek (phrase m d) = None.
Proof.
  intros Hm Hd. unfold Re.firstWeek. apply (search_none _ "first week of ").
  - intros s r. destruct (stripPrefix "first week of " s) eqn:Hp; [|discriminate].
    intros _. eapply stripPrefix_startsWith. exact Hp.
  - apply (includes_false_part _ _ "w"); [reflexivity|]. apply phrase_no_w; assumption.
Qed.

Lemma phrase_betweenDates (m : Z) (d : string) :
  0 <= m <= 11 -> isYear4 d = true -> Re.betweenDates (phrase m d) = None.
Proof.
  intros Hm Hd. unfold Re.betweenDates. apply (search_none _ "between").
  - intros s r. destruct (stripPrefix "between" s) eqn:Hp; [|discriminate].
    intros _. eapply stripPrefix_startsWith. exact Hp.
  - apply (includes_false_part _ _ "w"); [reflexivity|]. apply phrase_no_w; assumption.
Qed.

Lemma phrase_monthYear (m : Z) (d : string) :
  0 <= m <= 11 -> isYear4 d = true -> Re.monthYear (phrase m d) = Some (monthName m, d).
Proof.
  intros Hm Hd. destruct (month_name_facts m Hm) as (Hne & Hw & _ & _).
  unfold Re.monthYear, Re.search. apply searchFrom_here.
  apply wordYearAt_phrase; assumption.
Qed.

(** the resolver on a bare month-year phrase, before the dates are printed *)
Lemma parseDateExpressions_phrase (tz : Z) (now : Now) (text : string) (m : Z) (d : string) :
  0 <= m <= 11 -> isYear4 d = true -> toLowerCase text = phrase m d ->
  parseDateExpressions tz now text
  = Some (isoDate (ofLocal tz (parseInt d) m 1), isoDate (ofLocal tz (parseInt d) (m + 1) 1)).
Proof.
  intros Hm Hd Ht.
  pose proof (phrase_monthYear m d Hm Hd) as Hmy.
  destruct (month_name_facts m Hm) as (_ & _ & _ & Hi).
  unfold parseDateExpressions.
  destruct text as [|c text]; [rewrite <- Ht in Hmy; vm_compute in Hmy; discriminate Hmy|].
  cbn [isEmpty]. rewrite Ht. cbn [Re.firstOf].
  unfold firstWeekBranch, betweenBranch, monthYearBranch.
  rewrite (phrase_firstWeek m d Hm Hd), (phrase_betweenDates m d Hm Hd), Hmy, Hi.
  reflexivity.
Qed.

(** at or west of UTC the resolver returns the first day of the month and
    the first day of the following month, and the days between them are
    the days of the month *)
Lemma month_year_interval_west_of_utc (tz : Z) (now : Now) (text : string) (m : Z) (d : string) :
  -1440 < tz <= 0 -> 0 <= m <= 11 -> isYear4 d = true -> 100 <= parseInt d ->
  toLowerCase text = phrase m d ->
  let y := parseInt d in
  parseDateExpressions tz now text
  = Some (isoOfCivil (y, m + 1, 1),
          isoOfCivil (let '(y', m') := nextMonth y m in (y', m' + 1, 1)))
    /\ makeDay y (m + 1) 1 - makeDay y m 1 = daysInMonth y m.
Proof.
  intros Htz Hm Hd Hy Ht y. split; [|apply month_length; exact Hm].
  rewrite (parseDateExpressions_phrase tz now text m d) by assumption.
  fold y. rewrite !isoDate_west by (assumption || lia).
  rewrite civil_first_of_month, civil_first_of_following_month by exact Hm. reflexivity.
Qed.

(** east of UTC both bounds are one day early: the interval starts on the
    last day of the previous month *)
Lemma month_year_interval_east_of_utc (tz : Z) (now : Now) (text : string) (m : Z) (d : string) :
  0 < tz <= 1440 -> 0 <= m <= 11 -> isYear4 d = true -> 100 <= parseInt d ->
  toLowerCase text = phrase m d ->
  let y := parseInt d in
  parseDateExpressions tz now text
  = Some (isoOfCivil (civilFromDays (makeDay y m 1 - 1)),
          isoOfCivil (civilFromDays (makeDay y (m + 1) 1 - 1))).
Proof.
  intros Htz Hm Hd Hy Ht y.
  rewrite (parseDateExpressions_phrase tz now text m d) by assumption.
  fold y. rewrite !isoDate_east by (assumption || lia). reflexivity.
Qed.

End DateFacts.

(** C8.  The code departs from the claim wherever the process runs east of
    UTC: at UTC+05:30 the phrase "June 2025" resolves to the interval from
    31 May 2025 to 30 June 2025, not from 1 June to 1 July, because the dates
    are built at local midnight and printed in UTC.  At UTC the same phrase
    gives 1 June to 1 July. *)
Theorem june_2025_east_of_utc :
  QueryGenerator.parseDateExpressions 330 nov2026 "June 2025"
  = Some ("2025-05-31", "2025-06-30")
  /\ QueryGenerator.parseDateExpressions 0 nov2026 "June 2025"
     = Some ("2025-06-01", "2025-07-01").
Proof. split; vm_compute; reflexivity. Qed.

(** * Further properties of the pipeline *)

(* ---------- definitions (spec side) ---------- *)

Ltac in_literals := repeat (first [left; reflexivity | right]).

Section CaseFacts.
Import Str SemanticMapper QueryGenerator Spec PlanShape.

Lemma lowerChar_idem (c : ascii) : lowerChar (lowerChar c) = lowerChar c.
Proof. destruct c as [[] [] [] [] [] [] [] []]; reflexivity. Qed.

Lemma toLowerCase_idem (s : string) : toLowerCase (toLowerCase s) = toLowerCase s.
Proof.
  induction s as [|c s IH]; [reflexivity|].
  cbn [toLowerCase]. rewrite lowerChar_idem, IH. reflexivity.
Qed.

Lemma isEmpty_toLowerCase (s : string) : isEmpty (toLowerCase s) = isEmpty s.
Proof. destruct s; reflexivity. Qed.

Lemma calculateColumnScore_lower (text : string) (c : SchemaColumn) :
  calculateColumnScore (toLowerCase text) c = calculateColumnScore text c.
Proof.
  unfold calculateColumnScore. rewrite isEmpty_toLowerCase, toLowerCase_idem. reflexivity.
Qed.

Lemma scoreColumns_lower (text : string) (cache : list SchemaColumn) :
  scoreColumns (toLowerCase text) cache = scoreColumns text cache.
Proof.
  unfold scoreColumns. apply flat_map_ext. intros [tn cols]. apply flat_map_ext. intros c.
  unfold scored. rewrite calculateColumnScore_lower. reflexivity.
Qed.

Lemma mapUserQueryToSchema_lower (cache : list SchemaColumn) (llm : LLMQueryAnalysis)
      (text : string) :
  mapUserQueryToSchema cache llm (toLowerCase text) = mapUserQueryToSchema cache llm text.
Proof.
  unfold mapUserQueryToSchema, rankedTables, rankedColumns.
  rewrite scoreColumns_lower. reflexivity.
Qed.

Lemma parseDateExpressions_lower (tz : Z) (now : Now) (text : string) :
  parseDateExpressions tz now (toLowerCase text) = parseDateExpressions tz now text.
Proof.
  unfold parseDateExpressions. rewrite isEmpty_toLowerCase, toLowerCase_idem. reflexivity.
Qed.

Lemma parseAggregations_lower (text : string) (cols : list ColumnMapping) :
  parseAggregations (toLowerCase text) cols = parseAggregations text cols.
Proof. unfold parseAggregations. rewrite toLowerCase_idem. reflexivity. Qed.

Lemma parseFilters_lower (tz : Z) (now : Now) (text : string) (cols : list ColumnMapping)
      (pt : string) :
  parseFilters tz now (toLowerCase text) cols pt = parseFilters tz now text cols pt.
Proof.
  unfold parseFilters, accumulatedFilters, dateFilters.
  rewrite isEmpty_toLowerCase, toLowerCase_idem, parseDateExpressions_lower. reflexivity.
Qed.

Lemma choosePrimaryTable_lower (text : string) (ts : list TableMapping)
      (cols : list ColumnMapping) :
  choosePrimaryTable (toLowerCase text) ts cols = choosePrimaryTable text ts cols.
Proof.
  unfold choosePrimaryTable, isBikeRelatedQuery. rewrite toLowerCase_idem. reflexivity.
Qed.

Lemma isT1Query_lower (text : string) : isT1Query (toLowerCase text) = isT1Query text.
Proof. unfold isT1Query. rewrite toLowerCase_idem. reflexivity. Qed.

Lemma buildSQLQuery_lower pt ts cols aggs fs (text : string) mapping :
  buildSQLQuery pt ts cols aggs fs (toLowerCase text) mapping
  = buildSQLQuery pt ts cols aggs fs text mapping.
Proof. unfold buildSQLQuery, buildSQLParts. rewrite toLowerCase_idem. reflexivity. Qed.

Lemma generateFromMapping_lower (tz : Z) (now : Now) (mapping : MappingResult) (text : string) :
  generateFromMapping tz now mapping (toLowerCase text) = generateFromMapping tz now mapping text.
Proof.
  unfold generateFromMapping.
  rewrite choosePrimaryTable_lower, parseAggregations_lower, parseFilters_lower, isT1Query_lower.
  cbv zeta. destruct (relevantTablesOf mapping); [reflexivity|].
  destruct (parseFilters _ _ _ _ _); [reflexivity|].
  rewrite buildSQLQuery_lower. reflexivity.
Qed.

Lemma generateQuery_lower (tz : Z) (now : Now) (cache : list SchemaColumn)
      (llm : LLMQueryAnalysis) (text : string) :
  generateQuery tz now cache llm (toLowerCase text) = generateQuery tz now cache llm text.
Proof.
  unfold generateQuery. rewrite mapUserQueryToSchema_lower. apply generateFromMapping_lower.
Qed.

End CaseFacts.

(** X1.  For a given schema cache and slot record the plan does not depend
    on the letter case of the question: two questions with the same
    lower-case form get the same result from [generateQuery], plan or
    error. *)
Theorem generateQuery_ignores_case :
  forall (tz : Z) (now : Now) (cache : list SchemaColumn) (llm : LLMQueryAnalysis)
         (text1 text2 : string),
    Str.toLowerCase text1 = Str.toLowerCase text2 ->
    QueryGenerator.generateQuery tz now cache llm text1
    = QueryGenerator.generateQuery tz now cache llm text2.
Proof.
  intros tz now cache llm text1 text2 H.
  rewrite <- (generateQuery_lower tz now cache llm text1), H. apply generateQuery_lower.
Qed.

Lemma generateQuery_ignores_case_witness :
  QueryGenerator.generateQuery 0 nov2026 testCatalogue noSlots "HOW MANY RIDES IN JUNE 2025?"
  = QueryGenerator.generateQuery 0 nov2026 testCatalogue noSlots "how many rides in June 2025?".
Proof.
  apply (generateQuery_ignores_case 0 nov2026 testCatalogue noSlots
           "HOW MANY RIDES IN JUNE 2025?" "how many rides in June 2025?").
  reflexivity.
Defined.

Section FilterShape.
Import Str SemanticMapper QueryGenerator Spec PlanShape.
Variable tz : Z.
Variable now : Now.

Lemma firstOf_some {A B} (k : A -> option B) (alts : list A) (r : B) :
  Re.firstOf k alts = Some r -> exists a, In a alts /\ k a = Some r.
Proof.
  induction alts as [|a alts IH]; cbn [Re.firstOf]; [discriminate|].
  destruct (k a) eqn:Ha.
  - intros H. inversion H; subst. exists a. split; [left; reflexivity|exact Ha].
  - intros H. apply IH in H as (b & Hb & Hk). exists b. split; [right; exact Hb|exact Hk].
Qed.

Lemma weatherCompare_operator (t op v : string) :
  Re.weatherCompare t = Some (op, v) -> In op [">="; "<="; "="; ">"; "<"].
Proof.
  unfold Re.weatherCompare, Re.search. intros H.
  apply searchFrom_found in H as (prev & a & s' & _ & H).
  apply firstOf_some in H as (kw & _ & H).
  destruct (stripPrefix kw s') as [r|]; [|discriminate].
  apply firstOf_some in H as (o & Ho & H).
  destruct (stripPrefix o (Re.space0 r)) as [r1|]; [|discriminate].
  destruct (Re.digits1 (Re.space0 r1)) as [[d r2]|]; [|discriminate].
  inversion H; subst. exact Ho.
Qed.

Ltac wf :=
  repeat (apply List.Forall_cons;
          [split; [in_literals|first [left; assumption | right; in_literals]]|]);
  apply List.Forall_nil.

Lemma find_column {P : ColumnMapping -> bool} (cols : list ColumnMapping) (c : ColumnMapping) :
  List.find P cols = Some c -> In (columnName c) (map columnName cols).
Proof. intros H. apply find_some in H as [H _]. apply in_map. exact H. Qed.

Lemma filter_column {P : ColumnMapping -> bool} (cols rest : list ColumnMapping)
      (c : ColumnMapping) :
  List.filter P cols = c :: rest -> In (columnName c) (map columnName cols).
Proof.
  intros H. assert (Hin : In c (List.filter P cols)) by (rewrite H; left; reflexivity).
  apply filter_In in Hin as [Hin _]. apply in_map. exact Hin.
Qed.

Lemma pickDateColumn_column (t : string) (cols : list ColumnMapping) (pt : string)
      (c : ColumnMapping) :
  pickDateColumn t cols pt = Some c ->
  In (columnName c) (map columnName cols) \/ columnName c = "started_at".
Proof.
  unfold pickDateColumn.
  repeat match goal with
         | |- context [if ?b then _ else _] => destruct b
         | |- context [List.find ?p cols] =>
             let Hf := fresh "Hf" in destruct (List.find p cols) eqn:Hf
         end;
    intros H; inversion H; subst; try (right; reflexivity);
    left; eapply find_column; eassumption.
Qed.

Lemma dateFilters_wf (text t : string) (cols : list ColumnMapping) (pt : string) :
  List.Forall (wellFormedFilter cols) (dateFilters tz now text t cols pt).
Proof.
  unfold dateFilters. destruct (parseDateExpressions tz now text) as [[s e]|]; [|apply List.Forall_nil].
  destruct (pickDateColumn t cols pt) as [c|] eqn:Hc; [|apply List.Forall_nil].
  apply pickDateColumn_column in Hc.
  destruct Hc as [Hc|Hc]; [|unfold mkFilter; rewrite Hc]; wf.
Qed.

Lemma genderFilters_wf (t : string) (cols : list ColumnMapping) :
  List.Forall (wellFormedFilter cols) (genderFilters t cols).
Proof.
  unfold genderFilters. destruct (isWomenText t).
  - destruct (womenGenderColumns cols) as [|c rest] eqn:Hc; [apply List.Forall_nil|].
    apply filter_column in Hc. wf.
  - destruct (isMenText t); [|apply List.Forall_nil].
    destruct (menGenderColumns cols) as [|c rest] eqn:Hc; [apply List.Forall_nil|].
    apply filter_column in Hc. wf.
Qed.

Lemma locationFilters_wf (t : string) (cols : list ColumnMapping) :
  List.Forall (wellFormedFilter cols) (locationFilters t cols).
Proof.
  unfold locationFilters.
  match goal with |- context [if ?b then _ else _] => destruct b end; [|apply List.Forall_nil].
  destruct (List.filter _ cols) as [|c rest] eqn:Hc; [apply List.Forall_nil|].
  apply filter_column in Hc. wf.
Qed.

Lemma weatherCompareFilters_wf (t : string) (cols : list ColumnMapping) :
  List.Forall (wellFormedFilter cols) (weatherCompareFilters t).
Proof.
  unfold weatherCompareFilters.
  match goal with |- context [if ?b then _ else _] => destruct b end; [|apply List.Forall_nil].
  destruct (Re.weatherCompare t) as [[op v]|] eqn:H; [|apply List.Forall_nil].
  apply weatherCompare_operator in H.
  apply List.Forall_cons; [|apply List.Forall_nil].
  split; [|right; in_literals].
  cbn [operator mkFilter]. unfold filterOperators. cbn in H |- *. tauto.
Qed.

Lemma literal_rules_wf (t : string) (cols : list ColumnMapping) :
  List.Forall (wellFormedFilter cols)
    (rainFilters t ++ weatherCompareFilters t ++ dryFilters t ++ temperatureFilters t
     ++ ageFilters t ++ weekendFilters t ++ weekdayFilters t)%list.
Proof.
  apply List.Forall_app. split.
  { unfold rainFilters. destruct (isRainText t); wf. }
  apply List.Forall_app. split; [apply weatherCompareFilters_wf|].
  apply List.Forall_app. split.
  { unfold dryFilters.
    match goal with |- context [if ?b then _ else _] => destruct b end; wf. }
  apply List.Forall_app. split.
  { unfold temperatureFilters.
    repeat match goal with |- context [if ?b then _ else _] => destruct b end; wf. }
  apply List.Forall_app. split.
  { unfold ageFilters. destruct (isAgeText t); [|apply List.Forall_nil].
    destruct (Re.underOver t) as [[c a]|]; [|apply List.Forall_nil].
    repeat match goal with |- context [if ?b then _ else _] => destruct b end; wf. }
  apply List.Forall_app. split.
  { unfold weekendFilters.
    match goal with |- context [if ?b then _ else _] => destruct b end; wf. }
  unfold weekdayFilters.
  match goal with |- context [if ?b then _ else _] => destruct b end; wf.
Qed.

Lemma accumulatedFilters_wf (text t : string) (cols : list ColumnMapping) (pt : string) :
  List.Forall (wellFormedFilter cols) (accumulatedFilters tz now text t cols pt).
Proof.
  unfold accumulatedFilters.
  apply List.Forall_app. split; [apply dateFilters_wf|].
  apply List.Forall_app. split; [apply genderFilters_wf|].
  apply List.Forall_app. split; [apply locationFilters_wf|].
  apply literal_rules_wf.
Qed.

Lemma dimensionFilters_wf (t : string) (cols : list ColumnMapping) :
  List.Forall (wellFormedFilter cols) (dimensionFilters t).
Proof.
  unfold dimensionFilters. destruct (Re.byDimension t) as [d|]; [|apply List.Forall_nil].
  repeat match goal with |- context [if ?b then _ else _] => destruct b end;
    wf.
Qed.

Lemma Forall_filter {A} (P : A -> Prop) (f : A -> bool) (l : list A) :
  List.Forall P l -> List.Forall P (List.filter f l).
Proof.
  intros H. apply List.Forall_forall. intros x Hx. apply filter_In in Hx as [Hx _].
  rewrite List.Forall_forall in H. auto.
Qed.

Lemma parseFilters_wf (text : string) (cols : list ColumnMapping) (pt : string)
      (fs : list Filter) :
  parseFilters tz now text cols pt = inr fs -> List.Forall (wellFormedFilter cols) fs.
Proof.
  unfold parseFilters. destruct (isEmpty text).
  { intros H. inversion H. apply List.Forall_nil. }
  cbv zeta. unfold lastDayOverride.
  pose proof (accumulatedFilters_wf text (toLowerCase text) cols pt) as Hacc.
  pose proof (dimensionFilters_wf (toLowerCase text) cols) as Hdim.
  destruct (has _ "last day" || has _ "last day of").
  - destruct (Re.monthYearSpaces _) as [[month year]|].
    + destruct (getMonthNumber month) as [mn|]; [|discriminate].
      intros H. inversion H; subst.
      apply List.Forall_app. split; [|exact Hdim].
      apply List.Forall_app. split; [apply Forall_filter; exact Hacc|].
      wf.
    + intros H. inversion H; subst. apply List.Forall_app. split; assumption.
  - intros H. inversion H; subst. apply List.Forall_app. split; assumption.
Qed.

End FilterShape.

Section OutcomeFacts.
Import Str SemanticMapper QueryGenerator Spec PlanShape.
Variable tz : Z.
Variable now : Now.

Lemma renderFilter_returns (pa : string) (m : gmap string string) (f : Filter)
      (st : RenderState) :
  String.eqb (operator f) "IN" = false ->
  exists r, renderFilter pa m f st = inr r.
Proof.
  intros Hop. unfold renderFilter. destruct st as [i ps].
  destruct (qualify pa m f); [|eexists; reflexivity].
  rewrite Hop.
  repeat match goal with |- context [if ?b then _ else _] => destruct b end;
    eexists; reflexivity.
Qed.

Lemma renderFilters_returns (pa : string) (m : gmap string string) (fs : list Filter) :
  forall st : RenderState,
    List.Forall (fun f => String.eqb (operator f) "IN" = false) fs ->
    exists r, renderFilters pa m fs st = inr r.
Proof.
  induction fs as [|f fs IH]; intros st H; cbn [renderFilters]; [eexists; reflexivity|].
  inversion H as [|? ? Hf Hfs]; subst.
  destruct (renderFilter_returns pa m f st Hf) as ([c st1] & ->).
  destruct (IH st1 Hfs) as ([cs st2] & ->). eexists. reflexivity.
Qed.

Lemma wellFormed_not_in (cols : list ColumnMapping) (f : Filter) :
  wellFormedFilter cols f -> String.eqb (operator f) "IN" = false.
Proof.
  intros [Hop _]. unfold filterOperators in Hop. cbn [In] in Hop.
  repeat (destruct Hop as [<-|Hop]; [reflexivity|]). contradiction.
Qed.

Lemma buildSQLQuery_returns pt ts (cols cols' : list ColumnMapping) aggs (fs : list Filter)
      text mapping :
  List.Forall (wellFormedFilter cols') fs ->
  exists r, buildSQLQuery pt ts cols aggs fs text mapping = inr r.
Proof.
  intros Hwf. unfold buildSQLQuery, buildSQLParts. cbv zeta.
  match goal with
  | |- context [renderFilters ?pa ?m ?l ?st] =>
      destruct (renderFilters_returns pa m l st) as ([conds [i ps]] & ->)
  end.
  - apply Forall_filter. eapply List.Forall_impl; [|exact Hwf].
    intros f. apply wellFormed_not_in.
  - eexists. reflexivity.
Qed.

Lemma generateQuery_returns (cache : list SchemaColumn) (llm : LLMQueryAnalysis)
      (text : string) :
  existsb validColumn cache = true -> invalidLastDay text = false ->
  exists q, generateQuery tz now cache llm text = inr q.
Proof.
  intros Hv Hl. unfold generateQuery, generateFromMapping. cbv zeta.
  pose proof (relevantTables_nonempty cache llm text Hv) as Hne.
  destruct (relevantTablesOf _) as [|t0 ts]; [contradiction|].
  match goal with
  | |- context [parseFilters tz now text ?cols ?pt] =>
      destruct (parseFilters_returns tz now text cols pt Hl) as (fs & Hfs);
      pose proof (parseFilters_wf tz now text cols pt fs Hfs) as Hwf
  end.
  rewrite Hfs. destruct (isT1Query text); [eexists; reflexivity|].
  match goal with
  | |- context [buildSQLQuery ?pt ?ts ?cols ?aggs fs text ?mp] =>
      destruct (buildSQLQuery_returns pt ts cols _ aggs fs text mp Hwf) as ([q ps] & ->)
  end.
  eexists. reflexivity.
Qed.

End OutcomeFacts.

(** X2.  The generator fails in two cases only.  With no valid row in the
    schema cache it raises the no-relevant-tables error; with a valid row it
    raises, a RangeError, exactly when the last-day override meets a month
    that is not a number; in every other case it returns a plan.  The
    rendering of the WHERE clause never raises on the filters the assembler
    makes. *)
Theorem generateQuery_outcome :
  forall (tz : Z) (now : Now) (cache : list SchemaColumn) (llm : LLMQueryAnalysis)
         (text : string),
    match QueryGenerator.generateQuery tz now cache llm text with
    | inr _ =>
        existsb SemanticMapper.validColumn cache = true /\ Spec.invalidLastDay text = false
    | inl e =>
        (e = NoRelevantTables /\ existsb SemanticMapper.validColumn cache = false)
        \/ (e = RangeError /\ existsb SemanticMapper.validColumn cache = true
            /\ Spec.invalidLastDay text = true)
    end.
Proof.
  intros tz now cache llm text.
  destruct (existsb SemanticMapper.validColumn cache) eqn:Hv.
  - destruct (Spec.invalidLastDay text) eqn:Hl.
    + rewrite (generateQuery_invalid_last_day tz now cache llm text Hv Hl). right. auto.
    + destruct (generateQuery_returns tz now cache llm text Hv Hl) as (q & ->). auto.
  - rewrite (generateQuery_empty_cache tz now cache llm text Hv). left. auto.
Qed.

(** X3.  Every filter that the filter assembler returns has an operator of
    a fixed list (never IN) and a column that is either the name of one of
    the mapped columns or one of the names the source writes as literals:
    no operator or column name is taken from the words of the question. *)
Theorem parseFilters_well_formed :
  forall (tz : Z) (now : Now) (text : string) (columns : list ColumnMapping)
         (primaryTable : string) (fs : list Filter),
    QueryGenerator.parseFilters tz now text columns primaryTable = inr fs ->
    List.Forall (PlanShape.wellFormedFilter columns) fs.
Proof. intros tz now text columns primaryTable fs H. eapply parseFilters_wf. exact H. Qed.

Lemma parseFilters_well_formed_witness :
  List.Forall (PlanShape.wellFormedFilter womenColumns) weekendPredicates.
Proof.
  apply (parseFilters_well_formed 0 nov2026 weekendQuestion womenColumns "trips").
  vm_compute. reflexivity.
Defined.

Section AggregationShape.
Import Str SemanticMapper QueryGenerator Spec PlanShape.

Ltac agg_wf :=
  repeat (apply List.Forall_cons; [split; [in_literals|reflexivity]|]); apply List.Forall_nil.

Lemma cascade_shape (t : string) (cols : list ColumnMapping) :
  (List.length (cascade t cols) <= 1)%nat
  /\ List.Forall wellFormedAggregation (cascade t cols).
Proof.
  unfold cascade, distanceBranch, topByAverageBranch, genericAverageBranch, countStar.
  repeat match goal with
         | |- context [if ?b then _ else _] => destruct b
         | |- context [match ?l with [] => _ | _ :: _ => _ end] => destruct l
         end;
    (split; [cbn; lia|agg_wf]).
Qed.

End AggregationShape.

(** X4.  The aggregation assembler returns at most two aggregations, and at
    most one for a question without "average": the ride-time rule and one
    branch of the cascade.  Each has one of the functions AVG, SUM, COUNT and
    SPEED and a non-empty alias. *)
Theorem parseAggregations_shape :
  forall (text : string) (columns : list ColumnMapping),
    (List.length (QueryGenerator.parseAggregations text columns) <= 2)%nat
    /\ (QueryGenerator.has (Str.toLowerCase text) "average" = false ->
        (List.length (QueryGenerator.parseAggregations text columns) <= 1)%nat)
    /\ List.Forall PlanShape.wellFormedAggregation
                   (QueryGenerator.parseAggregations text columns).
Proof.
  intros text columns. unfold QueryGenerator.parseAggregations. cbv zeta.
  match goal with
  | |- context [QueryGenerator.cascade ?t ?c] =>
      destruct (cascade_shape t c) as [Hlen Hwf]
  end.
  unfold QueryGenerator.rideTimeAggregation.
  destruct (QueryGenerator.has (Str.toLowerCase text) "average") eqn:Ha.
  - match goal with |- context [if ?b then _ else _] => destruct b end.
    + split; [cbn [List.length app]; lia|]. split; [discriminate|].
      apply List.Forall_cons; [split; [in_literals|reflexivity]|exact Hwf].
    + split; [cbn [List.length app]; lia|]. split; [discriminate|exact Hwf].
  - cbn [andb app]. split; [lia|]. split; [intros _; exact Hlen|exact Hwf].
Qed.

Lemma parseAggregations_shape_witness :
  (List.length (QueryGenerator.parseAggregations "How many rides in June 2025?" []) <= 1)%nat.
Proof.
  apply (proj1 (proj2 (parseAggregations_shape "How many rides in June 2025?" []))).
  vm_compute. reflexivity.
Defined.

Section SelectFacts.
Import Str SemanticMapper QueryGenerator Spec PlanShape.

Lemma startsWith_app (a b p : string) :
  startsWith a p = true -> startsWith (a ++ b) p = true.
Proof.
  intros H. apply startsWith_spec in H as (r & ->). apply startsWith_spec.
  exists (r ++ b). apply append_assoc3.
Qed.

Lemma startsWith_prefix (p r : string) : startsWith (p ++ r) p = true.
Proof. apply startsWith_spec. exists r. reflexivity. Qed.

Lemma buildSelect_select (pt pa t : string) (cols : list ColumnMapping)
      (aggs : list Aggregation) :
  startsWith (buildSelect pt pa t cols aggs) "SELECT " = true.
Proof.
  unfold buildSelect.
  repeat match goal with
         | |- context [if ?b then _ else _] => destruct b
         | |- context [match ?l with [] => _ | _ :: _ => _ end] => destruct l
         end; first [apply startsWith_prefix | reflexivity].
Qed.

Lemma buildSQLQuery_select pt ts cols aggs fs text mapping (q : string) (ps : list Value) :
  buildSQLQuery pt ts cols aggs fs text mapping = inr (q, ps) ->
  startsWith q "SELECT " = true.
Proof.
  unfold buildSQLQuery. destruct (buildSQLParts _ _ _ _ _ _ _) as [e|[parts ps']] eqn:Hp;
    [discriminate|].
  intros H. inversion H; subst. unfold assemble. apply startsWith_app.
  unfold buildSQLParts in Hp. cbv zeta in Hp.
  destruct (renderFilters _ _ _ _) as [e|[conds [i ps0]]]; [discriminate Hp|].
  inversion Hp; subst. cbn [selectClause].
  match goal with |- context [if ?b then _ else _] => destruct b end;
    [apply startsWith_app; reflexivity|apply buildSelect_select].
Qed.

End SelectFacts.

(** X5.  Every plan that the generator returns is a SELECT statement: its
    query text starts with "SELECT ". *)
Theorem plan_is_select :
  forall (tz : Z) (now : Now) (cache : list SchemaColumn) (llm : LLMQueryAnalysis)
         (text : string) (q : ParsedQuery),
    QueryGenerator.generateQuery tz now cache llm text = inr q ->
    Str.startsWith (sql q) "SELECT " = true.
Proof.
  intros tz now cache llm text q.
  unfold QueryGenerator.generateQuery, QueryGenerator.generateFromMapping. cbv zeta.
  destruct (QueryGenerator.relevantTablesOf _) as [|t0 ts]; [discriminate|].
  destruct (QueryGenerator.parseFilters _ _ _ _ _) as [e|fs]; [discriminate|].
  destruct (QueryGenerator.isT1Query text).
  - intros H. inversion H; subst. reflexivity.
  - destruct (QueryGenerator.buildSQLQuery _ _ _ _ _ _ _) as [e|[s ps]] eqn:Hb; [discriminate|].
    intros H. inversion H; subst. cbn [sql]. eapply buildSQLQuery_select. exact Hb.
Qed.

Lemma plan_is_select_witness :
  match QueryGenerator.generateQuery 0 nov2026 testCatalogue noSlots
          "Show bikes purchased on rainy days" with
  | inr q => Str.startsWith (sql q) "SELECT " = true
  | inl _ => False
  end.
Proof.
  destruct (QueryGenerator.generateQuery 0 nov2026 testCatalogue noSlots
              "Show bikes purchased on rainy days") as [e|q] eqn:H.
  - vm_compute in H. discriminate H.
  - apply (plan_is_select 0 nov2026 testCatalogue noSlots
             "Show bikes purchased on rainy days" q H).
Defined.

Section JoinFacts.
Import Str SemanticMapper QueryGenerator Spec JoinShape.

Lemma joinsOf_snoc (a clause : string) (st : JoinState) (u : gset string)
      (m : gmap string string) :
  joinsOf a {| joins := (joins st ++ [clause])%list; usedAliases := u; tableAliasMap := m |}
  = (joinsOf a st ++ if startsWith clause (joinPrefix a) then [clause] else [])%list.
Proof. unfold joinsOf. cbn [joins]. rewrite List.filter_app. reflexivity. Qed.

Lemma addJoin_ok (a clause key : string) (st : JoinState) :
  In a joinAliases -> a = aliasOfKey key ->
  In key ["stations"; "end_stations"; "daily_weather"] ->
  declares a clause -> joinsOk st -> joinsOk (addJoin a clause key st).
Proof.
  intros Ha Hkey Hk Hd [Hkeys Hcl Hun Honce]. unfold addJoin.
  case_bool_decide as Hused; [constructor; assumption|].
  pose proof (Hun a Ha Hused) as Hnone.
  constructor; cbn [joins usedAliases tableAliasMap].
  - intros key' a' Hl. destruct (decide (key' = key)) as [->|Hne].
    + rewrite lookup_insert in Hl. 
      assert (a' = a) as -> by (destruct (decide (key = key)); congruence).
      split; [exact Hk|]. split; [exact Hkey|].
      rewrite joinsOf_snoc, (Hd a Ha), String.eqb_refl.
      intros Hnil. apply List.app_eq_nil in Hnil as [_ Hnil]. discriminate.
    + rewrite lookup_insert_ne in Hl by congruence.
      destruct (Hkeys key' a' Hl) as (H1 & H2 & H3). split; [exact H1|]. split; [exact H2|].
      rewrite joinsOf_snoc. intros Hnil. apply List.app_eq_nil in Hnil as [Hnil _]. contradiction.
  - apply List.Forall_app. split; [exact Hcl|]. apply List.Forall_cons; [|apply List.Forall_nil].
    apply existsb_exists. exists a. split; [exact Ha|]. rewrite (Hd a Ha). apply String.eqb_refl.
  - intros b Hb Hnb. rewrite joinsOf_snoc.
    apply not_elem_of_union in Hnb as [Hne Hnb]. apply not_elem_of_singleton in Hne.
    rewrite (Hun b Hb Hnb), (Hd b Hb).
    destruct (String.eqb_spec b a); [contradiction|reflexivity].
  - intros b Hb. rewrite joinsOf_snoc, List.length_app, (Hd b Hb).
    destruct (String.eqb_spec b a) as [->|Hne].
    + rewrite Hnone. cbn. lia.
    + pose proof (Honce b Hb). cbn. lia.
Qed.

Lemma startsWith_prefix' (p r : string) : startsWith (p ++ r) p = true.
Proof. apply startsWith_spec. exists r. reflexivity. Qed.

Ltac declares_tac :=
  let b := fresh "b" in
  let Hb := fresh "Hb" in
  intros b Hb; cbn [In joinAliases] in Hb;
  repeat (destruct Hb as [<-|Hb]; [first [apply startsWith_prefix' | reflexivity]|]);
  contradiction.

Lemma declares_start (pa : string) :
  declares "s" (" JOIN stations s ON " ++ pa ++ ".start_station_id = s.station_id").
Proof. declares_tac. Qed.

Lemma declares_current (pa : string) :
  declares "s" (" JOIN stations s ON " ++ pa ++ ".current_station_id = s.station_id").
Proof. declares_tac. Qed.

Lemma declares_end (pa : string) : declares "s2" (endStationJoin pa).
Proof. declares_tac. Qed.

Lemma declares_weather (pa : string) :
  declares "w" (" JOIN daily_weather w ON DATE(" ++ pa ++ ".started_at) = w.weather_date").
Proof. declares_tac. Qed.

Lemma add_start_ok (pa : string) (st : JoinState) :
  joinsOk st ->
  joinsOk (addJoin "s" (" JOIN stations s ON " ++ pa ++ ".start_station_id = s.station_id")
                   "stations" st).
Proof.
  apply addJoin_ok; [cbn; tauto|reflexivity|cbn; tauto|exact (declares_start pa)].
Qed.

Lemma add_current_ok (pa : string) (st : JoinState) :
  joinsOk st ->
  joinsOk (addJoin "s" (" JOIN stations s ON " ++ pa ++ ".current_station_id = s.station_id")
                   "stations" st).
Proof.
  apply addJoin_ok; [cbn; tauto|reflexivity|cbn; tauto|exact (declares_current pa)].
Qed.

Lemma add_end_ok (pa : string) (st : JoinState) :
  joinsOk st -> joinsOk (addJoin "s2" (endStationJoin pa) "end_stations" st).
Proof.
  apply addJoin_ok; [cbn; tauto|reflexivity|cbn; tauto|exact (declares_end pa)].
Qed.

Lemma add_weather_ok (pa : string) (st : JoinState) :
  joinsOk st ->
  joinsOk (addJoin "w" (" JOIN daily_weather w ON DATE(" ++ pa ++ ".started_at) = w.weather_date")
                   "daily_weather" st).
Proof.
  apply addJoin_ok; [cbn; tauto|reflexivity|cbn; tauto|exact (declares_weather pa)].
Qed.

Lemma tripJoins_ok (pt pa t : string) (fs : list Filter) (llm : LLMQueryAnalysis)
      (st : JoinState) :
  joinsOk st -> joinsOk (tripJoins pt pa t fs llm st).
Proof.
  intros H. unfold tripJoins. destruct (String.eqb pt "trips"); [|exact H].
  assert (H1 : joinsOk (if needsStationInfo t fs
                        then addJoin "s" (" JOIN stations s ON " ++ pa ++ ".start_station_id = s.station_id") "stations" st
                        else st))
    by (destruct (needsStationInfo t fs); [apply add_start_ok|]; exact H).
  cbv zeta.
  destruct (needsWeatherInfo t fs llm); [apply add_weather_ok|];
    (destruct (needsEndStationInfo t); [apply add_end_ok|]; exact H1).
Qed.

Lemma bikeJoins_ok (pt pa t : string) (st : JoinState) :
  joinsOk st -> joinsOk (bikeJoins pt pa t st).
Proof.
  intros H. unfold bikeJoins.
  match goal with |- joinsOk (if ?b then _ else _) => destruct b end;
    [apply add_current_ok|]; exact H.
Qed.

Lemma dimensionJoins_ok (pa : string) (dims : list string) :
  forall st, joinsOk st -> joinsOk (dimensionJoins pa dims st).
Proof.
  unfold dimensionJoins. induction dims as [|d dims IH]; intros st H; [exact H|].
  cbn [fold_left]. apply IH.
  match goal with |- joinsOk (if ?b then _ else _) => destruct b end;
    [apply add_end_ok|]; exact H.
Qed.

Lemma initial_ok (pa : string) :
  joinsOk {| joins := []; usedAliases := {[pa]}; tableAliasMap := ∅ |}.
Proof.
  constructor; cbn [joins usedAliases tableAliasMap].
  - intros key a H. rewrite lookup_empty in H. discriminate.
  - apply List.Forall_nil.
  - reflexivity.
  - intros a _. cbn. lia.
Qed.

Lemma joinStateOf_ok (pt t : string) (fs : list Filter) (llm : LLMQueryAnalysis) :
  joinsOk (joinStateOf pt t fs llm).
Proof.
  unfold joinStateOf. cbv zeta.
  apply dimensionJoins_ok, bikeJoins_ok, tripJoins_ok, initial_ok.
Qed.

End JoinFacts.

Section JoinFacts2.
Import Str SemanticMapper QueryGenerator Spec JoinShape.

Lemma dimensionJoins_without_stations (pa : string) (dims : list string) (st : JoinState) :
  tableAliasMap st !! "stations" = None -> dimensionJoins pa dims st = st.
Proof.
  intros H. unfold dimensionJoins. induction dims as [|d dims IH]; [reflexivity|].
  cbn [fold_left].
  assert (Hno : hasAlias "stations" (tableAliasMap st) = false)
    by (unfold hasAlias; rewrite H; reflexivity).
  rewrite Hno, andb_false_r. exact IH.
Qed.

Lemma joinStateOf_other (pt t : string) (fs : list Filter) (llm : LLMQueryAnalysis) :
  String.eqb pt "trips" = false -> String.eqb pt "bikes" = false ->
  joinStateOf pt t fs llm
  = {| joins := []; usedAliases := {[getTableAlias pt]}; tableAliasMap := ∅ |}.
Proof.
  intros Ht Hb. unfold joinStateOf, tripJoins, bikeJoins. cbv zeta. rewrite Ht, Hb.
  cbn [andb]. apply dimensionJoins_without_stations. apply lookup_empty.
Qed.

Lemma qualify_declared (pa : string) (st : JoinState) (f : Filter) (q : string) :
  joinsOk st -> qualify pa (tableAliasMap st) f = Some q ->
  exists a, q = a ++ "." ++ column f /\ (a = pa \/ (In a joinAliases /\ joinsOf a st <> [])).
Proof.
  intros [Hkeys _ _ _]. unfold qualify, aliasOf.
  destruct (includes (column f) "station" || includes (column f) "name").
  - destruct (tableAliasMap st !! "stations") as [a|] eqn:Hl; [|discriminate].
    destruct (isEmpty a); [discriminate|]. intros H. inversion H; subst.
    destruct (Hkeys _ _ Hl) as (_ & -> & Hj). eexists. split; [reflexivity|].
    right. split; [cbn; tauto|exact Hj].
  - destruct (includes (column f) "weather" || includes (column f) "precipitation").
    + destruct (tableAliasMap st !! "daily_weather") as [a|] eqn:Hl; [|discriminate].
      destruct (isEmpty a); [discriminate|]. intros H. inversion H; subst.
      destruct (Hkeys _ _ Hl) as (_ & -> & Hj). eexists. split; [reflexivity|].
      right. split; [cbn; tauto|exact Hj].
    + intros H. inversion H; subst. eexists. split; [reflexivity|]. left. reflexivity.
Qed.

End JoinFacts2.

(** X6.  The FROM clause joins each dimension at most once: among the JOIN
    clauses of a plan at most one declares the alias s, at most one s2 and
    at most one w; every clause declares one of the three; and an alias
    recorded in the alias map is the alias of its key and has its clause. *)
Theorem joins_once_per_alias :
  forall (primaryTable text : string) (fs : list Filter) (llm : LLMQueryAnalysis),
    let st := QueryGenerator.joinStateOf primaryTable text fs llm in
    List.Forall (fun a => (List.length (JoinShape.joinsOf a st) <= 1)%nat) JoinShape.joinAliases
    /\ List.Forall (fun clause =>
                      existsb (fun a => Str.startsWith clause (JoinShape.joinPrefix a))
                              JoinShape.joinAliases = true)
                   (QueryGenerator.joins st)
    /\ (forall key a, QueryGenerator.tableAliasMap st !! key = Some a ->
                      a = JoinShape.aliasOfKey key /\ JoinShape.joinsOf a st <> []).
Proof.
  intros pt text fs llm st.
  destruct (joinStateOf_ok pt text fs llm) as [Hkeys Hcl _ Honce]. fold st in Hkeys, Hcl, Honce.
  split; [|split].
  - apply List.Forall_forall. exact Honce.
  - exact Hcl.
  - intros key a H. destruct (Hkeys key a H) as (_ & H1 & H2). auto.
Qed.

Lemma joins_once_per_alias_witness :
  let st := QueryGenerator.joinStateOf "trips"
              "which destination station had the most arrivals from congress avenue to anywhere on rainy days?"
              [] noSlots in
  QueryGenerator.tableAliasMap st !! "end_stations" = Some "s2"
  /\ JoinShape.joinsOf "s2" st <> [].
Proof.
  intros st.
  assert (H : QueryGenerator.tableAliasMap st !! "end_stations" = Some "s2")
    by (vm_compute; reflexivity).
  split; [exact H|].
  exact (proj2 (proj2 (proj2 (joins_once_per_alias "trips"
     "which destination station had the most arrivals from congress avenue to anywhere on rainy days?"
     [] noSlots)) "end_stations" "s2" H)).
Defined.

(** X7.  A filter that the WHERE clause qualifies (one that does not
    degrade to 1=0) is qualified by the primary alias or by an alias that a
    JOIN clause of the same plan declares. *)
Theorem qualified_by_declared_alias :
  forall (primaryTable text : string) (fs : list Filter) (llm : LLMQueryAnalysis)
         (f : Filter) (q : string),
    let st := QueryGenerator.joinStateOf primaryTable text fs llm in
    let primaryAlias := QueryGenerator.getTableAlias primaryTable in
    QueryGenerator.qualify primaryAlias (QueryGenerator.tableAliasMap st) f = Some q ->
    exists a, q = a ++ "." ++ column f
              /\ (a = primaryAlias
                  \/ (In a JoinShape.joinAliases /\ JoinShape.joinsOf a st <> [])).
Proof.
  intros pt text fs llm f q st pa H.
  eapply qualify_declared; [apply joinStateOf_ok|exact H].
Qed.

Lemma qualified_by_declared_alias_witness :
  exists a, "w.precipitation_mm" = a ++ "." ++ "precipitation_mm"
            /\ (a = "t"
                \/ (In a JoinShape.joinAliases
                    /\ JoinShape.joinsOf a (QueryGenerator.joinStateOf "trips" "rides on rainy days"
                                           [QueryGenerator.mkFilter "precipitation_mm" ">" (One (SNum 0))]
                                           noSlots) <> [])).
Proof.
  apply (qualified_by_declared_alias "trips" "rides on rainy days"
           [QueryGenerator.mkFilter "precipitation_mm" ">" (One (SNum 0))] noSlots
           (QueryGenerator.mkFilter "precipitation_mm" ">" (One (SNum 0)))
           "w.precipitation_mm").
  vm_compute. reflexivity.
Defined.

(** X8.  Joins are made for the primary tables trips and bikes only.  With
    any other primary table the plan has no JOIN clause and an empty alias
    map, so each filter on a column whose name contains "station", "name",
    "weather" or "precipitation" renders as 1=0 and binds nothing. *)
Theorem other_primary_table_has_no_join :
  forall (primaryTable text : string) (fs : list Filter) (llm : LLMQueryAnalysis),
    String.eqb primaryTable "trips" = false -> String.eqb primaryTable "bikes" = false ->
    let st := QueryGenerator.joinStateOf primaryTable text fs llm in
    QueryGenerator.joins st = []
    /\ QueryGenerator.tableAliasMap st = ∅
    /\ forall (f : Filter) (rs : QueryGenerator.RenderState),
         (Str.includes (column f) "station" || Str.includes (column f) "name"
          || Str.includes (column f) "weather" || Str.includes (column f) "precipitation") = true ->
         QueryGenerator.renderFilter (QueryGenerator.getTableAlias primaryTable)
                                     (QueryGenerator.tableAliasMap st) f rs
         = inr ([QueryGenerator.Lit "1=0"], rs).
Proof.
  intros pt text fs llm Ht Hb st. subst st. rewrite (joinStateOf_other pt text fs llm Ht Hb).
  cbn [QueryGenerator.joins QueryGenerator.tableAliasMap].
  split; [reflexivity|]. split; [reflexivity|].
  intros f rs Hc. apply renderFilter_unqualified.
  destruct (Str.includes (column f) "station" || Str.includes (column f) "name") eqn:Hs.
  - apply qualify_station_absent; [exact Hs|apply lookup_empty].
  - apply qualify_weather_absent; [exact Hs| |apply lookup_empty].
    exact Hc.
Qed.

Lemma other_primary_table_has_no_join_witness :
  QueryGenerator.renderFilter "w"
    (QueryGenerator.tableAliasMap
       (QueryGenerator.joinStateOf "daily_weather" "rainy days in june 2025" [] noSlots))
    (QueryGenerator.mkFilter "precipitation_mm" ">" (One (SNum 0))) (1%nat, [])
  = inr ([QueryGenerator.Lit "1=0"], (1%nat, [])).
Proof.
  apply (proj2 (proj2 (other_primary_table_has_no_join "daily_weather"
                         "rainy days in june 2025" [] noSlots eq_refl eq_refl))).
  reflexivity.
Defined.

Section AssocFacts.
Import Str SemanticMapper MappingShape.
Context {V : Type}.

Lemma lookupKey_upsert_eq (k : string) (f : option V -> V) (m : list (string * V)) :
  lookupKey k (upsert k f m) = Some (f (lookupKey k m)).
Proof.
  unfold lookupKey. induction m as [|[k' v] m IH]; cbn [upsert List.find fst snd].
  - rewrite String.eqb_refl. reflexivity.
  - destruct (String.eqb k' k) eqn:He; cbn [List.find fst snd]; rewrite He; [reflexivity|].
    exact IH.
Qed.

Lemma lookupKey_upsert_ne (k k0 : string) (f : option V -> V) (m : list (string * V)) :
  k0 <> k -> lookupKey k0 (upsert k f m) = lookupKey k0 m.
Proof.
  intros Hne. unfold lookupKey. induction m as [|[k' v] m IH]; cbn [upsert List.find fst snd].
  - destruct (String.eqb_spec k k0); [congruence|reflexivity].
  - destruct (String.eqb_spec k' k) as [->|Hk]; cbn [List.find fst snd].
    + destruct (String.eqb_spec k k0); [congruence|reflexivity].
    + destruct (String.eqb k' k0); [reflexivity|exact IH].
Qed.

Lemma keys_upsert (k : string) (f : option V -> V) (m : list (string * V)) :
  map fst (upsert k f m) = map fst m
  \/ (~ In k (map fst m) /\ map fst (upsert k f m) = (map fst m ++ [k])%list).
Proof.
  induction m as [|[k' v] m IH]; cbn [upsert map fst].
  - right. split; [tauto|reflexivity].
  - destruct (String.eqb_spec k' k) as [->|Hk]; cbn [map fst]; [left; reflexivity|].
    destruct IH as [->|[Hn ->]]; [left; reflexivity|].
    right. split; [|reflexivity]. cbn [In]. intros [H|H]; [congruence|contradiction].
Qed.

Lemma NoDup_snoc {A} (l : list A) (x : A) : List.NoDup l -> ~ In x l -> List.NoDup (l ++ [x]).
Proof.
  induction 1 as [|a l Ha Hl IH]; cbn [app In]; intros Hx.
  - apply List.NoDup_cons; [cbn [In]; tauto|apply List.NoDup_nil].
  - apply List.NoDup_cons; [|apply IH; tauto].
    rewrite in_app_iff. cbn [In]. intros [H|[H|[]]]; [contradiction|]. apply Hx. auto.
Qed.

Lemma upsert_NoDup (k : string) (f : option V -> V) (m : list (string * V)) :
  List.NoDup (map fst m) -> List.NoDup (map fst (upsert k f m)).
Proof.
  intros H. destruct (keys_upsert k f m) as [->|[Hn ->]]; [exact H|].
  apply NoDup_snoc; assumption.
Qed.

Lemma lookupKey_in (k : string) (v : V) (m : list (string * V)) :
  lookupKey k m = Some v -> In (k, v) m.
Proof.
  unfold lookupKey. destruct (List.find _ m) as [[k' v']|] eqn:Hf; [|discriminate].
  intros H. inversion H; subst. apply find_some in Hf as [Hin He].
  apply String.eqb_eq in He. cbn in He. subst. exact Hin.
Qed.

Lemma in_lookupKey (k : string) (v : V) (m : list (string * V)) :
  List.NoDup (map fst m) -> In (k, v) m -> lookupKey k m = Some v.
Proof.
  unfold lookupKey. induction m as [|[k' v'] m IH]; cbn [map fst In List.find snd]; [tauto|].
  intros Hnd [Heq|Hin].
  - inversion Heq; subst. rewrite String.eqb_refl. reflexivity.
  - inversion Hnd as [|? ? Hnot Hnd']; subst.
    destruct (String.eqb_spec k' k) as [->|Hne]; [|apply IH; assumption].
    exfalso. apply Hnot. apply in_map_iff. exists (k, v). auto.
Qed.

Lemma lookupKey_none (k : string) (m : list (string * V)) :
  ~ In k (map fst m) -> lookupKey k m = None.
Proof.
  intros Hn. destruct (lookupKey k m) as [v|] eqn:H; [|reflexivity].
  exfalso. apply Hn. apply lookupKey_in in H. apply in_map_iff. exists (k, v). auto.
Qed.

End AssocFacts.

Section RankingFacts.
Import Str SemanticMapper MappingShape.

(** *** the descending sort *)

Lemma insertDesc_perm {A} (key : A -> Z) (x : A) (l : list A) :
  Permutation (insertDesc key x l) (x :: l).
Proof.
  induction l as [|y l IH]; cbn [insertDesc]; [reflexivity|].
  destruct (key x <? key y); [|reflexivity].
  rewrite IH. apply perm_swap.
Qed.

Lemma sortDesc_perm {A} (key : A -> Z) (l : list A) : Permutation (sortDesc key l) l.
Proof.
  unfold sortDesc. induction l as [|x l IH]; cbn [fold_right]; [reflexivity|].
  rewrite insertDesc_perm, IH. reflexivity.
Qed.

Lemma insertDesc_sorted {A} (key : A -> Z) (x : A) (l : list A) :
  StronglySorted (fun a b => key b <= key a) l ->
  StronglySorted (fun a b => key b <= key a) (insertDesc key x l).
Proof.
  induction 1 as [|y l Hl IH Hy]; cbn [insertDesc].
  - constructor; [constructor|constructor].
  - destruct (Z.ltb_spec (key x) (key y)) as [Hlt|Hge].
    + constructor; [exact IH|].
      apply List.Forall_forall. intros z Hz. apply insertDesc_in in Hz as [->|Hz]; [lia|].
      rewrite List.Forall_forall in Hy. auto.
    + constructor; [constructor; assumption|].
      constructor; [exact Hge|].
      apply List.Forall_forall. intros z Hz. rewrite List.Forall_forall in Hy.
      specialize (Hy z Hz). lia.
Qed.

Lemma sortDesc_sorted {A} (key : A -> Z) (l : list A) :
  StronglySorted (fun a b => key b <= key a) (sortDesc key l).
Proof.
  unfold sortDesc. induction l as [|x l IH]; cbn [fold_right]; [constructor|].
  apply insertDesc_sorted. exact IH.
Qed.

Lemma firstn_sorted {A} (R : A -> A -> Prop) (n : nat) (l : list A) :
  StronglySorted R l -> StronglySorted R (firstn n l).
Proof.
  intros H. revert n. induction H as [|x l Hl IH Hx]; intros [|n]; cbn [firstn];
    try constructor.
  - apply IH.
  - apply List.Forall_forall. intros y Hy. apply firstn_in in Hy.
    rewrite List.Forall_forall in Hx. auto.
Qed.

End RankingFacts.

(** X9.  The mapper returns its tables and its columns ranked: at most
    three tables in order of non-increasing score and at most fifteen columns
    in order of non-increasing score. *)
Theorem mapping_is_ranked :
  forall (cache : list SchemaColumn) (llm : LLMQueryAnalysis) (text : string),
    let mapping := SemanticMapper.mapUserQueryToSchema cache llm text in
    (List.length (tables mapping) <= 3)%nat
    /\ StronglySorted MappingShape.byTableScoreDesc (tables mapping)
    /\ (List.length (suggestedCols mapping) <= 15)%nat
    /\ StronglySorted MappingShape.byScoreDesc (suggestedCols mapping).
Proof.
  intros cache llm text mapping. subst mapping. unfold SemanticMapper.mapUserQueryToSchema.
  cbn [tables suggestedCols].
  split; [apply firstn_le_length|]. split.
  { apply firstn_sorted. unfold SemanticMapper.rankedTables. cbv zeta.
    apply (sortDesc_sorted tm_score). }
  split; [apply firstn_le_length|].
  apply firstn_sorted. unfold SemanticMapper.rankedColumns. cbv zeta.
  apply (sortDesc_sorted score).
Qed.

Section GroupingFacts.
Import Str SemanticMapper MappingShape.

Lemma rowsOf_cons (tn : string) (c : SchemaColumn) (cache : list SchemaColumn) :
  rowsOf tn (c :: cache)
  = if validColumn c && String.eqb (table_name c) tn then c :: rowsOf tn cache
    else rowsOf tn cache.
Proof. reflexivity. Qed.

Lemma fold_group_lookup (cache : list SchemaColumn) (tn : string) :
  forall m : list (string * list SchemaColumn),
    lookupKey tn (fold_left groupStep cache m)
    = match lookupKey tn m, rowsOf tn cache with
      | Some l, rows => Some (l ++ rows)%list
      | None, [] => None
      | None, rows => Some rows
      end.
Proof.
  induction cache as [|c cache IH]; intros m; cbn [fold_left].
  - cbn. destruct (lookupKey tn m); [rewrite app_nil_r|]; reflexivity.
  - rewrite IH, rowsOf_cons. unfold groupStep.
    destruct (validColumn c); cbn [andb]; [|reflexivity].
    destruct (String.eqb_spec (table_name c) tn) as [->|Hne].
    + rewrite lookupKey_upsert_eq.
      destruct (lookupKey tn m) as [l|]; [rewrite <- app_assoc|]; reflexivity.
    + rewrite lookupKey_upsert_ne by congruence. reflexivity.
Qed.

Lemma fold_group_NoDup (cache : list SchemaColumn) :
  forall m : list (string * list SchemaColumn),
    List.NoDup (map fst m) -> List.NoDup (map fst (fold_left groupStep cache m)).
Proof.
  induction cache as [|c cache IH]; intros m Hm; cbn [fold_left]; [exact Hm|].
  apply IH. unfold groupStep. destruct (validColumn c); [|exact Hm].
  apply upsert_NoDup. exact Hm.
Qed.

Lemma groupColumnsByTable_lookup (cache : list SchemaColumn) (tn : string) :
  lookupKey tn (groupColumnsByTable cache)
  = match rowsOf tn cache with [] => None | rows => Some rows end.
Proof. unfold groupColumnsByTable. rewrite fold_group_lookup. reflexivity. Qed.

Lemma groupColumnsByTable_NoDup (cache : list SchemaColumn) :
  List.NoDup (map fst (groupColumnsByTable cache)).
Proof. apply fold_group_NoDup. constructor. Qed.

End GroupingFacts.

(** X10.  Grouping the schema cache by table files each row that names its
    table and its column under its table, in catalogue order, and drops the
    others: a table is a key exactly when it has such a row, its group is
    the list of these rows, and no table is a key twice. *)
Theorem groupColumnsByTable_partitions :
  forall (cache : list SchemaColumn),
    List.NoDup (map fst (SemanticMapper.groupColumnsByTable cache))
    /\ forall tn : string,
         MappingShape.lookupKey tn (SemanticMapper.groupColumnsByTable cache)
         = match MappingShape.rowsOf tn cache with [] => None | rows => Some rows end.
Proof.
  intros cache. split; [apply groupColumnsByTable_NoDup|].
  intros tn. apply groupColumnsByTable_lookup.
Qed.

Section TableScoreFacts.
Import Str SemanticMapper MappingShape.

(** the scored columns of one table are its rows, scored *)
Lemma flat_scored_filter (text tn : string) :
  forall m : list (string * list SchemaColumn),
    List.NoDup (map fst m) ->
    List.filter (ofTable tn)
      (flat_map (fun '(tn', cols) =>
         flat_map (fun c => if -10 <=? calculateColumnScore text c
                            then [scored tn' text c] else []) cols) m)
    = match lookupKey tn m with
      | Some cols => map (scored tn text) cols
      | None => []
      end.
Proof.
  assert (Hgroup : forall tn' cols,
             flat_map (fun c => if -10 <=? calculateColumnScore text c
                                then [scored tn' text c] else []) cols
             = map (scored tn' text) cols).
  { intros tn' cols. induction cols as [|c cols IH]; [reflexivity|].
    cbn [flat_map map]. rewrite IH.
    pose proof (calculateColumnScore_nonneg text c).
    destruct (Z.leb_spec (-10) (calculateColumnScore text c)); [reflexivity|lia]. }
  induction m as [|[k cols] m IH]; intros Hnd; [reflexivity|].
  cbn [flat_map map fst] in *. inversion Hnd as [|? ? Hk Hnd']; subst.
  rewrite List.filter_app, (IH Hnd'), Hgroup.
  unfold lookupKey. cbn [List.find fst snd].
  destruct (String.eqb_spec k tn) as [->|Hne].
  - fold (lookupKey tn m). rewrite (lookupKey_none tn m Hk), app_nil_r.
    clear. induction cols as [|c cols IH]; [reflexivity|].
    cbn [map List.filter]. unfold ofTable at 1. cbn [tableName scored].
    rewrite String.eqb_refl, IH. reflexivity.
  - fold (lookupKey tn m).
    assert (Hnone : List.filter (ofTable tn) (map (scored k text) cols) = []).
    { clear - Hne. induction cols as [|c cols IH]; [reflexivity|].
      cbn [map List.filter]. unfold ofTable at 1. cbn [tableName scored].
      destruct (String.eqb_spec k tn); [contradiction|exact IH]. }
    rewrite Hnone. reflexivity.
Qed.

Lemma scoreColumns_of_table (text tn : string) (cache : list SchemaColumn) :
  List.filter (ofTable tn) (scoreColumns text cache) = map (scored tn text) (rowsOf tn cache).
Proof.
  unfold scoreColumns. rewrite flat_scored_filter by apply groupColumnsByTable_NoDup.
  rewrite groupColumnsByTable_lookup. destruct (rowsOf tn cache); reflexivity.
Qed.

(** *** the best score *)

Lemma fold_max_best (l : list Z) (a : Z) : fold_left Z.max l a = Z.max a (best l) \/ a < 0.
Proof.
  destruct (Z.ltb_spec a 0) as [Hneg|Hpos]; [right; exact Hneg|left].
  revert a Hpos. induction l as [|x l IH]; intros a Ha; cbn [fold_left best fold_right].
  - lia.
  - rewrite IH by lia. fold (best l). lia.
Qed.

Lemma best_perm (l l' : list Z) : Permutation l l' -> best l = best l'.
Proof.
  unfold best.
  induction 1 as [|x l l' Hp IH|x y l|l l' l'' H1 IH1 H2 IH2]; cbn [fold_right].
  - reflexivity.
  - rewrite IH. reflexivity.
  - lia.
  - congruence.
Qed.

Lemma fold_scoreStep_lookup (cols : list ColumnMapping) (tn : string) :
  forall m : list (string * Z),
    lookupKey tn (fold_left scoreStep cols m)
    = match scoresOf tn cols with
      | [] => lookupKey tn m
      | l => Some (fold_left Z.max l (match lookupKey tn m with Some v => v | None => 0 end))
      end.
Proof.
  induction cols as [|c cols IH]; intros m; cbn [fold_left]; [reflexivity|].
  rewrite IH. unfold scoresOf. cbn [List.filter]. unfold ofTable at 2 4. unfold scoreStep.
  destruct (String.eqb_spec (tableName c) tn) as [->|Hne].
  - rewrite lookupKey_upsert_eq. cbn [map fold_left].
    destruct (map score (List.filter (ofTable tn) cols)); reflexivity.
  - rewrite lookupKey_upsert_ne by congruence. reflexivity.
Qed.

Lemma fold_scoreStep_NoDup (cols : list ColumnMapping) :
  forall m : list (string * Z),
    List.NoDup (map fst m) -> List.NoDup (map fst (fold_left scoreStep cols m)).
Proof.
  induction cols as [|c cols IH]; intros m Hm; cbn [fold_left]; [exact Hm|].
  apply IH. apply upsert_NoDup. exact Hm.
Qed.

Lemma tableScores_lookup (cols : list ColumnMapping) (tn : string) :
  lookupKey tn (tableScores cols)
  = match scoresOf tn cols with [] => None | l => Some (best l) end.
Proof.
  unfold tableScores. rewrite fold_scoreStep_lookup. cbn [lookupKey List.find].
  destruct (scoresOf tn cols) as [|x l]; [reflexivity|].
  destruct (fold_max_best (x :: l) 0) as [->|H]; [|lia].
  f_equal. pose proof (best_nonneg := I). unfold best. cbn [fold_right].
  assert (0 <= fold_right Z.max 0 l) by (clear; induction l; cbn; lia). lia.
Qed.

Lemma scoresOf_perm (tn : string) (l l' : list ColumnMapping) :
  Permutation l l' -> Permutation (scoresOf tn l) (scoresOf tn l').
Proof.
  intros H. unfold scoresOf. apply Permutation_map.
  induction H; cbn [List.filter].
  - reflexivity.
  - destruct (ofTable tn x); [constructor|]; assumption.
  - destruct (ofTable tn x), (ofTable tn y); try reflexivity. apply perm_swap.
  - etransitivity; eassumption.
Qed.

Lemma scoresOf_scored (text tn : string) (cache : list SchemaColumn) :
  Permutation (scoresOf tn (sortDesc score (scoreColumns text cache)))
              (map (calculateColumnScore text) (rowsOf tn cache)).
Proof.
  rewrite (scoresOf_perm tn _ _ (sortDesc_perm score (scoreColumns text cache))).
  unfold scoresOf. rewrite scoreColumns_of_table, map_map. reflexivity.
Qed.

(** the entries of the table scores: one per table that has a valid row,
    holding the best score of its rows *)
Lemma tableScores_entry (text : string) (cache : list SchemaColumn) (tn : string) (s : Z) :
  In (tn, s) (tableScores (sortDesc score (scoreColumns text cache))) ->
  rowsOf tn cache <> []
  /\ s = best (map (calculateColumnScore text) (rowsOf tn cache)).
Proof.
  intros Hin.
  apply in_lookupKey in Hin; [|apply fold_scoreStep_NoDup; constructor].
  rewrite tableScores_lookup in Hin.
  pose proof (scoresOf_scored text tn cache) as Hp.
  destruct (scoresOf tn _) as [|x l] eqn:Hs; [discriminate|].
  assert (Hbest : s = best (x :: l)) by congruence. split.
  - intros Hnil. rewrite Hnil in Hp. apply Permutation_sym, Permutation_nil in Hp.
    discriminate.
  - rewrite Hbest. apply best_perm. exact Hp.
Qed.

End TableScoreFacts.

Section MappingFacts.
Import Str SemanticMapper MappingShape.

Lemma boostTable_value (llm : LLMQueryAnalysis) (t : TableMapping) :
  boostTable llm t
  = {| tm_tableName := tm_tableName t;
       tm_score := tm_score t + (if elem (tm_tableName t) (suggestedTables llm) then 20 else 0) |}.
Proof.
  unfold boostTable. destruct (suggestedTables llm) as [|x l].
  - cbn. destruct t. cbn. f_equal. lia.
  - cbn [List.length Nat.eqb negb andb].
    destruct (elem (tm_tableName t) (x :: l)); [reflexivity|].
    destruct t. cbn. f_equal. lia.
Qed.

Lemma boostColumn_value (llm : LLMQueryAnalysis) (c : ColumnMapping) :
  boostColumn llm c
  = {| tableName := tableName c; columnName := columnName c; dataType := dataType c;
       score := score c + (if elem (columnName c) (suggestedColumns llm) then 15 else 0) |}.
Proof.
  unfold boostColumn. destruct (suggestedColumns llm) as [|x l].
  - cbn. destruct c. cbn. f_equal. lia.
  - cbn [List.length Nat.eqb negb andb].
    destruct (elem (columnName c) (x :: l)); [reflexivity|].
    destruct c. cbn. f_equal. lia.
Qed.

Lemma rankedTables_entry (cache : list SchemaColumn) (llm : LLMQueryAnalysis) (text : string)
      (t : TableMapping) :
  In t (rankedTables cache llm text) ->
  rowsOf (tm_tableName t) cache <> []
  /\ tm_score t = best (map (calculateColumnScore text) (rowsOf (tm_tableName t) cache))
                  + (if elem (tm_tableName t) (suggestedTables llm) then 20 else 0).
Proof.
  unfold rankedTables. cbv zeta. intros H.
  apply sortDesc_in, in_map_iff in H as (t0 & <- & H).
  apply sortDesc_in, in_map_iff in H as ([tn s] & <- & H).
  apply tableScores_entry in H as [Hrows ->].
  rewrite boostTable_value. cbn [tm_tableName tm_score]. auto.
Qed.

Lemma firstn_NoDup {A} (n : nat) (l : list A) : List.NoDup l -> List.NoDup (firstn n l).
Proof.
  intros H. revert n. induction H as [|x l Hx Hl IH]; intros [|n]; cbn [firstn];
    try apply List.NoDup_nil.
  apply List.NoDup_cons; [|apply IH]. intros Hin. apply Hx. eapply firstn_in. exact Hin.
Qed.

Lemma rankedTables_NoDup (cache : list SchemaColumn) (llm : LLMQueryAnalysis) (text : string) :
  List.NoDup (map tm_tableName (rankedTables cache llm text)).
Proof.
  unfold rankedTables. cbv zeta.
  set (scores := tableScores _).
  assert (Hp : Permutation
                 (map tm_tableName
                    (sortDesc tm_score
                       (map (boostTable llm)
                          (sortDesc tm_score
                             (map (fun '(tn, s) => {| tm_tableName := tn; tm_score := s |})
                                  scores)))))
                 (map fst scores)).
  { rewrite (Permutation_map tm_tableName (sortDesc_perm tm_score _)).
    rewrite map_map.
    rewrite (Permutation_map (fun x => tm_tableName (boostTable llm x))
                             (sortDesc_perm tm_score _)).
    rewrite map_map. apply Permutation_refl'. apply map_ext.
    intros [tn s]. rewrite boostTable_name. reflexivity. }
  apply (Permutation_NoDup (Permutation_sym Hp)).
  apply fold_scoreStep_NoDup. constructor.
Qed.

Lemma scoreColumns_entry (text : string) (cache : list SchemaColumn) (col : ColumnMapping) :
  In col (scoreColumns text cache) ->
  exists c, In c cache /\ validColumn c = true /\ col = scored (table_name c) text c.
Proof.
  unfold scoreColumns. intros H.
  apply in_flat_map in H as ([tn cols] & Hg & H).
  apply in_flat_map in H as (c & Hc & H).
  destruct (-10 <=? calculateColumnScore text c); [|contradiction].
  destruct H as [<-|[]].
  apply in_lookupKey in Hg; [|apply groupColumnsByTable_NoDup].
  rewrite groupColumnsByTable_lookup in Hg.
  assert (Hin : In c (rowsOf tn cache)).
  { destruct (rowsOf tn cache); [discriminate|]. inversion Hg; subst. exact Hc. }
  apply filter_In in Hin as [Hin Hv]. apply andb_true_iff in Hv as [Hv Ht].
  apply String.eqb_eq in Ht. subst tn. exists c. auto.
Qed.

End MappingFacts.

(** X11.  The score of a table that the mapper returns is the best score
    of its rows, that is the largest score of the rows of the schema cache
    that belong to it, plus 20 when the slot record suggests the table; a
    table is returned only when it has such a row. *)
Theorem table_score_is_best_column_score :
  forall (cache : list SchemaColumn) (llm : LLMQueryAnalysis) (text : string)
         (t : TableMapping),
    In t (tables (SemanticMapper.mapUserQueryToSchema cache llm text)) ->
    MappingShape.rowsOf (tm_tableName t) cache <> []
    /\ tm_score t
       = MappingShape.best (map (SemanticMapper.calculateColumnScore text)
                          (MappingShape.rowsOf (tm_tableName t) cache))
         + (if Str.elem (tm_tableName t) (suggestedTables llm) then 20 else 0).
Proof.
  intros cache llm text t H. apply rankedTables_entry.
  eapply firstn_in. exact H.
Qed.

Lemma table_score_is_best_column_score_witness :
  tm_score {| tm_tableName := "stations"; tm_score := 95 |}
  = MappingShape.best (map (SemanticMapper.calculateColumnScore
                        "Which docking point saw the most departures?")
                     (MappingShape.rowsOf "stations" testCatalogue))
    + (if Str.elem "stations" (suggestedTables noSlots) then 20 else 0).
Proof.
  apply (proj2 (table_score_is_best_column_score testCatalogue noSlots
                  "Which docking point saw the most departures?"
                  {| tm_tableName := "stations"; tm_score := 95 |}
                  ltac:(vm_compute; left; reflexivity))).
Defined.

(** X12.  The tables that the mapper returns have distinct names. *)
Theorem mapping_tables_are_distinct :
  forall (cache : list SchemaColumn) (llm : LLMQueryAnalysis) (text : string),
    List.NoDup (map tm_tableName (tables (SemanticMapper.mapUserQueryToSchema cache llm text))).
Proof.
  intros cache llm text. unfold SemanticMapper.mapUserQueryToSchema. cbn [tables].
  rewrite <- firstn_map. apply firstn_NoDup. apply rankedTables_NoDup.
Qed.

(** X13.  Every column that the mapper returns is a row of the schema
    cache that names its table and column: it carries the table name, column
    name and data type of that row, and its score is the score of the row,
    plus 15 when the slot record suggests the column. *)
Theorem mapping_columns_come_from_cache :
  forall (cache : list SchemaColumn) (llm : LLMQueryAnalysis) (text : string)
         (col : ColumnMapping),
    In col (suggestedCols (SemanticMapper.mapUserQueryToSchema cache llm text)) ->
    exists c : SchemaColumn,
      In c cache /\ SemanticMapper.validColumn c = true
      /\ tableName col = table_name c /\ columnName col = column_name c
      /\ dataType col = data_type c
      /\ score col = SemanticMapper.calculateColumnScore text c
                     + (if Str.elem (column_name c) (suggestedColumns llm) then 15 else 0).
Proof.
  intros cache llm text col H. unfold SemanticMapper.mapUserQueryToSchema in H.
  cbn [suggestedCols] in H. apply firstn_in in H.
  unfold SemanticMapper.rankedColumns in H. cbv zeta in H.
  apply sortDesc_in, in_map_iff in H as (c0 & <- & H).
  apply sortDesc_in, scoreColumns_entry in H as (c & Hin & Hv & ->).
  exists c. rewrite boostColumn_value. cbn. auto 10.
Qed.

Lemma mapping_columns_come_from_cache_witness :
  exists c : SchemaColumn,
    In c testCatalogue /\ SemanticMapper.validColumn c = true
    /\ "stations" = table_name c /\ "station_name" = column_name c
    /\ "character varying" = data_type c
    /\ 0 = SemanticMapper.calculateColumnScore "asdf qwerty" c
           + (if Str.elem (column_name c) (suggestedColumns noSlots) then 15 else 0).
Proof.
  apply (mapping_columns_come_from_cache testCatalogue noSlots "asdf qwerty"
           (mapped "stations" "station_name" "character varying" 0)).
  vm_compute. right. right. left. reflexivity.
Defined.

Section CalendarFacts.
Import Str JsDate QueryGenerator Spec.

(** a day of January or February, [off] days after 1 January *)
Lemma civil_winter (y off : Z) :
  0 <= off < 59 + leapDay y ->
  civilFromDays (dayFromYear y + off)
  = (y, (if off <? 31 then 1 else 2), (if off <? 31 then off + 1 else off - 30)).
Proof.
  intros Hoff. unfold civilFromDays, dayFromYear. cbv zeta.
  set (z := _ + 719468).
  assert (He : z / 146097 = (y - 1) / 400).
  { subst z. unfold leapDay in Hoff.
    destruct (leap_facts y) as [[Hl H]|[Hl H]]; rewrite Hl in Hoff;
      Z.to_euclidean_division_equations; lia. }
  rewrite He.
  set (doe := z - _).
  assert (Hdoe : doe = 365 * ((y - 1) mod 400) + ((y - 1) mod 400) / 4
                       - ((y - 1) mod 400) / 100 + 306 + off)
    by (subst doe z; Z.to_euclidean_division_equations; lia).
  set (yoe := (_ - _ + _ - _) / 365).
  assert (Hyoe : yoe = (y - 1) mod 400).
  { subst yoe. rewrite Hdoe. unfold leapDay in Hoff.
    destruct (leap_facts y) as [[Hl H]|[Hl H]]; rewrite Hl in Hoff;
      Z.to_euclidean_division_equations; lia. }
  rewrite Hyoe.
  set (doy := doe - _).
  assert (Hdoy : doy = 306 + off) by (subst doy; rewrite Hdoe; lia).
  rewrite Hdoy.
  assert (Hy : (y - 1) mod 400 + (y - 1) / 400 * 400 + 1 = y)
    by (Z.to_euclidean_division_equations; lia).
  assert (Hmp : (5 * (306 + off) + 2) / 153 = if off <? 31 then 10 else 11).
  { unfold leapDay in Hoff. destruct (inLeapYear y);
      destruct (Z.ltb_spec off 31); Z.to_euclidean_division_equations; lia. }
  rewrite Hmp.
  destruct (Z.ltb_spec off 31).
  - cbn. rewrite Hy. f_equal. Z.to_euclidean_division_equations; lia.
  - cbn. rewrite Hy. f_equal. Z.to_euclidean_division_equations; lia.
Qed.

Ltac month_value :=
  match goal with
  | |- context [nth (Z.to_nat ?m) cumulative 0] =>
      let v := eval vm_compute in (nth (Z.to_nat m) cumulative 0) in
      change (nth (Z.to_nat m) cumulative 0) with v
  end;
  match goal with
  | |- context [2 <=? ?m] =>
      let b := eval vm_compute in (2 <=? m) in change (2 <=? m) with b
  end;
  cbv iota.

Ltac winter_day y off :=
  match goal with
  | |- civilFromDays ?e = _ => replace e with (dayFromYear y + off) by lia
  end;
  rewrite civil_winter by (unfold leapDay; destruct (inLeapYear y); lia);
  destruct (Z.ltb_spec off 31); try (exfalso; lia);
    (apply (f_equal2 pair); [apply (f_equal2 pair); [reflexivity|lia]|lia]).

Ltac summer_day y k :=
  match goal with
  | |- civilFromDays ?e = _ =>
      replace e with (dayFromYear y + 59 + leapDay y + k) by lia
  end;
  rewrite civil_late by lia;
  (apply (f_equal2 pair);
   [apply (f_equal2 pair); [reflexivity|]|]; Z.to_euclidean_division_equations; lia).

(** the day number of a date of the calendar converts back to that date *)
Lemma civil_day (y m d : Z) :
  0 <= m <= 11 -> 1 <= d <= daysInMonth y m ->
  civilFromDays (makeDay y m d) = (y, m + 1, d).
Proof.
  intros Hm. unfold makeDay.
  replace (m / 12) with 0 by (Z.to_euclidean_division_equations; lia).
  replace (m mod 12) with m by (Z.to_euclidean_division_equations; lia).
  rewrite Z.add_0_r, monthStart_spec by exact Hm.
  pattern m. apply month_cases; [exact Hm|..]; month_value; intros Hd.
  - change (daysInMonth y 0) with 31 in Hd. winter_day y (d - 1).
  - change (daysInMonth y 1) with (if inLeapYear y then 29 else 28) in Hd.
    assert (d <= 28 + leapDay y) by (unfold leapDay; destruct (inLeapYear y); lia).
    winter_day y (d + 30).
  - change (daysInMonth y 2) with 31 in Hd. summer_day y (d - 1).
  - change (daysInMonth y 3) with 30 in Hd. summer_day y (d + 30).
  - change (daysInMonth y 4) with 31 in Hd. summer_day y (d + 60).
  - change (daysInMonth y 5) with 30 in Hd. summer_day y (d + 91).
  - change (daysInMonth y 6) with 31 in Hd. summer_day y (d + 121).
  - change (daysInMonth y 7) with 31 in Hd. summer_day y (d + 152).
  - change (daysInMonth y 8) with 30 in Hd. summer_day y (d + 183).
  - change (daysInMonth y 9) with 31 in Hd. summer_day y (d + 213).
  - change (daysInMonth y 10) with 30 in Hd. summer_day y (d + 244).
  - change (daysInMonth y 11) with 31 in Hd. summer_day y (d + 274).
Qed.

End CalendarFacts.

Section DigitFacts.
Import Str JsDate QueryGenerator Spec DateShape.

Lemma hasDigit_app (a b : string) : hasDigit (a ++ b) = hasDigit a || hasDigit b.
Proof.
  unfold hasDigit. induction a as [|x a IH]; [reflexivity|].
  rewrite append_cons. cbn [list_ascii_of_string existsb]. rewrite IH, orb_assoc. reflexivity.
Qed.

Lemma hasDigit_suffix (a b : string) : hasDigit b = true -> hasDigit (a ++ b) = true.
Proof. intros H. rewrite hasDigit_app, H. apply orb_true_r. Qed.

Lemma lowerChar_digit (c : ascii) : isDigit (lowerChar c) = isDigit c.
Proof. destruct c as [[] [] [] [] [] [] [] []]; reflexivity. Qed.

Lemma hasDigit_toLowerCase (s : string) : hasDigit (toLowerCase s) = hasDigit s.
Proof.
  unfold hasDigit. induction s as [|c s IH]; [reflexivity|].
  cbn [toLowerCase list_ascii_of_string existsb]. rewrite lowerChar_digit, IH. reflexivity.
Qed.

Lemma span_split (p : ascii -> bool) (s a b : string) : span p s = (a, b) -> s = a ++ b.
Proof.
  revert a b. induction s as [|c s IH]; intros a b; cbn [span].
  - intros H. inversion H. reflexivity.
  - destruct (p c).
    + destruct (span p s) as [a' b'] eqn:Hs. intros H. inversion H; subst.
      rewrite append_cons, (IH a' b eq_refl). reflexivity.
    + intros H. inversion H. reflexivity.
Qed.

Lemma takeN_digit (n : nat) (s a b : string) :
  takeN isDigit (S n) s = Some (a, b) -> hasDigit s = true.
Proof.
  cbn [takeN]. destruct s as [|c s]; [discriminate|].
  destruct (isDigit c) eqn:Hc; [|discriminate]. intros _.
  unfold hasDigit. cbn [list_ascii_of_string existsb]. rewrite Hc. reflexivity.
Qed.

Lemma word1_digit (s w r : string) : Re.word1 s = Some (w, r) -> hasDigit r = true -> hasDigit s = true.
Proof.
  unfold Re.word1. destruct (span isWord s) as [a b] eqn:Hs.
  destruct (isEmpty a); [discriminate|]. intros H Hr. inversion H; subst.
  rewrite (span_split _ _ _ _ Hs). apply hasDigit_suffix. exact Hr.
Qed.

Lemma space1_digit (s r : string) : Re.space1 s = Some r -> hasDigit r = true -> hasDigit s = true.
Proof.
  unfold Re.space1. destruct (span isSpace s) as [a b] eqn:Hs.
  destruct (isEmpty a); [discriminate|]. intros H Hr. inversion H; subst.
  rewrite (span_split _ _ _ _ Hs). apply hasDigit_suffix. exact Hr.
Qed.

Lemma stripPrefix_digit (p s r : string) :
  stripPrefix p s = Some r -> hasDigit r = true -> hasDigit s = true.
Proof.
  intros H Hr. rewrite (stripPrefix_spec p s r H). apply hasDigit_suffix. exact Hr.
Qed.

Lemma wordYearAt_digit (s : string) (r : string * string) :
  Re.wordYearAt s = Some r -> hasDigit s = true.
Proof.
  unfold Re.wordYearAt. destruct (Re.word1 s) as [[w r0]|] eqn:Hw; [|discriminate].
  destruct (stripPrefix " " r0) as [r1|] eqn:Hp; [|discriminate].
  destruct (takeN isDigit 4 r1) as [[y r2]|] eqn:Ht; [|discriminate]. intros _.
  eapply word1_digit; [exact Hw|]. eapply stripPrefix_digit; [exact Hp|].
  eapply takeN_digit. exact Ht.
Qed.

Lemma search_digit {A} (m : string -> option A) (t : string) (r : A) :
  (forall s r, m s = Some r -> hasDigit s = true) ->
  Re.search m t = Some r -> hasDigit t = true.
Proof.
  intros Hm H. unfold Re.search in H.
  apply searchFrom_found in H as (prev & a & s' & -> & H).
  apply hasDigit_suffix. eapply Hm. exact H.
Qed.

Lemma monthYear_digit (t : string) (r : string * string) :
  Re.monthYear t = Some r -> hasDigit t = true.
Proof. apply search_digit. apply wordYearAt_digit. Qed.

Lemma firstWeek_digit (t : string) (r : string * string) :
  Re.firstWeek t = Some r -> hasDigit t = true.
Proof.
  apply search_digit. intros s r0.
  destruct (stripPrefix "first week of " s) as [r1|] eqn:Hp; [|discriminate].
  intros H. eapply stripPrefix_digit; [exact Hp|]. eapply wordYearAt_digit. exact H.
Qed.

Lemma monthYearSpaces_digit (t : string) (r : string * string) :
  Re.monthYearSpaces t = Some r -> hasDigit t = true.
Proof.
  apply search_digit. intros s r0.
  destruct (Re.word1 s) as [[w r1]|] eqn:Hw; [|discriminate].
  destruct (Re.space1 r1) as [r2|] eqn:Hs; [|discriminate].
  destruct (takeN isDigit 4 r2) as [[y r3]|] eqn:Ht; [|discriminate]. intros _.
  eapply word1_digit; [exact Hw|]. eapply space1_digit; [exact Hs|].
  eapply takeN_digit. exact Ht.
Qed.

Lemma dayAlts_digit (s : string) (x : string * string) :
  In x (Re.dayAlts s) -> hasDigit s = true.
Proof.
  unfold Re.dayAlts.
  destruct (takeN isDigit 1 s) as [[a b]|] eqn:H1.
  - intros _. eapply takeN_digit. exact H1.
  - destruct (takeN isDigit 2 s); intros [].
Qed.

Lemma monthDayThen_digit {B} (k : string -> string -> string -> option B) (s : string) (r : B) :
  Re.monthDayThen k s = Some r -> hasDigit s = true.
Proof.
  unfold Re.monthDayThen. destruct (Re.word1 s) as [[w r1]|] eqn:Hw; [|discriminate].
  destruct (Re.space1 r1) as [r2|] eqn:Hs; [|discriminate].
  intros H. apply firstOf_some in H as (x & Hx & _).
  eapply word1_digit; [exact Hw|]. eapply space1_digit; [exact Hs|].
  eapply dayAlts_digit. exact Hx.
Qed.

Lemma betweenDates_digit (t : string) r :
  Re.betweenDates t = Some r -> hasDigit t = true.
Proof.
  apply search_digit. intros s r0.
  destruct (stripPrefix "between" s) as [r1|] eqn:Hp; [|discriminate].
  destruct (Re.space1 r1) as [r2|] eqn:Hs; [|discriminate].
  intros H. eapply stripPrefix_digit; [exact Hp|]. eapply space1_digit; [exact Hs|].
  eapply monthDayThen_digit. exact H.
Qed.

End DigitFacts.

Section ResolverFacts.
Import Str JsDate QueryGenerator Spec DateShape.
Variable tz : Z.
Variable now : Now.

Lemma digit_free_branches (t : string) :
  hasDigit t = false ->
  firstWeekBranch tz t = None /\ betweenBranch tz t = None /\ monthYearBranch tz t = None.
Proof.
  intros H. unfold firstWeekBranch, betweenBranch, monthYearBranch.
  destruct (Re.firstWeek t) as [r|] eqn:H1;
    [apply firstWeek_digit in H1; congruence|].
  destruct (Re.betweenDates t) as [r|] eqn:H2;
    [apply betweenDates_digit in H2; congruence|].
  destruct (Re.monthYear t) as [r|] eqn:H3;
    [apply monthYear_digit in H3; congruence|].
  auto.
Qed.

Lemma parseDateExpressions_digit_free (text : string) :
  hasDigit text = false ->
  parseDateExpressions tz now text
  = if isEmpty text then None else lastMonthBranch tz now (toLowerCase text).
Proof.
  intros H. unfold parseDateExpressions. destruct (isEmpty text); [reflexivity|].
  cbv zeta. rewrite <- hasDigit_toLowerCase in H.
  destruct (digit_free_branches _ H) as (H1 & H2 & H3).
  cbn [Re.firstOf]. rewrite H1, H2, H3.
  destruct (lastMonthBranch tz now (toLowerCase text)); reflexivity.
Qed.

Lemma makeDay_first_of_previous (y m : Z) :
  0 <= m <= 11 ->
  makeDay y (m - 1) 1 = (let '(py, pm) := previousMonth y m in makeDay py pm 1).
Proof.
  intros Hm. unfold previousMonth. destruct (Z.eqb_spec m 0) as [->|Hne]; [|reflexivity].
  unfold makeDay. change ((0 - 1) / 12) with (-1). change ((0 - 1) mod 12) with 11.
  change (11 / 12) with 0. change (11 mod 12) with 11.
  replace (y + -1) with (y - 1) by lia. replace (y - 1 + 0) with (y - 1) by lia. reflexivity.
Qed.

Lemma makeDay_day_zero (y m : Z) :
  0 <= m <= 11 ->
  makeDay y m 0 = (let '(py, pm) := previousMonth y m in makeDay py pm (daysInMonth py pm)).
Proof.
  intros Hm. unfold previousMonth. destruct (Z.eqb_spec m 0) as [->|Hne].
  - pose proof (month_length (y - 1) 11 ltac:(lia)) as Hl.
    assert (He : makeDay (y - 1) (11 + 1) 1 = makeDay y 0 1).
    { unfold makeDay. change ((11 + 1) / 12) with 1. change ((11 + 1) mod 12) with 0.
      change (0 / 12) with 0. change (0 mod 12) with 0.
      replace (y - 1 + 1) with y by lia. replace (y + 0) with y by lia. reflexivity. }
    rewrite He in Hl. unfold makeDay in *. lia.
  - pose proof (month_length y (m - 1) ltac:(lia)) as Hl.
    replace (m - 1 + 1) with m in Hl by lia. unfold makeDay in *. lia.
Qed.

Lemma civil_day_zero (y m : Z) :
  0 <= m <= 11 ->
  civilFromDays (makeDay y m 0)
  = (let '(py, pm) := previousMonth y m in (py, pm + 1, daysInMonth py pm)).
Proof.
  intros Hm. rewrite makeDay_day_zero by exact Hm.
  unfold previousMonth. destruct (Z.eqb_spec m 0) as [->|Hne].
  - apply civil_day; [lia|]. change (daysInMonth (y - 1) 11) with 31. lia.
  - apply civil_day; [lia|].
    unfold daysInMonth. repeat match goal with |- context [if ?b then _ else _] => destruct b end; lia.
Qed.

End ResolverFacts.

(** X14.  A question with no decimal digit resolves to a date interval
    only through the words "last month": without them the resolver returns
    no interval. *)
Theorem no_digit_no_date :
  forall (tz : Z) (now : Now) (text : string),
    DateShape.hasDigit text = false ->
    QueryGenerator.has (Str.toLowerCase text) "last month" = false ->
    QueryGenerator.parseDateExpressions tz now text = None.
Proof.
  intros tz now text Hd Hl. rewrite parseDateExpressions_digit_free by exact Hd.
  destruct (Str.isEmpty text); [reflexivity|].
  unfold QueryGenerator.lastMonthBranch. rewrite Hl. reflexivity.
Qed.

Lemma no_digit_no_date_witness :
  QueryGenerator.parseDateExpressions 0 nov2026 "Which docking point saw the most departures?"
  = None.
Proof.
  apply (no_digit_no_date 0 nov2026 "Which docking point saw the most departures?");
    vm_compute; reflexivity.
Defined.

(** X15.  At or west of UTC, a question with no decimal digit that contains
    "last month" resolves to the first and the last day of the month before
    the current one: the upper bound is the last day of that month, not the
    first day of the current month. *)
Theorem last_month_interval :
  forall (tz : Z) (now : Now) (text : string),
    DateShape.hasDigit text = false ->
    QueryGenerator.has (Str.toLowerCase text) "last month" = true ->
    -1440 < tz <= 0 -> 101 <= nowYear now -> 0 <= nowMonth now <= 11 ->
    let '(py, pm) := DateShape.previousMonth (nowYear now) (nowMonth now) in
    QueryGenerator.parseDateExpressions tz now text
    = Some (JsDate.isoOfCivil (py, pm + 1, 1),
            JsDate.isoOfCivil (py, pm + 1, JsDate.daysInMonth py pm)).
Proof.
  intros tz now text Hd Hl Htz Hy Hm.
  rewrite parseDateExpressions_digit_free by exact Hd.
  assert (Hne : Str.isEmpty text = false) by (destruct text; [discriminate Hl|reflexivity]).
  rewrite Hne. unfold QueryGenerator.lastMonthBranch. rewrite Hl.
  rewrite !isoDate_west by (assumption || lia).
  rewrite civil_day_zero, makeDay_first_of_previous by exact Hm.
  unfold DateShape.previousMonth. destruct (Z.eqb_spec (nowMonth now) 0) as [H0|H0].
  - rewrite civil_first_of_month by lia. reflexivity.
  - rewrite civil_first_of_month by lia. reflexivity.
Qed.

Lemma last_month_interval_witness :
  QueryGenerator.parseDateExpressions 0 nov2026 "total rides last month"
  = Some ("2026-10-01", "2026-10-31").
Proof.
  apply (last_month_interval 0 nov2026 "total rides last month");
    first [vm_compute; reflexivity | cbn; lia].
Defined.

Section IntervalFacts.
Import Str JsDate QueryGenerator Spec DateShape.

Lemma getMonthIndex_range (w : string) (m : Z) :
  getMonthIndex w = Some m -> 0 <= m <= 11.
Proof.
  unfold getMonthIndex, months. cbn [indexOf].
  repeat (destruct (String.eqb _ (toLowerCase w)); [intros H; inversion H; lia|]).
  discriminate.
Qed.

Lemma getMonthNumber_range (w : string) (m : Z) :
  getMonthNumber w = Some m -> 0 <= m <= 11.
Proof.
  unfold getMonthNumber, monthMap. cbv zeta. cbn [List.find fst snd].
  repeat (destruct (String.eqb _ (toLowerCase w)); [intros H; inversion H; lia|]).
  destruct (elem _ _); [discriminate|]. intros H; inversion H; lia.
Qed.

Lemma daysInMonth_range (y m : Z) : 28 <= daysInMonth y m <= 31.
Proof.
  unfold daysInMonth.
  repeat match goal with |- context [if ?b then _ else _] => destruct b end; lia.
Qed.

Lemma ofLocal_plus_week (tz y m d : Z) :
  ofLocal tz y m d + 7 * 24 * 60 * 60 * 1000 = ofLocal tz y m (d + 7).
Proof. unfold ofLocal, makeDay, msPerDay. lia. Qed.

Lemma makeDay_pred (y m d : Z) : makeDay y m d - 1 = makeDay y m (d - 1).
Proof. unfold makeDay. lia. Qed.

Lemma search_nonempty {A} (m : string -> option A) (text : string) (r : A) :
  m "" = None -> Re.search m (toLowerCase text) = Some r -> isEmpty text = false.
Proof.
  intros Hm H. destruct text; [|reflexivity].
  unfold Re.search in H. cbn in H. rewrite Hm in H. discriminate.
Qed.

Lemma civil_next_day (y m d : Z) :
  0 <= m <= 11 -> 1 <= d <= daysInMonth y m ->
  civilFromDays (makeDay y m (d + 1)) = civilOf (nextDay y m d).
Proof.
  intros Hm Hd. unfold nextDay. destruct (Z.ltb_spec d (daysInMonth y m)) as [Hlt|Hge].
  - apply civil_day; [exact Hm|lia].
  - assert (He : d = daysInMonth y m) by lia.
    pose proof (month_length y m Hm) as Hl.
    replace (makeDay y m (d + 1)) with (makeDay y (m + 1) 1) by (unfold makeDay in *; lia).
    rewrite civil_first_of_following_month by exact Hm.
    unfold nextMonth. destruct (m =? 11); reflexivity.
Qed.

End IntervalFacts.

(** X16.  When the first-week pattern matches a known month name and a
    year from 100 on, the resolver returns a seven-day interval whatever
    else the question contains: at or west of UTC from the 1st to the 8th of
    the month; east of UTC both bounds are one day early, from the last day
    of the previous month to the 7th. *)
Theorem first_week_interval :
  forall (tz : Z) (now : Now) (text w d : string) (m : Z),
    Re.firstWeek (Str.toLowerCase text) = Some (w, d) ->
    QueryGenerator.getMonthIndex w = Some m ->
    100 <= Str.parseInt d ->
    let y := Str.parseInt d in
    (-1440 < tz <= 0 ->
     QueryGenerator.parseDateExpressions tz now text
     = Some (JsDate.isoOfCivil (y, m + 1, 1), JsDate.isoOfCivil (y, m + 1, 8)))
    /\ (0 < tz <= 1440 ->
        QueryGenerator.parseDateExpressions tz now text
        = Some (JsDate.isoOfCivil
                  (let '(py, pm) := DateShape.previousMonth y m in
                   (py, pm + 1, JsDate.daysInMonth py pm)),
                JsDate.isoOfCivil (y, m + 1, 7))).
Proof.
  intros tz now text w d m Hre Hidx Hy y.
  pose proof (getMonthIndex_range w m Hidx) as Hm.
  pose proof (daysInMonth_range y m) as Hdim.
  assert (Hne : Str.isEmpty text = false).
  { unfold Re.firstWeek in Hre. eapply search_nonempty; [|exact Hre]. reflexivity. }
  assert (Hp : QueryGenerator.parseDateExpressions tz now text
               = Some (JsDate.isoDate (JsDate.ofLocal tz y m 1),
                       JsDate.isoDate (JsDate.ofLocal tz y m 8))).
  { unfold QueryGenerator.parseDateExpressions. rewrite Hne. cbv zeta.
    cbn [Re.firstOf]. unfold QueryGenerator.firstWeekBranch. rewrite Hre, Hidx.
    cbv zeta. fold y. rewrite ofLocal_plus_week. reflexivity. }
  rewrite Hp. split; intros Htz.
  - rewrite !isoDate_west by (assumption || lia).
    rewrite civil_first_of_month by exact Hm.
    rewrite (civil_day y m 8) by lia. reflexivity.
  - rewrite !isoDate_east by (assumption || lia).
    rewrite !makeDay_pred. change (1 - 1) with 0. change (8 - 1) with 7.
    rewrite civil_day_zero by exact Hm.
    rewrite (civil_day y m 7) by lia. reflexivity.
Qed.

Lemma first_week_interval_witness :
  QueryGenerator.parseDateExpressions 0 nov2026 "Rides in the first week of June 2025"
  = Some ("2025-06-01", "2025-06-08")
  /\ QueryGenerator.parseDateExpressions 330 nov2026 "Rides in the first week of June 2025"
     = Some ("2025-05-31", "2025-06-07").
Proof.
  pose proof (first_week_interval 0 nov2026 "Rides in the first week of June 2025"
                "june" "2025" 5 eq_refl eq_refl ltac:(vm_compute; discriminate)) as [H _].
  pose proof (first_week_interval 330 nov2026 "Rides in the first week of June 2025"
                "june" "2025" 5 eq_refl eq_refl ltac:(vm_compute; discriminate)) as [_ H'].
  split; [apply H | apply H']; lia.
Defined.

(** X17.  When the last-day override fires with a month word that the month
    table resolves to index [mn] and a year from 100 on, at or west of UTC,
    it keeps the predicates on other columns, drops every earlier predicate
    on started_at or ended_at, and appends two bounds: from the last day of
    the month before the named one to the first day of the named month. *)
Theorem last_day_override_interval :
  forall (tz : Z) (t w d : string) (mn : Z) (accumulated : list Filter),
    -1440 < tz <= 0 ->
    QueryGenerator.has t "last day" = true ->
    Re.monthYearSpaces t = Some (w, d) ->
    QueryGenerator.getMonthNumber w = Some mn ->
    100 <= Str.parseInt d ->
    let y := Str.parseInt d in
    QueryGenerator.lastDayOverride tz t accumulated
    = inr (List.filter QueryGenerator.isNonDateFilter accumulated
           ++ [QueryGenerator.mkFilter "started_at" ">="
                 (QueryGenerator.str (JsDate.isoOfCivil
                         (let '(py, pm) := DateShape.previousMonth y mn in
                          (py, pm + 1, JsDate.daysInMonth py pm))));
               QueryGenerator.mkFilter "started_at" "<" (QueryGenerator.str (JsDate.isoOfCivil (y, mn + 1, 1)))])%list.
Proof.
  intros tz t w d mn acc Htz Hhas Hre Hnum Hy y.
  pose proof (getMonthNumber_range w mn Hnum) as Hm.
  unfold QueryGenerator.lastDayOverride. rewrite Hhas, Hre, Hnum.
  cbn [orb]. cbv zeta. fold y.
  rewrite !isoDate_west by (assumption || lia).
  rewrite civil_day_zero, civil_first_of_month by exact Hm. reflexivity.
Qed.

Lemma last_day_override_interval_witness :
  QueryGenerator.lastDayOverride 0 "rides on the last day of february 2024"
    [QueryGenerator.mkFilter "started_at" ">=" (QueryGenerator.str "2024-02-01"); QueryGenerator.mkFilter "rider_gender" "=" (QueryGenerator.str "female")]
  = inr [QueryGenerator.mkFilter "rider_gender" "=" (QueryGenerator.str "female");
         QueryGenerator.mkFilter "started_at" ">=" (QueryGenerator.str "2024-01-31");
         QueryGenerator.mkFilter "started_at" "<" (QueryGenerator.str "2024-02-01")].
Proof.
  apply (last_day_override_interval 0 "rides on the last day of february 2024"
           "february" "2024" 1);
    first [reflexivity | lia | vm_compute; discriminate].
Defined.

(** X18.  When the first-week pattern gives no interval and the between
    pattern matches two known month names, days that exist in those months
    and a year from 100 on, at or west of UTC, the resolver returns the
    start day and the day after the end day: the interval is half open. *)
Theorem between_interval :
  forall (tz : Z) (now : Now) (text w1 d1 w2 d2 d : string) (m1 m2 : Z),
    -1440 < tz <= 0 ->
    QueryGenerator.firstWeekBranch tz (Str.toLowerCase text) = None ->
    Re.betweenDates (Str.toLowerCase text) = Some (w1, d1, w2, d2, d) ->
    QueryGenerator.getMonthIndex w1 = Some m1 ->
    QueryGenerator.getMonthIndex w2 = Some m2 ->
    100 <= Str.parseInt d ->
    let y := Str.parseInt d in
    1 <= Str.parseInt d1 <= JsDate.daysInMonth y m1 ->
    1 <= Str.parseInt d2 <= JsDate.daysInMonth y m2 ->
    QueryGenerator.parseDateExpressions tz now text
    = Some (JsDate.isoOfCivil (y, m1 + 1, Str.parseInt d1),
            JsDate.isoOfCivil (DateShape.civilOf (DateShape.nextDay y m2 (Str.parseInt d2)))).
Proof.
  intros tz now text w1 d1 w2 d2 d m1 m2 Htz Hfw Hre Hi1 Hi2 Hy y Hd1 Hd2.
  pose proof (getMonthIndex_range w1 m1 Hi1) as Hm1.
  pose proof (getMonthIndex_range w2 m2 Hi2) as Hm2.
  assert (Hne : Str.isEmpty text = false).
  { unfold Re.betweenDates in Hre. eapply search_nonempty; [|exact Hre]. reflexivity. }
  unfold QueryGenerator.parseDateExpressions. rewrite Hne. cbv zeta.
  cbn [Re.firstOf]. rewrite Hfw. unfold QueryGenerator.betweenBranch.
  rewrite Hre, Hi1, Hi2. cbv zeta. fold y.
  rewrite !isoDate_west by (assumption || lia).
  rewrite civil_day by assumption. rewrite civil_next_day by assumption. reflexivity.
Qed.

Lemma between_interval_witness :
  QueryGenerator.parseDateExpressions 0 nov2026 "Trips between June 3 and June 30, 2025"
  = Some ("2025-06-03", "2025-07-01").
Proof.
  apply (between_interval 0 nov2026 "Trips between June 3 and June 30, 2025"
           "june" "3" "june" "30" "2025" 5 5);
    first [reflexivity | lia | vm_compute; split; discriminate | vm_compute; discriminate].
Defined.

Example extract_object_with_prose :
  JsonGuard.extractFirstJsonObject "Here: {'a': {'b': 1}} and {more}" = Some "{'a': {'b': 1}}".
Proof. vm_compute. reflexivity. Qed.

Example extract_unclosed : JsonGuard.extractFirstJsonObject "{'a': {'b': 1}" = None.
Proof. vm_compute. reflexivity. Qed.

Section JsonGuardFacts.
Import Str JsonGuard.

Lemma option_map_some {A B} (f : A -> B) (o : option A) (r : B) :
  option_map f o = Some r -> exists a, o = Some a /\ r = f a.
Proof. destruct o; [|discriminate]. intros H. inversion H. eauto. Qed.

Lemma scan_step (d : Z) (i e : bool) (ch : ascii) (s r : string) :
  scan d i e (String ch s) = Some r ->
  (r = String ch "" /\ ch = "}"%char /\ forall t, scan d i e (String ch t) = Some r)
  \/ exists d' i' e' r', scan d' i' e' s = Some r' /\ r = String ch r'
                         /\ forall t, scan d i e (String ch t) = option_map (String ch) (scan d' i' e' t).
Proof.
  cbn [scan]. cbv zeta. intros H.
  destruct i.
  - right. apply option_map_some in H as (r' & H & ->). eauto 10.
  - destruct (Ascii.eqb ch quote) eqn:Hq.
    { right. apply option_map_some in H as (r' & H & ->). eauto 10. }
    destruct (Ascii.eqb ch "{") eqn:Hb.
    { right. apply option_map_some in H as (r' & H & ->). eauto 10. }
    destruct (Ascii.eqb_spec ch "}") as [->|Hc].
    + destruct (d - 1 =? 0) eqn:Hz.
      * left. inversion H. auto.
      * right. apply option_map_some in H as (r' & H & ->). eauto 10.
    + right. apply option_map_some in H as (r' & H & ->). eauto 10.
Qed.

(** a successful scan returns a prefix of its input that ends with a
    closing brace, and the scan of that prefix followed by anything is the
    same *)
Lemma scan_prefix (s : string) :
  forall (d : Z) (i e : bool) (r : string),
    scan d i e s = Some r ->
    (exists b, s = r ++ b) /\ (exists r', r = r' ++ "}")
    /\ forall t, scan d i e (r ++ t) = Some r.
Proof.
  induction s as [|ch s IH]; intros d i e r H; [discriminate|].
  apply scan_step in H as [(-> & -> & Hstep)|(d' & i' & e' & r' & H & -> & Hstep)].
  - split; [exists s; reflexivity|]. split; [exists ""; reflexivity|].
    intros t. change ("}" ++ t) with (String "}" t). apply Hstep.
  - destruct (IH _ _ _ _ H) as ((b & ->) & (r'' & ->) & Hstable).
    split; [exists b; rewrite append_cons; reflexivity|].
    split; [exists (String ch r''); rewrite append_cons; reflexivity|].
    intros t. rewrite append_cons, Hstep, Hstable. reflexivity.
Qed.

(** the flag [esc] has no effect: a quotation mark always ends a string *)
Lemma scan_esc (s : string) :
  forall (d : Z) (i e : bool), scan d i e s = scan d i false s.
Proof.
  induction s as [|ch s IH]; intros d i e; [reflexivity|].
  cbn [scan]. cbv zeta. destruct i.
  - destruct (Ascii.eqb ch backslash) eqn:Hb.
    + assert (Hq : Ascii.eqb ch quote = false).
      { apply Ascii.eqb_eq in Hb. subst. reflexivity. }
      rewrite Hq. cbn [andb]. rewrite (IH d true (negb e)), (IH d true (negb false)).
      reflexivity.
    + reflexivity.
  - destruct (Ascii.eqb ch quote); [rewrite (IH d true e); reflexivity|].
    destruct (Ascii.eqb ch "{"); [rewrite (IH (d + 1) false e); reflexivity|].
    destruct (Ascii.eqb ch "}"); [|rewrite (IH d false e); reflexivity].
    destruct (d - 1 =? 0); [reflexivity|]. rewrite (IH (d - 1) false e). reflexivity.
Qed.

Lemma fromFirstBrace_spec (s t : string) :
  fromFirstBrace s = Some t ->
  exists a t', s = a ++ t /\ t = String "{" t' /\ includes a "{" = false.
Proof.
  revert t. induction s as [|c s IH]; intros t; [discriminate|]. cbn [fromFirstBrace].
  destruct (Ascii.eqb_spec c "{") as [->|Hc].
  - intros H. inversion H. exists "", s. auto.
  - intros H. apply IH in H as (a & t' & -> & -> & Ha).
    exists (String c a), t'. split; [rewrite append_cons; reflexivity|]. split; [reflexivity|].
    cbn [includes startsWith]. rewrite Ha.
    destruct (Ascii.eqb_spec "{" c) as [<-|_]; [contradiction|]. reflexivity.
Qed.

Lemma fromFirstBrace_none (s : string) :
  fromFirstBrace s = None <-> includes s "{" = false.
Proof.
  induction s as [|c s IH]; [split; reflexivity|]. cbn [fromFirstBrace includes startsWith].
  rewrite startsWith_nil, andb_true_r, (Ascii.eqb_sym "{" c).
  destruct (Ascii.eqb c "{"); [split; discriminate|]. exact IH.
Qed.

Lemma fromFirstBrace_app (a s : string) :
  includes a "{" = false -> fromFirstBrace (a ++ s) = fromFirstBrace s.
Proof.
  induction a as [|c a IH]; [reflexivity|]. rewrite append_cons.
  cbn [fromFirstBrace includes startsWith].
  rewrite startsWith_nil, andb_true_r, (Ascii.eqb_sym "{" c).
  destruct (Ascii.eqb c "{"); [discriminate|]. exact IH.
Qed.

Lemma append_nil_r (s : string) : s ++ "" = s.
Proof. induction s as [|c s IH]; [reflexivity|]. rewrite append_cons, IH. reflexivity. Qed.

Lemma append_assoc (a b c : string) : (a ++ b) ++ c = a ++ b ++ c.
Proof. induction a as [|x a IH]; [reflexivity|]. rewrite !append_cons, IH. reflexivity. Qed.

End JsonGuardFacts.

(** X19.  An extracted object is a piece of the answer that starts at the
    answer's first opening brace and ends with a closing brace; an answer
    with no opening brace gives no object. *)
Theorem extracted_object_shape :
  forall s : string,
    match JsonGuard.extractFirstJsonObject s with
    | Some r =>
        exists a body b : string,
          s = a ++ r ++ b /\ Str.includes a "{" = false /\ r = "{" ++ body ++ "}"
    | None => True
    end
    /\ (Str.includes s "{" = false -> JsonGuard.extractFirstJsonObject s = None).
Proof.
  intros s. unfold JsonGuard.extractFirstJsonObject. split.
  - destruct (JsonGuard.fromFirstBrace s) as [t|] eqn:Hf; [|exact I].
    destruct (JsonGuard.scan 0 false false t) as [r|] eqn:Hs; [|exact I].
    apply fromFirstBrace_spec in Hf as (a & t' & -> & -> & Ha).
    pose proof Hs as Hs'.
    apply scan_prefix in Hs as ((b & Hb) & (r' & ->) & _).
    exists a. destruct r' as [|c r'].
    + exfalso. revert Hs'. cbn. destruct (JsonGuard.scan _ _ _ t'); discriminate.
    + rewrite append_cons in Hb. inversion Hb; subst.
      exists r', b. auto.
  - intros H. apply fromFirstBrace_none in H. rewrite H. reflexivity.
Qed.

Lemma extracted_object_shape_witness :
  JsonGuard.extractFirstJsonObject "I cannot answer that." = None.
Proof. apply (proj2 (extracted_object_shape "I cannot answer that.")). reflexivity. Defined.

(** X20.  Extraction is stable: text before the first opening brace and
    text after the extracted object do not change the result, and the
    extracted object extracts to itself. *)
Theorem extraction_is_stable :
  forall s r : string,
    JsonGuard.extractFirstJsonObject s = Some r ->
    JsonGuard.extractFirstJsonObject r = Some r
    /\ forall a t : string,
         Str.includes a "{" = false ->
         JsonGuard.extractFirstJsonObject (a ++ s ++ t) = Some r.
Proof.
  intros s r. unfold JsonGuard.extractFirstJsonObject.
  destruct (JsonGuard.fromFirstBrace s) as [u|] eqn:Hf; [|discriminate].
  intros Hs. apply fromFirstBrace_spec in Hf as (a0 & u' & -> & -> & Ha0).
  pose proof (scan_prefix _ _ _ _ _ Hs) as ((b & Hb) & _ & Hstable).
  assert (Hr : exists r', r = String "{" r').
  { destruct (scan_step _ _ _ _ _ _ Hs) as [(-> & _)|(? & ? & ? & r' & _ & -> & _)]; eauto. }
  destruct Hr as (r' & Hr). split.
  - rewrite Hr. cbn [JsonGuard.fromFirstBrace]. change (Ascii.eqb "{" "{") with true.
    cbv iota. rewrite <- Hr. rewrite <- (append_nil_r r) at 1. apply Hstable.
  - intros a t Ha. rewrite fromFirstBrace_app by exact Ha.
    rewrite append_assoc, fromFirstBrace_app by exact Ha0.
    rewrite Hb, append_assoc, Hr, append_cons. cbn [JsonGuard.fromFirstBrace].
    change (Ascii.eqb "{" "{") with true. cbv iota.
    rewrite <- append_cons, <- Hr. apply Hstable.
Qed.

Lemma extraction_is_stable_witness :
  JsonGuard.extractFirstJsonObject "{'k': 1}" = Some "{'k': 1}"
  /\ JsonGuard.extractFirstJsonObject ("Answer: " ++ "x {'k': 1} y" ++ " {trailing}")
     = Some "{'k': 1}".
Proof.
  destruct (extraction_is_stable "x {'k': 1} y" "{'k': 1}" eq_refl) as [H1 H2].
  split; [exact H1 | apply H2; reflexivity].
Defined.

(** X21.  The scanner's escape flag never changes its result, so a
    backslash does not protect a quotation mark: inside a string the next
    quotation mark ends the string even when a backslash precedes it. *)
Theorem backslash_does_not_escape :
  (forall (d : Z) (inStr esc : bool) (s : string),
     JsonGuard.scan d inStr esc s = JsonGuard.scan d inStr false s)
  /\ (forall (d : Z) (esc : bool) (s : string),
        JsonGuard.scan d true esc (String JsonGuard.backslash (String JsonGuard.quote s))
        = option_map (fun r => String JsonGuard.backslash (String JsonGuard.quote r))
                     (JsonGuard.scan d false false s)).
Proof.
  split; [intros d i e s; apply scan_esc|].
  intros d e s. cbn [JsonGuard.scan]. cbv zeta.
  change (Ascii.eqb JsonGuard.backslash JsonGuard.backslash) with true.
  change (Ascii.eqb JsonGuard.backslash JsonGuard.quote) with false.
  change (Ascii.eqb JsonGuard.quote JsonGuard.backslash) with false.
  change (Ascii.eqb JsonGuard.quote JsonGuard.quote) with true.
  cbn [andb negb].
  destruct (JsonGuard.scan d false false s); reflexivity.
Qed.

(** an object whose string holds an escaped quotation mark and then a
    closing brace is cut at that brace *)
Example extract_escaped_quote :
  let q := String JsonGuard.quote "" in
  let b := String JsonGuard.backslash "" in
  JsonGuard.extractFirstJsonObject ("{" ++ q ++ "k" ++ q ++ ":" ++ q ++ "x" ++ b ++ q ++ "}" ++ q ++ "}")
  = Some ("{" ++ q ++ "k" ++ q ++ ":" ++ q ++ "x" ++ b ++ q ++ "}").
Proof. vm_compute. reflexivity. Qed.
